(** * Retrieval strategy engine of [retriver_demo_low/retriver_demo.py]

    A shallow embedding of [RetrieverTools] and [RetrieverAgent]: the
    rule-based strategy selector, the query rewriter, the parameter builder,
    the three backend dispatchers, the result post-processor, the listener
    notification loop and the [search] orchestrator, followed by the
    properties of the specification that are stated about them.

    Conventions of the embedding.
    - A Python [str] that holds user text (queries, result contents) is a list
      of Unicode code points, [pystr]: slicing, [split], [lower] and [in] all
      work on code points.  Identifiers that the program itself writes down
      (dictionary keys, enum values, data-source names) are Rocq [string]s.
    - A Python [dict] keyed by such identifiers is a [gmap string pyval];
      [d.get(k, v)] is [default v (d !! k)].
    - Scores are rationals: every finite float and every int is one, and they
      compare the same way.  NaN is left out (Python's sort has no specified
      outcome once a NaN takes part in a comparison), and so are infinities:
      the statements about sorted results are for finite scores.  Float
      arithmetic is not modelled either: the one score that the code
      computes, [1.0 - idx * 0.1], is written as the exact rational, and
      only what holds of the float as well is stated about it.
    - [await] is sequential here (no task runs beside [search]), so async
      functions are computations of a state-and-exception monad over the state
      of the external collaborators.  Only exceptions derived from
      [Exception] are modelled; that is what every [except] of the file
      catches. *)

From Stdlib Require Import QArith Lqa.
From stdpp Require Import gmap strings list sorting.

Set Default Proof Using "Type".
Local Open Scope N_scope.

(** ** Python strings *)

Definition pystr := list N.

(** UTF-8 decoding of a literal of this file into code points. *)
Fixpoint utf8_go (need : nat) (acc : N) (bs : list N) : pystr :=
  match bs with
  | [] => []
  | b :: rest =>
      match need with
      | O => if b <? 128 then b :: utf8_go 0 0 rest
             else if b <? 224 then utf8_go 1 (b - 192) rest
             else if b <? 240 then utf8_go 2 (b - 224) rest
             else utf8_go 3 (b - 240) rest
      | S O => (acc * 64 + (b - 128)) :: utf8_go 0 0 rest
      | S n => utf8_go n (acc * 64 + (b - 128)) rest
      end
  end.

Definition utf8 (s : string) : pystr :=
  utf8_go 0 0 (Ascii.N_of_ascii <$> String.list_ascii_of_string s).

(** [str.isspace] on one code point: CPython's [_PyUnicode_IsWhitespace]. *)
Definition isspace (c : N) : bool :=
  ((9 <=? c) && (c <=? 13)) || ((28 <=? c) && (c <=? 32))
  || (c =? 133) || (c =? 160) || (c =? 5760)
  || ((8192 <=? c) && (c <=? 8202))
  || (c =? 8232) || (c =? 8233) || (c =? 8239) || (c =? 8287) || (c =? 12288).

(** [s.split()] without argument: the maximal runs of non-whitespace.
    [cur] is the token being read. *)
Fixpoint split_go (cur : pystr) (s : pystr) : list pystr :=
  match s with
  | [] => match cur with [] => [] | _ => [cur] end
  | c :: rest =>
      if isspace c
      then match cur with [] => split_go [] rest | _ => cur :: split_go [] rest end
      else split_go (cur ++ [c]) rest
  end.

Definition split (s : pystr) : list pystr := split_go [] s.

(** [sub in s] on strings. *)
Fixpoint startswith (s sub : pystr) {struct sub} : bool :=
  match sub, s with
  | [], _ => true
  | _ :: _, [] => false
  | a :: sub', b :: s' => (a =? b) && startswith s' sub'
  end.

Fixpoint contains (sub s : pystr) : bool :=
  startswith s sub || match s with [] => false | _ :: s' => contains sub s' end.

(** What [in] decides: an occurrence of [sub] as a contiguous block. *)
Definition occurs_in (sub s : pystr) : Prop := ∃ pre post, s = pre ++ sub ++ post.

(** [s[:n]] for a non-negative literal [n]. *)
Definition prefix_chars (n : nat) (s : pystr) : pystr := take n s.

(** The case mapping of the Python runtime, which the repository does not
    contain: [to_lower_full] is the Unicode table read by
    [_PyUnicode_ToLowerFull] (one code point to one, two or three), and
    [final_sigma] the context test that CPython applies to U+03A3 alone
    (arguments: the text before and the text after it). *)
Record CaseMapping := {
  to_lower_full : N → pystr;
  final_sigma : pystr → pystr → bool
}.

Section Lower.
Context (cm : CaseMapping).

(** CPython's [do_lower]: code point by code point, U+03A3 becoming U+03C2
    or U+03C3. [before] is the text already passed. *)
Fixpoint lower_go (before s : pystr) : pystr :=
  match s with
  | [] => []
  | c :: rest =>
      (if c =? 931
       then [if final_sigma cm before rest then 962 else 963]
       else to_lower_full cm c)
      ++ lower_go (before ++ [c]) rest
  end.

Definition lower (s : pystr) : pystr := lower_go [] s.
End Lower.

(** A case mapping that is right on ASCII and leaves every other code point
    alone; used to run the model on concrete ASCII and CJK inputs. *)
Definition ascii_case : CaseMapping := {|
  to_lower_full c := if (65 <=? c) && (c <=? 90) then [c + 32] else [c];
  final_sigma _ _ := false
|}.

(** ** Python values that callers put into dictionaries *)

#[warnings="-register-all"] Inductive pyval :=
| PyNone
| PyInt (z : Z)
| PyFloat (q : Q)
| PyStr (s : pystr)
| PyList (l : list pyval)
| PyDict (d : gmap string pyval).

Abbreviation pydict := (gmap string pyval).

(** [v == "..."] against a string literal. *)
Definition py_eq_str (v : pyval) (lit : pystr) : bool :=
  match v with
  | PyStr s => bool_decide (s = lit)
  | _ => false
  end.

(** Exceptions: the class name and [str(e)].  The texts of the type errors
    are abridged: Python's name the types of the operands. *)
Record exn := Exn { exn_type : string; exn_msg : pystr }.

Inductive result (A : Type) :=
| Ok (a : A)
| Raise (e : exn).
Arguments Ok {A} a.
Arguments Raise {A} e.

(** ** [SearchStrategy] *)

Inductive SearchStrategy := VECTOR | KEYWORD | HYBRID | WEB | CRM.

Definition value (s : SearchStrategy) : string :=
  match s with
  | VECTOR => "vector"
  | KEYWORD => "keyword"
  | HYBRID => "hybrid"
  | WEB => "web"
  | CRM => "crm"
  end.

(** [SearchStrategy(v)]: the member with that value, or [ValueError]. *)
Definition SearchStrategy_of (v : string) : result SearchStrategy :=
  if bool_decide (v = "vector") then Ok VECTOR
  else if bool_decide (v = "keyword") then Ok KEYWORD
  else if bool_decide (v = "hybrid") then Ok HYBRID
  else if bool_decide (v = "web") then Ok WEB
  else if bool_decide (v = "crm") then Ok CRM
  else Raise (Exn "ValueError" (utf8 "not a valid SearchStrategy")).

(** The dictionary that [_get_fallback_strategy] returns. *)
Record FallbackDict := {
  fb_strategy_type : string;
  fb_data_source : string
}.

(** The dictionary that [think_retrieval_strategy] returns. *)
Record StrategyDict := {
  sd_strategy_type : string;
  sd_data_source : string;
  sd_query : pystr;
  sd_original_query : pystr;
  sd_filters : pyval;
  sd_parameters : pydict;
  sd_fallback_strategy : option FallbackDict
}.

(** The dataclass [RetrievalStrategy]. *)
Record RetrievalStrategy := {
  strategy_type : SearchStrategy;
  data_source : string;
  query : pystr;
  original_query : pystr;
  filters : pyval;
  parameters : pydict;
  fallback_strategy : option FallbackDict
}.

(** ** [RetrieverTools]: the selector *)

Definition recency_keywords : list pystr :=
  [utf8 "最新"; utf8 "新闻"; utf8 "实时"; utf8 "current"; utf8 "latest"].

Definition document_marker : pystr := utf8 "文档".
Definition double_quote : pystr := [34].
Definition backtick : pystr := [96].
Definition elaboration_suffix : pystr := utf8 " 相关信息和详细内容".

Definition _rewrite_query_if_needed (query : pystr) (context : pydict) : pystr :=
  if (length (split query) <? 3)%nat
  then query ++ elaboration_suffix
  else query.

Definition _get_data_source_for_strategy (strategy : SearchStrategy) : string :=
  match strategy with
  | VECTOR => "zilliz_cloud"
  | KEYWORD => "opensearch"
  | HYBRID => "zilliz_cloud"
  | WEB => "duckduckgo"
  | CRM => "crm_api"
  end.

Definition fallback_mapping (primary_strategy : SearchStrategy) : option SearchStrategy :=
  match primary_strategy with
  | VECTOR => Some KEYWORD
  | KEYWORD => Some WEB
  | HYBRID => Some KEYWORD
  | WEB | CRM => None
  end.

Definition _get_fallback_strategy (primary_strategy : SearchStrategy) : option FallbackDict :=
  match fallback_mapping primary_strategy with
  | Some fallback =>
      Some {| fb_strategy_type := value fallback;
              fb_data_source := _get_data_source_for_strategy fallback |}
  | None => None
  end.

Definition _build_search_parameters (query : pystr) (context : pydict)
    (strategy : SearchStrategy) : pydict :=
  let params : pydict :=
    <["score_threshold" := default (PyFloat (1 # 2)) (context !! "score_threshold")]>
      (<["limit" := default (PyInt 10) (context !! "limit")]> ∅) in
  match strategy with
  | VECTOR =>
      <["search_fields" := PyList [PyStr (utf8 "content"); PyStr (utf8 "summary")]]> params
  | KEYWORD =>
      <["search_fields" :=
          PyList [PyStr (utf8 "title"); PyStr (utf8 "content"); PyStr (utf8 "keywords")]]>
        params
  | HYBRID =>
      <["keyword_weight" := PyFloat (3 # 10)]> (<["vector_weight" := PyFloat (7 # 10)]> params)
  | WEB | CRM => params
  end.

Section Selector.
Context (cm : CaseMapping).

Definition _select_search_strategy (query : pystr) (context : pydict) : SearchStrategy :=
  let doc_type := default (PyStr (utf8 "auto")) (context !! "doc_type") in
  let caller_agent := default (PyStr []) (context !! "caller_agent") in
  if existsb (λ keyword, contains keyword (lower cm query)) recency_keywords
  then WEB
  else if py_eq_str doc_type (utf8 "pdf") || contains document_marker query
  then VECTOR
  else if contains double_quote query || contains backtick query
  then KEYWORD
  else HYBRID.

Definition think_retrieval_strategy (query : pystr) (context : pydict) : StrategyDict :=
  let query_lower := lower cm query in
  let rewritten_query := _rewrite_query_if_needed query context in
  let strategy := _select_search_strategy rewritten_query context in
  let parameters := _build_search_parameters rewritten_query context strategy in
  {| sd_strategy_type := value strategy;
     sd_data_source := _get_data_source_for_strategy strategy;
     sd_query := rewritten_query;
     sd_original_query := query;
     sd_filters := default (PyDict ∅) (context !! "filters");
     sd_parameters := parameters;
     sd_fallback_strategy := _get_fallback_strategy strategy |}.
End Selector.

(** ** Results, events and responses *)

(** A result dictionary. [content] and [score] are read back with
    [.get(key, default)], so they may be absent.  When present, [content] is
    a string and [score] a finite number (an int or a float that is neither
    NaN nor infinite), written as the rational it stands for: the statements
    about the post-processor are for such results. *)
Record SearchResult := {
  content : option pystr;
  score : option Q;
  metadata : pydict;
  source : string;
  chunk_id : pyval
}.

(** The payloads of the lifecycle events, one per place that emits. *)
Inductive EventData :=
| RetrievalStartedData (q : pystr) (context : pydict) (started : Z)
| RetrievalStrategyCompletedData (strategy source_name : string) (rewritten_query : pystr)
| FallbackStrategyActivatedData (fallback : FallbackDict)
| ToolCallCompletedData (tool : string) (results_count : nat)
| RetrievalCompletedData (results_count : nat) (duration : Z) (strategy : string)
| RetrievalErrorData (err : pystr) (q : pystr).

Record Event := {
  event : string;
  agent_name : pystr;
  timestamp : Z;
  data : EventData
}.

Inductive ResponseMetadata :=
| SuccessMetadata (total_results : nat) (q rewritten_query : pystr)
    (strategy_used source_name : string) (duration_seconds : Z) (at_time : Z)
| FailureMetadata (q error_message : pystr) (at_time : Z).

Record ErrorInfo := { code : string; message : pystr }.

Record Response := {
  success : bool;
  results : list SearchResult;
  response_metadata : ResponseMetadata;
  error : option ErrorInfo
}.

(** The calls to [logger] of the file, one constructor per call site. *)
Inductive LogLine :=
| ZillizNotInitialised
| ZillizSearchFailed (e : exn)
| OpenSearchNotInitialised
| OpenSearchSearchFailed (e : exn)
| WebSearchFailed (e : exn)
| FallbackChosen (fallback : FallbackDict)
| ExecuteStrategyFailed (e : exn)
| RetrievalFailed (e : exn)
| HandlerFailed (e : exn).

(** What a run leaves behind, in order: the log lines, and two marks kept for
    the statements about how often something happens, one when
    [_execute_search_strategy] returns (the strategy it was given and the list
    it returns) and one before a handler is awaited. *)
Inductive Obs :=
| ObsLog (l : LogLine)
| ObsDispatch (s : RetrievalStrategy) (returned : list SearchResult)
| ObsDeliver (i : nat) (ev : Event).

(** ** Requests to and answers of the backends *)

Inductive ZillizCondition :=
| WsIdEquals (v : pyval)
| CreatedInLast7Days.

Record ZillizRequest := {
  zq_query : pystr;
  zq_limit : pyval;
  zq_filter : list ZillizCondition
}.

Record ZillizHit := {
  zh_content : option pystr;
  zh_score : option Q;
  zh_metadata : option pydict;
  zh_id : option pyval
}.

Record OpenSearchRequest := {
  oq_query : pystr;
  oq_fields : pyval;
  oq_filter : list (string * pyval);
  oq_size : pyval
}.

(** [hit["_source"]]: its ["content"] entry, read as text, and the mapping. *)
Record OpenSearchSource := {
  src_content : option pystr;
  src_mapping : pydict
}.

(** A hit; [None] is a key that the hit does not have. *)
Record OpenSearchHit := {
  hit_source : option OpenSearchSource;
  hit_score : option Q;
  hit_id : option pyval
}.

Record WebRequest := {
  wq_query : pystr;
  wq_max_results : pyval
}.

Record WebEntry := {
  snippet : option pystr;
  body : option pystr;
  title : option pystr;
  link : option pystr;
  href : option pystr
}.

Inductive WebItem :=
| WebDict (d : WebEntry)
| WebStr (s : pystr)
| WebOtherItem.

Inductive WebAnswer :=
| WebList (items : list WebItem)
| WebNotAList.

Definition TypeError (msg : string) : exn := Exn "TypeError" (utf8 msg).
Definition KeyError (key : string) : exn := Exn "KeyError" (utf8 ("'" +:+ key +:+ "'")).

(** [key in v] and [v[key]] for a string key. *)
Definition py_in (key : string) (v : pyval) : result bool :=
  match v with
  | PyDict d => Ok (bool_decide (is_Some (d !! key)))
  | PyStr s => Ok (contains (utf8 key) s)
  | PyList l => Ok (existsb (λ x, py_eq_str x (utf8 key)) l)
  | PyNone | PyInt _ | PyFloat _ => Raise (TypeError "argument is not iterable")
  end.

Definition py_getitem (v : pyval) (key : string) : result pyval :=
  match v with
  | PyDict d => match d !! key with Some x => Ok x | None => Raise (KeyError key) end
  | PyStr _ | PyList _ => Raise (TypeError "indices must be integers")
  | PyNone | PyInt _ | PyFloat _ => Raise (TypeError "object is not subscriptable")
  end.

Definition result_bind {A B} (r : result A) (k : A → result B) : result B :=
  match r with
  | Ok a => k a
  | Raise e => Raise e
  end.

(** The native filter of the vector store; the conditions stand for the
    clauses that the source joins with [" AND "]. *)
Definition _build_zilliz_filter (filters : pyval) : result (list ZillizCondition) :=
  result_bind (py_in "ws_id" filters) (λ has_ws,
  result_bind (if has_ws
               then result_bind (py_getitem filters "ws_id") (λ v, Ok [WsIdEquals v])
               else Ok []) (λ conditions,
  result_bind (py_in "time_range" filters) (λ has_range,
  if has_range
  then result_bind (py_getitem filters "time_range") (λ v,
         Ok (if py_eq_str v (utf8 "recent")
             then conditions ++ [CreatedInLast7Days]
             else conditions))
  else Ok conditions))).

Definition _build_opensearch_filter (filters : pyval) : result (list (string * pyval)) :=
  result_bind (py_in "ws_id" filters) (λ has_ws,
  result_bind (if has_ws
               then result_bind (py_getitem filters "ws_id") (λ v, Ok [("ws_id", v)])
               else Ok []) (λ clauses,
  result_bind (py_in "doc_type" filters) (λ has_type,
  if has_type
  then result_bind (py_getitem filters "doc_type") (λ v, Ok (clauses ++ [("doc_type", v)]))
  else Ok clauses))).

Definition format_zilliz (hit : ZillizHit) : SearchResult :=
  {| content := Some (default [] (zh_content hit));
     score := Some (default 0%Q (zh_score hit));
     metadata := default ∅ (zh_metadata hit);
     source := "zilliz_cloud";
     chunk_id := default PyNone (zh_id hit) |}.

Definition format_opensearch (hit : OpenSearchHit) : result SearchResult :=
  match hit_source hit, hit_score hit, hit_id hit with
  | Some src, Some sc, Some id =>
      Ok {| content := Some (default [] (src_content src));
            score := Some sc;
            metadata := src_mapping src;
            source := "opensearch";
            chunk_id := id |}
  | None, _, _ => Raise (KeyError "_source")
  | _, None, _ => Raise (KeyError "_score")
  | _, _, None => Raise (KeyError "_id")
  end.

Fixpoint format_opensearch_hits (hits : list OpenSearchHit) : result (list SearchResult) :=
  match hits with
  | [] => Ok []
  | hit :: rest =>
      result_bind (format_opensearch hit) (λ r,
      result_bind (format_opensearch_hits rest) (λ rs, Ok (r :: rs)))
  end.

(** [1.0 - idx * 0.1], as the rational [1 - idx/10].  The float that
    Python computes differs from it by rounding (0.3999999999999999 at
    [idx = 6]); the two agree on the order of the scores, on the bound 1,
    and on which scores reach one half (those of [idx <= 5], where
    [1.0 - 5 * 0.1] is 0.5 exactly). *)
Definition rank_score (idx : nat) : Q := (1 - inject_Z (Z.of_nat idx) * (1 # 10))%Q.

Definition web_text (o : option pystr) : pyval := PyStr (default [] o).

Fixpoint format_web (idx : nat) (items : list WebItem) : list SearchResult :=
  match items with
  | [] => []
  | WebDict d :: rest =>
      {| content := Some (default (default [] (body d)) (snippet d));
         score := Some (rank_score idx);
         metadata := <["link" := web_text (Some (default (default [] (href d)) (link d)))]>
                       (<["title" := web_text (title d)]> ∅);
         source := "web";
         chunk_id := PyNone |} :: format_web (S idx) rest
  | WebStr s :: rest =>
      {| content := Some s;
         score := Some (rank_score idx);
         metadata := ∅;
         source := "web";
         chunk_id := PyNone |} :: format_web (S idx) rest
  | WebOtherItem :: rest => format_web (S idx) rest
  end.

(** ** Post-processing *)

Definition dedup_key (r : SearchResult) : pystr :=
  prefix_chars 100 (default [] (content r)).

Definition score_of (r : SearchResult) : Q := default 0%Q (score r).

(** One turn of the deduplication loop over [(seen, unique_results)]. *)
Definition dedup_step (st : gset pystr * list SearchResult) (r : SearchResult)
    : gset pystr * list SearchResult :=
  let key := dedup_key r in
  if bool_decide (key ∉ st.1)
  then ({[key]} ∪ st.1, st.2 ++ [r])
  else st.

Definition dedup_loop (rs : list SearchResult) : gset pystr * list SearchResult :=
  foldl dedup_step (∅, []) rs.

Definition Qltb (x y : Q) : bool := negb (Qle_bool y x).

(** [list.sort(key=score, reverse=True)]: descending, and stable also under
    [reverse] (equal keys keep their order).  On keys that [<] orders totally
    every stable sort returns the same list; it is written here as an
    insertion sort that only asks [<], as [list.sort] does.  The keys are
    finite numbers.  A NaN key, which [<] does not order, is outside the
    model: on it [list.sort] may leave the list unordered (the scores
    [0.6, nan, 0.9] come back as [0.6, nan, 0.9]), so what is proved of the
    order holds of the code for results without NaN scores only. *)
Fixpoint insert_desc (x : SearchResult) (l : list SearchResult) : list SearchResult :=
  match l with
  | [] => [x]
  | y :: l' =>
      if Qltb (score_of x) (score_of y) then y :: insert_desc x l' else x :: l
  end.

Definition sort_desc (l : list SearchResult) : list SearchResult :=
  foldr insert_desc [] l.

(** [x >= t] for a number [x] and a value [t] out of a dictionary. *)
Definition py_ge (x : Q) (t : pyval) : result bool :=
  match t with
  | PyInt z => Ok (Qle_bool (inject_Z z) x)
  | PyFloat q => Ok (Qle_bool q x)
  | PyNone | PyStr _ | PyList _ | PyDict _ =>
      Raise (TypeError "'>=' not supported between these instances")
  end.

(** The list comprehension of step 3: the comparison runs once per element,
    so it raises only if there is an element. *)
Fixpoint filter_ge (t : pyval) (l : list SearchResult) : result (list SearchResult) :=
  match l with
  | [] => Ok []
  | r :: l' =>
      result_bind (py_ge (score_of r) t) (λ keep,
      result_bind (filter_ge t l') (λ rest,
      Ok (if keep then r :: rest else rest)))
  end.

(** [l[:limit]]: [None] keeps everything, a negative integer counts from the
    end, anything else is no slice index. *)
Definition slice_to {A} (l : list A) (limit : pyval) : result (list A) :=
  match limit with
  | PyNone => Ok l
  | PyInt z =>
      Ok (if (0 <=? z)%Z
          then take (Z.to_nat z) l
          else take (length l - Z.to_nat (- z)) l)
  | PyFloat _ | PyStr _ | PyList _ | PyDict _ =>
      Raise (TypeError "slice indices must be integers or None or have an __index__ method")
  end.

Definition _post_process_results (rs : list SearchResult) (strategy : RetrievalStrategy)
    : result (list SearchResult) :=
  let unique_results := (dedup_loop rs).2 in
  let unique_results := sort_desc unique_results in
  let threshold := default (PyFloat (1 # 2)) (parameters strategy !! "score_threshold") in
  result_bind (filter_ge threshold unique_results) (λ filtered_results,
  let limit := default (PyInt 10) (parameters strategy !! "limit") in
  slice_to filtered_results limit).

(** ** Effects *)

Section Effects.
(** [E] is the state of everything outside the engine (the backends and
    whatever the listeners touch); [clock] reads [datetime.now()] off it. *)
Context {E : Type}.

Record World := { ext : E; trace : list Obs }.

Definition M (A : Type) : Type := World → result A * World.

Definition ret {A} (a : A) : M A := λ w, (Ok a, w).

Definition bind {A B} (m : M A) (k : A → M B) : M B :=
  λ w, match m w with
       | (Ok a, w') => k a w'
       | (Raise e, w') => (Raise e, w')
       end.

(** [try: m  except Exception as e: h e] *)
Definition try_except {A} (m : M A) (h : exn → M A) : M A :=
  λ w, match m w with
       | (Ok a, w') => (Ok a, w')
       | (Raise e, w') => h e w'
       end.

Definition lift {A} (r : result A) : M A := λ w, (r, w).

Definition observe (o : Obs) : M unit :=
  λ w, (Ok (), {| ext := ext w; trace := trace w ++ [o] |}).

(** A call into an external collaborator. *)
Definition call {A} (f : E → result A * E) : M A :=
  λ w, let '(r, e) := f (ext w) in (r, {| ext := e; trace := trace w |}).

Definition ZillizClient : Type := ZillizRequest → E → result (list ZillizHit) * E.
(** [None] as answer: a response without [hits.hits]. *)
Definition OpenSearchClient : Type :=
  OpenSearchRequest → E → result (option (list OpenSearchHit)) * E.
Definition DuckDuckGoTools : Type := WebRequest → E → result WebAnswer * E.
Definition Handler : Type := Event → E → result unit * E.

Record RetrieverTools := {
  zilliz_client : option ZillizClient;
  opensearch_client : option OpenSearchClient;
  web_search_tools : DuckDuckGoTools
}.

Record RetrieverAgent := {
  name : pystr;
  enable_events : bool;
  tools : RetrieverTools;
  event_handlers : list Handler
}.
End Effects.

Arguments World : clear implicits.
Arguments M : clear implicits.
Arguments RetrieverTools : clear implicits.
Arguments RetrieverAgent : clear implicits.
Arguments Handler : clear implicits.

Notation "'let*' x ':=' m 'in' k" := (bind m (λ x, k))
  (at level 10, x name, m at level 100, k at level 200,
   format "'[v' 'let*'  x  :=  m  'in'  '/' k ']'").
Notation "m '>>' k" := (bind m (λ _, k))
  (at level 100, right associativity).

Section Engine.
Context {E : Type} (clock : E → Z) (cm : CaseMapping).

Definition now : M E Z := λ w, (Ok (clock (ext w)), w).

(** *** The dispatchers *)

Definition zilliz_search (self : RetrieverTools E) (q : pystr) (filters : pyval)
    (parameters : pydict) : M E (list SearchResult) :=
  match zilliz_client self with
  | None => observe (ObsLog ZillizNotInitialised) >> ret []
  | Some client =>
      try_except
        (let* flt := lift (_build_zilliz_filter filters) in
         let* hits := call (client {| zq_query := q;
                                zq_limit := default (PyInt 10) (parameters !! "limit");
                                zq_filter := flt |}) in
         ret (format_zilliz <$> hits))
        (λ e, observe (ObsLog (ZillizSearchFailed e)) >> ret [])
  end.

Definition opensearch_search (self : RetrieverTools E) (q : pystr) (filters : pyval)
    (parameters : pydict) : M E (list SearchResult) :=
  match opensearch_client self with
  | None => observe (ObsLog OpenSearchNotInitialised) >> ret []
  | Some client =>
      try_except
        (let* flt := lift (_build_opensearch_filter filters) in
         let* response := call (client
           {| oq_query := q;
              oq_fields := default (PyList [PyStr (utf8 "*")]) (parameters !! "search_fields");
              oq_filter := flt;
              oq_size := default (PyInt 10) (parameters !! "limit") |}) in
         match response with
         | None => lift (Raise (KeyError "hits"))
         | Some hits => lift (format_opensearch_hits hits)
         end)
        (λ e, observe (ObsLog (OpenSearchSearchFailed e)) >> ret [])
  end.

Definition web_search (self : RetrieverTools E) (q : pystr) (parameters : pydict)
    : M E (list SearchResult) :=
  try_except
    (let* answer := call (web_search_tools self
       {| wq_query := q;
          wq_max_results := default (PyInt 5) (parameters !! "limit") |}) in
     match answer with
     | WebList items => ret (format_web 0 items)
     | WebNotAList => ret []
     end)
    (λ e, observe (ObsLog (WebSearchFailed e)) >> ret []).

(** *** [RetrieverAgent] *)

(** The loop of [_emit_event]; [i] numbers the handlers. *)
Fixpoint notify (ev : Event) (i : nat) (handlers : list (Handler E)) : M E unit :=
  match handlers with
  | [] => ret ()
  | handler :: rest =>
      try_except (observe (ObsDeliver i ev) >> call (handler ev))
                 (λ e, observe (ObsLog (HandlerFailed e))) >>
      notify ev (S i) rest
  end.

Definition _emit_event (self : RetrieverAgent E) (event_type : string) (d : EventData)
    : M E unit :=
  let* t := now in
  notify {| event := event_type; agent_name := name self; timestamp := t; data := d |}
         0 (event_handlers self).

Definition emit_if_enabled (self : RetrieverAgent E) (event_type : string) (d : EventData)
    : M E unit :=
  if enable_events self then _emit_event self event_type d else ret ().

(** [results] starts as [[]] and is assigned by the dispatcher; an
    exception after the assignment leaves the assigned list. *)
Definition _execute_search_strategy (self : RetrieverAgent E) (strategy : RetrievalStrategy)
    : M E (list SearchResult) :=
  let* rs :=
    try_except
      (let* rs := (if bool_decide (data_source strategy = "zilliz_cloud")
                   then zilliz_search (tools self) (query strategy) (filters strategy)
                          (parameters strategy)
                   else if bool_decide (data_source strategy = "opensearch")
                   then opensearch_search (tools self) (query strategy) (filters strategy)
                          (parameters strategy)
                   else if bool_decide (data_source strategy = "duckduckgo")
                   then web_search (tools self) (query strategy) (parameters strategy)
                   else ret []) in
       try_except
         (emit_if_enabled self "ToolCallCompleted"
            (ToolCallCompletedData (data_source strategy) (length rs)) >>
          ret rs)
         (λ e, observe (ObsLog (ExecuteStrategyFailed e)) >> ret rs))
      (λ e, observe (ObsLog (ExecuteStrategyFailed e)) >> ret []) in
  observe (ObsDispatch strategy rs) >> ret rs.

Definition fallback_record (strategy : RetrievalStrategy) (fb : FallbackDict)
    : result RetrievalStrategy :=
  result_bind (SearchStrategy_of (fb_strategy_type fb)) (λ st,
  Ok {| strategy_type := st;
        data_source := fb_data_source fb;
        query := query strategy;
        original_query := original_query strategy;
        filters := filters strategy;
        parameters := parameters strategy;
        fallback_strategy := None |}).

Definition strategy_record (d : StrategyDict) : result RetrievalStrategy :=
  result_bind (SearchStrategy_of (sd_strategy_type d)) (λ st,
  Ok {| strategy_type := st;
        data_source := sd_data_source d;
        query := sd_query d;
        original_query := sd_original_query d;
        filters := sd_filters d;
        parameters := sd_parameters d;
        fallback_strategy := sd_fallback_strategy d |}).

(** The [try] block of [search]. *)
Definition search_try (self : RetrieverAgent E) (q : pystr) (context : pydict)
    (start_time : Z) : M E Response :=
  emit_if_enabled self "RetrievalStarted" (RetrievalStartedData q context start_time) >>
  let* strategy := lift (strategy_record (think_retrieval_strategy cm q context)) in
  emit_if_enabled self "RetrievalStrategyCompleted"
    (RetrievalStrategyCompletedData (value (strategy_type strategy))
       (data_source strategy) (query strategy)) >>
  let* rs := _execute_search_strategy self strategy in
  let* rs := match rs, fallback_strategy strategy with
             | [], Some fb =>
                 observe (ObsLog (FallbackChosen fb)) >>
                 emit_if_enabled self "FallbackStrategyActivated"
                   (FallbackStrategyActivatedData fb) >>
                 let* fallback := lift (fallback_record strategy fb) in
                 _execute_search_strategy self fallback
             | _, _ => ret rs
             end in
  let* processed_results := lift (_post_process_results rs strategy) in
  let* finished := now in
  let duration := (finished - start_time)%Z in
  let* at_time := now in
  let response :=
    {| success := true;
       results := processed_results;
       response_metadata :=
         SuccessMetadata (length processed_results) q (query strategy)
           (value (strategy_type strategy)) (data_source strategy) duration at_time;
       error := None |} in
  emit_if_enabled self "RetrievalCompleted"
    (RetrievalCompletedData (length processed_results) duration
       (value (strategy_type strategy))) >>
  ret response.

(** The [except Exception as e] block of [search]. *)
Definition search_except (self : RetrieverAgent E) (q : pystr) (e : exn) : M E Response :=
  observe (ObsLog (RetrievalFailed e)) >>
  emit_if_enabled self "RetrievalError" (RetrievalErrorData (exn_msg e) q) >>
  let* at_time := now in
  ret {| success := false;
         results := [];
         response_metadata := FailureMetadata q (exn_msg e) at_time;
         error := Some {| code := "RETRIEVAL_FAILED"; message := exn_msg e |} |}.

Definition search (self : RetrieverAgent E) (q : pystr) (context : option pydict)
    (session_id user_id : option pystr) : M E Response :=
  let context := default ∅ context in
  let* start_time := now in
  try_except (search_try self q context start_time) (search_except self q).
End Engine.

(** * Sample inputs *)

Definition result_of (text : string) (sc : Q) : SearchResult :=
  {| content := Some (utf8 text);
     score := Some sc;
     metadata := ∅;
     source := "web";
     chunk_id := PyNone |}.

(** Five results: "alpha" comes twice, "beta" and "gamma" tie at 0.9, and
    "delta" lies under the default threshold 0.5. *)
Definition sample_results : list SearchResult :=
  [result_of "alpha" (7 # 10); result_of "beta" (9 # 10); result_of "alpha" (8 # 10);
   result_of "gamma" (9 # 10); result_of "delta" (2 # 10)].

(** The record that [search] builds for the query "AI" and a context that
    sets [limit]. *)
Definition sample_strategy (limit : pyval) : RetrievalStrategy :=
  {| strategy_type := HYBRID;
     data_source := "zilliz_cloud";
     query := utf8 "AI 相关信息和详细内容";
     original_query := utf8 "AI";
     filters := PyDict ∅;
     parameters := _build_search_parameters (utf8 "AI 相关信息和详细内容")
                     {["limit" := limit]} HYBRID;
     fallback_strategy := _get_fallback_strategy HYBRID |}.

(** Collaborators for runs on concrete inputs.  The outside state is the list
    of the events that a recording listener was given. *)
Definition recorder : Handler (list Event) := λ ev seen, (Ok (), seen ++ [ev]).

Definition failing_recorder : Handler (list Event) :=
  λ ev seen, (Raise (Exn "RuntimeError" (utf8 "listener failed")), seen ++ [ev]).

Definition silent_web : RetrieverTools (list Event) :=
  {| zilliz_client := None;
     opensearch_client := None;
     web_search_tools := λ _ seen, (Ok (WebList []), seen) |}.

(** A vector store that is configured and out of reach, an unconfigured
    keyword index, and a web search that answers with two plain strings. *)
Definition broken_vector_store : RetrieverTools (list Event) :=
  {| zilliz_client := Some (λ _ seen, (Raise (Exn "ConnectionError" (utf8 "unreachable")), seen));
     opensearch_client := None;
     web_search_tools :=
       λ _ seen, (Ok (WebList [WebStr (utf8 "first hit"); WebStr (utf8 "second hit")]), seen) |}.

Definition sample_agent (events : bool) (t : RetrieverTools (list Event))
    (listeners : list (Handler (list Event))) : RetrieverAgent (list Event) :=
  {| name := utf8 "Retriever Agent";
     enable_events := events;
     tools := t;
     event_handlers := listeners |}.

Definition still_clock : list Event → Z := λ _, 0%Z.

Definition start : World (list Event) := {| ext := []; trace := [] |}.

(** Three calls of [search].  The first has events disabled, a recording
    listener, no backend but an empty web search, and a context whose limit is
    a string.  The second has events enabled and the vector store out of
    reach.  The third asks for a quoted phrase with two listeners, one of
    which raises. *)
Definition run_bad_limit : result Response * World (list Event) :=
  search still_clock ascii_case (sample_agent false silent_web [recorder])
    (utf8 "AI") (Some {["limit" := PyStr (utf8 "ten")]}) None None start.

Definition run_broken_backend : result Response * World (list Event) :=
  search still_clock ascii_case (sample_agent true broken_vector_store [recorder])
    (utf8 "AI") None None None start.

Definition quoted_query : pystr :=
  double_quote ++ utf8 "exact phrase" ++ double_quote ++ utf8 " here".

Definition run_quoted : result Response * World (list Event) :=
  search still_clock ascii_case
    (sample_agent true broken_vector_store [recorder; failing_recorder])
    quoted_query None None None start.

(** Inputs of the backends and records that [search] does not build: two
    hits of the keyword index, the second without [_id]; a web answer of
    eight strings; a record for the strategy that has no dispatcher; and a
    web record with a choice of filters. *)
Definition whole_hit : OpenSearchHit :=
  {| hit_source := Some {| src_content := Some (utf8 "text"); src_mapping := ∅ |};
     hit_score := Some 1%Q;
     hit_id := Some (PyStr (utf8 "doc-1")) |}.

Definition hit_without_id : OpenSearchHit :=
  {| hit_source := Some {| src_content := Some (utf8 "text"); src_mapping := ∅ |};
     hit_score := Some 1%Q;
     hit_id := None |}.

Definition eight_items : list WebItem :=
  WebStr <$> [utf8 "a"; utf8 "b"; utf8 "c"; utf8 "d"; utf8 "e"; utf8 "f"; utf8 "g"; utf8 "h"].

(** An agent's tools with a keyword index that answers with [hits], and
    with a web search that answers with the eight strings. *)
Definition keyword_index (hits : list OpenSearchHit) : RetrieverTools (list Event) :=
  {| zilliz_client := None;
     opensearch_client := Some (λ _ seen, (Ok (Some hits), seen));
     web_search_tools := λ _ seen, (Ok (WebList eight_items), seen) |}.

Definition crm_record : RetrievalStrategy :=
  {| strategy_type := CRM;
     data_source := _get_data_source_for_strategy CRM;
     query := utf8 "AI";
     original_query := utf8 "AI";
     filters := PyDict ∅;
     parameters := ∅;
     fallback_strategy := None |}.

Definition web_record (flt : pyval) : RetrievalStrategy :=
  {| strategy_type := WEB;
     data_source := _get_data_source_for_strategy WEB;
     query := utf8 "AI";
     original_query := utf8 "AI";
     filters := flt;
     parameters := ∅;
     fallback_strategy := None |}.

(** * Vocabulary of the statements *)

(** A token: a text that is not empty and holds no whitespace. *)
Definition token (t : pystr) : Prop := t ≠ [] ∧ Forall (λ c, isspace c = false) t.

(** The case mapping fixes every code point of [kw], none of which is
    U+03A3. *)
Definition fixed_by (cm : CaseMapping) (kw : pystr) : Prop :=
  Forall (λ c, c ≠ 931 ∧ to_lower_full cm c = [c]) kw.

(** The case mapping leaves the recency keywords as they are: they are
    written in lower-case ASCII letters and in CJK ideographs, which have no
    case.  True of the Unicode table of every Python. *)
Definition keeps_recency_keywords (cm : CaseMapping) : Prop :=
  Forall (fixed_by cm) recency_keywords.

(** The three tests of the selector, as statements about occurrences. *)
Definition has_recency_keyword (cm : CaseMapping) (q : pystr) : Prop :=
  ∃ kw, kw ∈ recency_keywords ∧ occurs_in kw (lower cm q).

Definition asks_for_document (q : pystr) (context : pydict) : Prop :=
  context !! "doc_type" = Some (PyStr (utf8 "pdf")) ∨ occurs_in document_marker q.

Definition is_quoted (q : pystr) : Prop :=
  occurs_in double_quote q ∨ occurs_in backtick q.

(** The deduplication loop read as a recursion: a result is kept when its
    key is new, and its key is then seen. *)
Fixpoint dedup_from (seen : gset pystr) (rs : list SearchResult) : list SearchResult :=
  match rs with
  | [] => []
  | r :: rs' =>
      if bool_decide (dedup_key r ∉ seen)
      then r :: dedup_from ({[dedup_key r]} ∪ seen) rs'
      else dedup_from seen rs'
  end.

(** [r] stands in [rs] with no result of the same key before it. *)
Definition first_with_key (rs : list SearchResult) (r : SearchResult) : Prop :=
  ∃ pre post, rs = pre ++ r :: post ∧ Forall (λ x, dedup_key x ≠ dedup_key r) pre.

(** [a] may stand before [b] in a list sorted by descending score. *)
Definition score_ge (a b : SearchResult) : Prop := (score_of b <= score_of a)%Q.

Definition same_score (q : Q) (r : SearchResult) : bool := Qeq_bool (score_of r) q.

(** The number that a threshold stands for, if it is one. *)
Definition threshold_number (t : pyval) : option Q :=
  match t with
  | PyInt z => Some (inject_Z z)
  | PyFloat q => Some q
  | _ => None
  end.

(** [r] passes the threshold [t]. *)
Definition passes (t : pyval) (r : SearchResult) : bool :=
  match py_ge (score_of r) t with
  | Ok keep => keep
  | Raise _ => false
  end.

Definition score_threshold_of (strategy : RetrievalStrategy) : pyval :=
  default (PyFloat (1 # 2)) (parameters strategy !! "score_threshold").

Definition limit_of (strategy : RetrievalStrategy) : pyval :=
  default (PyInt 10) (parameters strategy !! "limit").

(** The list after steps 1 to 3, before the cut. *)
Definition before_truncation (rs : list SearchResult) (strategy : RetrievalStrategy)
    : list SearchResult :=
  List.filter (passes (score_threshold_of strategy)) (sort_desc (dedup_loop rs).2).

(** The marks and the log lines of a trace. *)
Definition dispatches (t : list Obs) : list (RetrievalStrategy * list SearchResult) :=
  omap (λ o, match o with ObsDispatch s rs => Some (s, rs) | _ => None end) t.

Definition deliveries (t : list Obs) : list (nat * Event) :=
  omap (λ o, match o with ObsDeliver i ev => Some (i, ev) | _ => None end) t.

Definition log_lines (t : list Obs) : list LogLine :=
  omap (λ o, match o with ObsLog l => Some l | _ => None end) t.

(** The outside state after the handlers have run on [ev] one after the
    other, and the log lines of those among them that raised. *)
Fixpoint run_handlers {E} (ev : Event) (e : E) (hs : list (Handler E)) : E :=
  match hs with
  | [] => e
  | h :: rest => run_handlers ev (h ev e).2 rest
  end.

Fixpoint handler_failures {E} (ev : Event) (e : E) (hs : list (Handler E)) : list LogLine :=
  match hs with
  | [] => []
  | h :: rest =>
      match (h ev e).1 with
      | Ok _ => []
      | Raise x => [HandlerFailed x]
      end ++ handler_failures ev (h ev e).2 rest
  end.

(** Two lists of listeners that leave the same outside state on every
    event, whichever of them raise. *)
Definition listeners_alike {E} (hs hs' : list (Handler E)) : Prop :=
  ∀ ev e, run_handlers ev e hs = run_handlers ev e hs'.

Definition agents_alike {E} (a b : RetrieverAgent E) : Prop :=
  name a = name b ∧ enable_events a = enable_events b ∧ tools a = tools b
  ∧ listeners_alike (event_handlers a) (event_handlers b).

(** A listener that raises on every event and touches nothing. *)
Definition always_raises {E} (x : exn) : Handler E := λ _ e, (Raise x, e).

(** Two computations that, started on the same outside state, end with the
    same outcome and the same outside state (their traces may differ). *)
Definition sim {E A} (m m' : M E A) : Prop :=
  ∀ w w', ext w = ext w' → (m w).1 = (m' w').1 ∧ ext (m w).2 = ext (m' w').2.

(** The failure response of [search]. *)
Definition failure_response (q : pystr) (e : exn) (at_time : Z) : Response :=
  {| success := false;
     results := [];
     response_metadata := FailureMetadata q (exn_msg e) at_time;
     error := Some {| code := "RETRIEVAL_FAILED"; message := exn_msg e |} |}.

(** The requests that the dispatchers send. *)
Definition zilliz_request (q : pystr) (parameters : pydict) (flt : list ZillizCondition)
    : ZillizRequest :=
  {| zq_query := q;
     zq_limit := default (PyInt 10) (parameters !! "limit");
     zq_filter := flt |}.

Definition opensearch_request (q : pystr) (parameters : pydict)
    (flt : list (string * pyval)) : OpenSearchRequest :=
  {| oq_query := q;
     oq_fields := default (PyList [PyStr (utf8 "*")]) (parameters !! "search_fields");
     oq_filter := flt;
     oq_size := default (PyInt 10) (parameters !! "limit") |}.

Definition web_request (q : pystr) (parameters : pydict) : WebRequest :=
  {| wq_query := q; wq_max_results := default (PyInt 5) (parameters !! "limit") |}.

(** What a dispatcher makes of the answer of its backend. *)
Definition zilliz_results (answer : result (list ZillizHit)) : list SearchResult :=
  match answer with
  | Ok hits => format_zilliz <$> hits
  | Raise _ => []
  end.

Definition opensearch_results (answer : result (option (list OpenSearchHit)))
    : list SearchResult :=
  match answer with
  | Ok (Some hits) =>
      match format_opensearch_hits hits with Ok rs => rs | Raise _ => [] end
  | Ok None | Raise _ => []
  end.

Definition web_results (answer : result WebAnswer) : list SearchResult :=
  match answer with
  | Ok (WebList items) => format_web 0 items
  | Ok WebNotAList | Raise _ => []
  end.

(** The record that [search] builds from the dictionary of
    [think_retrieval_strategy]. *)
Definition chosen_strategy (cm : CaseMapping) (q : pystr) (context : pydict) : RetrievalStrategy :=
  let strategy :=
    _select_search_strategy cm (_rewrite_query_if_needed q context) context in
  {| strategy_type := strategy;
     data_source := _get_data_source_for_strategy strategy;
     query := _rewrite_query_if_needed q context;
     original_query := q;
     filters := default (PyDict ∅) (context !! "filters");
     parameters := _build_search_parameters (_rewrite_query_if_needed q context)
                     context strategy;
     fallback_strategy := _get_fallback_strategy strategy |}.

(** The record of the fallback dispatch: the primary one with the tag and
    the data source of the fallback entry, and no further fallback. *)
Definition fallback_of (strategy : RetrievalStrategy) (t : SearchStrategy)
    (fb : FallbackDict) : RetrievalStrategy :=
  {| strategy_type := t;
     data_source := fb_data_source fb;
     query := query strategy;
     original_query := original_query strategy;
     filters := filters strategy;
     parameters := parameters strategy;
     fallback_strategy := None |}.

(** The response of the success path. *)
Definition success_response (q : pystr) (strategy : RetrievalStrategy)
    (out : list SearchResult) (duration at_time : Z) : Response :=
  {| success := true;
     results := out;
     response_metadata :=
       SuccessMetadata (length out) q (query strategy) (value (strategy_type strategy))
         (data_source strategy) duration at_time;
     error := None |}.

(** What the [try] block makes of the list that the dispatches leave. *)
Definition try_outcome (q : pystr) (strategy : RetrievalStrategy) (start_time : Z)
    (rs : list SearchResult) (r : result Response) : Prop :=
  match _post_process_results rs strategy with
  | Ok out => ∃ finished, r = Ok (success_response q strategy out
                                    (finished - start_time) finished)
  | Raise x => r = Raise x
  end.

(** The dispatches of one call: the primary one, and the fallback one if
    the primary returned nothing and the strategy has a fallback. [last]
    is the list that goes on to post-processing. *)
Definition dispatched (strategy : RetrievalStrategy)
    (ds : list (RetrievalStrategy * list SearchResult)) (last : list SearchResult) : Prop :=
  (ds = [(strategy, last)] ∧ (last ≠ [] ∨ fallback_strategy strategy = None))
  ∨ (∃ fb t, fallback_strategy strategy = Some fb
             ∧ fb_strategy_type fb = value t
             ∧ ds = [(strategy, []); (fallback_of strategy t fb, last)]).

(** The error event of a failed call. *)
Definition error_event (agent : pystr) (q : pystr) (x : exn) (at_time : Z) : Event :=
  {| event := "RetrievalError";
     agent_name := agent;
     timestamp := at_time;
     data := RetrievalErrorData (exn_msg x) q |}.

(** An agent with other listeners. *)
Definition with_listeners {E} (self : RetrieverAgent E) (hs : list (Handler E))
    : RetrieverAgent E :=
  {| name := name self;
     enable_events := enable_events self;
     tools := tools self;
     event_handlers := hs |}.

(** The listener that does what [h] does and then raises. *)
Definition raising {E} (x : exn) (h : Handler E) : Handler E :=
  λ ev e, (Raise x, (h ev e).2).

(** A limit that cuts from the front: [None] or an integer that is not
    negative. *)
Definition cuts_from_front (limit : pyval) : Prop :=
  match limit with
  | PyNone => True
  | PyInt z => (0 ≤ z)%Z
  | _ => False
  end.

(** ** Vocabulary of the further properties *)

(** A value that is no container: [key in v] raises on it. *)
Definition not_iterable (v : pyval) : Prop :=
  match v with
  | PyNone | PyInt _ | PyFloat _ => True
  | _ => False
  end.

(** A hit that has the three keys that [opensearch_search] subscripts. *)
Definition complete_hit (hit : OpenSearchHit) : Prop :=
  is_Some (hit_source hit) ∧ is_Some (hit_score hit) ∧ is_Some (hit_id hit).

(** The content of the result that [web_search] makes from an item of the
    raw answer; [None] for an item that gives no result. *)
Definition text_of (item : WebItem) : option pystr :=
  match item with
  | WebDict d => Some (default (default [] (body d)) (snippet d))
  | WebStr s => Some s
  | WebOtherItem => None
  end.

(** [a] stands before [b] in a list of strictly descending scores. *)
Definition score_gt (a b : SearchResult) : Prop := (score_of b < score_of a)%Q.

(** The results whose score is at least one half, the default threshold. *)
Definition at_least_half (r : SearchResult) : bool := Qle_bool (1 # 2) (score_of r).

(** The event tags that handler number [i] was given, in order. *)
Definition tags_to (i : nat) (t : list Obs) : list string :=
  omap (λ o, match o with
             | ObsDeliver j ev => if bool_decide (j = i) then Some (event ev) else None
             | _ => None
             end) t.

(** What handler number [i] of an agent hears of one emission guarded by
    [enable_events]. *)
Definition heard {E} (self : RetrieverAgent E) (i : nat) (event_type : string) : list string :=
  if enable_events self && bool_decide (i < length (event_handlers self))%nat
  then [event_type]
  else [].

(** The outside state after such an emission. *)
Definition after_event {E} (clock : E → Z) (self : RetrieverAgent E) (event_type : string)
    (d : EventData) (e : E) : E :=
  if enable_events self
  then run_handlers {| event := event_type; agent_name := name self;
                       timestamp := clock e; data := d |} e (event_handlers self)
  else e.

(** [w1] continues [w]: its trace is the one of [w] followed by entries
    in which handler [i] hears [tags] and the dispatches are [ds]. *)
Definition continues (i : nat) {E} (w w1 : World E) (tags : list string)
    (ds : list (RetrievalStrategy * list SearchResult)) : Prop :=
  ∃ t, trace w1 = trace w ++ t ∧ tags_to i t = tags ∧ dispatches t = ds.

(** What the backend that a record names makes of the record, and the
    outside state that it leaves. *)
Definition backend_outcome {E} (t : RetrieverTools E) (s : RetrievalStrategy) (e : E)
    : list SearchResult * E :=
  if bool_decide (data_source s = "zilliz_cloud") then
    match zilliz_client t, _build_zilliz_filter (filters s) with
    | Some client, Ok flt =>
        let answer := client (zilliz_request (query s) (parameters s) flt) e in
        (zilliz_results answer.1, answer.2)
    | _, _ => ([], e)
    end
  else if bool_decide (data_source s = "opensearch") then
    match opensearch_client t, _build_opensearch_filter (filters s) with
    | Some client, Ok flt =>
        let answer := client (opensearch_request (query s) (parameters s) flt) e in
        (opensearch_results answer.1, answer.2)
    | _, _ => ([], e)
    end
  else if bool_decide (data_source s = "duckduckgo") then
    let answer := web_search_tools t (web_request (query s) (parameters s)) e in
    (web_results answer.1, answer.2)
  else ([], e).

(** The world [w] with one more log line. *)
Definition logged {E} (w : World E) (l : LogLine) : World E :=
  {| ext := ext w; trace := trace w ++ [ObsLog l] |}.

(** Whether a call falls back, given the list of its primary dispatch. *)
Definition fell_back (strategy : RetrievalStrategy) (rs1 : list SearchResult) : bool :=
  match rs1, fallback_strategy strategy with
  | [], Some _ => true
  | _, _ => false
  end.

(** The data sources that [_execute_search_strategy] knows. *)
Definition known_sources : list string := ["zilliz_cloud"; "opensearch"; "duckduckgo"].

(** [lower] of [s] when the text [after] follows it: the pieces of
    [lower_go] for the code points of [s]. *)
Fixpoint lower_before (cm : CaseMapping) (before s after : pystr) : pystr :=
  match s with
  | [] => []
  | c :: rest =>
      (if c =? 931
       then [if final_sigma cm before (rest ++ after) then 962 else 963]
       else to_lower_full cm c)
      ++ lower_before cm (before ++ [c]) rest after
  end.

(** Two code points that are equal or are the two small sigmas. *)
Definition sigma_alike (a b : N) : Prop :=
  a = b ∨ ((a = 962 ∨ a = 963) ∧ (b = 962 ∨ b = 963)).

(** A text without blank and without small sigma that does not occur in the
    words of the elaboration suffix. *)
Definition apart_from_suffix (kw : pystr) : bool :=
  forallb (λ c, negb (c =? 32) && negb (c =? 962) && negb (c =? 963)) kw
  && negb (contains kw (drop 1 elaboration_suffix)).

(** * Properties *)

(** ** Strings *)

Example utf8_keywords :
  recency_keywords =
    [[26368; 26032]; [26032; 38395]; [23454; 26102];
     [99; 117; 114; 114; 101; 110; 116]; [108; 97; 116; 101; 115; 116]].
Proof. reflexivity. Qed.

Example select_scenario_AI :
  sd_query (think_retrieval_strategy ascii_case (utf8 "AI") ∅) = utf8 "AI 相关信息和详细内容"
  ∧ sd_strategy_type (think_retrieval_strategy ascii_case (utf8 "AI") ∅) = "hybrid"
  ∧ sd_fallback_strategy (think_retrieval_strategy ascii_case (utf8 "AI") ∅)
    = Some {| fb_strategy_type := "keyword"; fb_data_source := "opensearch" |}.
Proof. split; [|split]; vm_compute; reflexivity. Qed.

Example select_scenario_news :
  sd_query (think_retrieval_strategy ascii_case (utf8 "最新 AI news") ∅) = utf8 "最新 AI news"
  ∧ sd_strategy_type (think_retrieval_strategy ascii_case (utf8 "最新 AI news") ∅) = "web"
  ∧ sd_fallback_strategy (think_retrieval_strategy ascii_case (utf8 "最新 AI news") ∅) = None.
Proof. split; [|split]; vm_compute; reflexivity. Qed.

(** The keyword test is on the lower-cased query, the other tests are not. *)
Example select_upper_case :
  _select_search_strategy ascii_case (utf8 "LATEST prices of GPUs") ∅ = WEB
  ∧ _select_search_strategy ascii_case (utf8 "prices of GPUs") ∅ = HYBRID.
Proof. split; vm_compute; reflexivity. Qed.

Example sample_strategy_chosen (limit : pyval) :
  chosen_strategy ascii_case (utf8 "AI") {["limit" := limit]} = sample_strategy limit.
Proof. vm_compute. reflexivity. Qed.

Lemma startswith_spec (s sub : pystr) :
  startswith s sub = true ↔ ∃ post, s = sub ++ post.
Proof.
  revert s. induction sub as [|a sub IH]; intros s; simpl.
  - split; [intros _; by exists s | by intros _].
  - destruct s as [|b s].
    + split; [done | intros [post Hpost]; discriminate].
    + rewrite andb_true_iff, N.eqb_eq, IH. split.
      * intros [-> [post ->]]. by exists post.
      * intros [post Hpost]. injection Hpost as -> ->. eauto.
Qed.

Lemma contains_spec (sub s : pystr) :
  contains sub s = true ↔ occurs_in sub s.
Proof.
  unfold occurs_in. induction s as [|c s IH].
  - cbn [contains]. rewrite orb_false_r, startswith_spec. split.
    + intros [post Hpost]. by exists [], post.
    + intros (pre & post & Heq). destruct pre; [by exists post | discriminate].
  - cbn [contains]. rewrite orb_true_iff, startswith_spec, IH. split.
    + intros [[post Hpost] | (pre & post & Heq)].
      * by exists [], post.
      * exists (c :: pre), post. by rewrite Heq.
    + intros (pre & post & Heq). destruct pre as [|c' pre].
      * left. by exists post.
      * right. injection Heq as -> ->. eauto.
Qed.

Lemma contains_false (sub s : pystr) :
  contains sub s = false ↔ ¬ occurs_in sub s.
Proof. rewrite <- contains_spec. by destruct (contains sub s). Qed.

(** [split] returns tokens, and together they are the text without its
    whitespace. *)
Lemma split_go_tokens (cur s : pystr) :
  Forall (λ c, isspace c = false) cur → Forall token (split_go cur s).
Proof.
  revert cur. induction s as [|c s IH]; intros cur Hcur; simpl.
  - destruct cur; [by apply Forall_nil_2 | by apply Forall_singleton].
  - destruct (isspace c) eqn:Hc.
    + destruct cur; [by apply IH | apply Forall_cons_2; [done | by apply IH]].
    + apply IH. apply Forall_app. by repeat constructor.
Qed.

Lemma split_tokens (s : pystr) : Forall token (split s).
Proof. by apply split_go_tokens. Qed.

Lemma split_go_concat (cur s : pystr) :
  concat (split_go cur s) = cur ++ List.filter (λ c, negb (isspace c)) s.
Proof.
  revert cur. induction s as [|c s IH]; intros cur; simpl.
  - destruct cur; simpl; by rewrite ?app_nil_r.
  - destruct (isspace c); simpl.
    + destruct cur; simpl; rewrite IH; done.
    + by rewrite IH, <- app_assoc.
Qed.

Lemma split_concat (s : pystr) :
  concat (split s) = List.filter (λ c, negb (isspace c)) s.
Proof. apply split_go_concat. Qed.

(** [lower] keeps an occurrence of a text that the case mapping fixes. *)
Lemma lower_go_fixed cm (kw before rest : pystr) :
  fixed_by cm kw →
  lower_go cm before (kw ++ rest) = kw ++ lower_go cm (before ++ kw) rest.
Proof.
  intros Hkw. revert before. induction Hkw as [|c kw [Hc Hfix] _ IH]; intros before.
  - by rewrite app_nil_r.
  - simpl. apply N.eqb_neq in Hc. rewrite Hc, Hfix. simpl.
    by rewrite IH, <- app_assoc.
Qed.

Lemma lower_go_occurs cm (kw before pre post : pystr) :
  fixed_by cm kw → occurs_in kw (lower_go cm before (pre ++ kw ++ post)).
Proof.
  intros Hkw. revert before. induction pre as [|c pre IH]; intros before.
  - simpl. rewrite lower_go_fixed by done. by exists [], (lower_go cm (before ++ kw) post).
  - simpl. destruct (IH (before ++ [c])) as (a & b & ->).
    eexists (_ ++ a), b. by rewrite <- app_assoc.
Qed.

Lemma lower_occurs cm (kw s : pystr) :
  fixed_by cm kw → occurs_in kw s → occurs_in kw (lower cm s).
Proof. intros Hkw (pre & post & ->). by apply lower_go_occurs. Qed.

Lemma ascii_case_keeps : keeps_recency_keywords ascii_case.
Proof. repeat constructor; vm_compute; congruence. Qed.

(** ** The selector *)

Lemma recency_test cm (q : pystr) :
  existsb (λ keyword, contains keyword (lower cm q)) recency_keywords = true
  ↔ has_recency_keyword cm q.
Proof.
  rewrite existsb_exists. unfold has_recency_keyword.
  by setoid_rewrite contains_spec; setoid_rewrite <- list_elem_of_In.
Qed.

Lemma document_test (q : pystr) (context : pydict) :
  py_eq_str (default (PyStr (utf8 "auto")) (context !! "doc_type")) (utf8 "pdf")
    || contains document_marker q = true
  ↔ asks_for_document q context.
Proof.
  rewrite orb_true_iff, contains_spec. unfold asks_for_document. split.
  - intros [H|H]; [left | by right].
    destruct (context !! "doc_type") as [v|]; [destruct v|]; try discriminate H.
    apply bool_decide_eq_true in H. by subst.
  - intros [H|H]; [left | by right]. rewrite H. by apply bool_decide_eq_true.
Qed.

Lemma quoted_test (q : pystr) :
  contains double_quote q || contains backtick q = true ↔ is_quoted q.
Proof. by rewrite orb_true_iff, !contains_spec. Qed.

Lemma select_cases cm (q : pystr) (context : pydict) :
  _select_search_strategy cm q context ∈ [VECTOR; KEYWORD; HYBRID; WEB].
Proof.
  unfold _select_search_strategy.
  repeat match goal with |- context [if ?b then _ else _] => destruct b end;
    set_solver.
Qed.

(** C1. The selector returns one of the four tags [web], [vector], [keyword],
    [hybrid], by the first rule that matches: a recency keyword in the query
    gives [web]; otherwise doc_type ["pdf"] or the document marker in the
    query gives [vector]; otherwise a double quote or a backtick in the query
    gives [keyword]; otherwise [hybrid].  The keyword test reads the
    lower-cased query, and lower-casing keeps every keyword that the query
    holds, so a query that holds a recency keyword gets [web] whatever else
    the query and the context hold. *)
Theorem select_first_matching_rule cm (q : pystr) (context : pydict) :
  _select_search_strategy cm q context ∈ [VECTOR; KEYWORD; HYBRID; WEB]
  ∧ (has_recency_keyword cm q → _select_search_strategy cm q context = WEB)
  ∧ (¬ has_recency_keyword cm q → asks_for_document q context →
     _select_search_strategy cm q context = VECTOR)
  ∧ (¬ has_recency_keyword cm q → ¬ asks_for_document q context → is_quoted q →
     _select_search_strategy cm q context = KEYWORD)
  ∧ (¬ has_recency_keyword cm q → ¬ asks_for_document q context → ¬ is_quoted q →
     _select_search_strategy cm q context = HYBRID)
  ∧ (keeps_recency_keywords cm →
     ∀ kw, kw ∈ recency_keywords → occurs_in kw q →
           has_recency_keyword cm q ∧ _select_search_strategy cm q context = WEB).
Proof.
  assert (Hweb : has_recency_keyword cm q → _select_search_strategy cm q context = WEB).
  { intros H. apply recency_test in H. unfold _select_search_strategy. by rewrite H. }
  assert (Hnot : ¬ has_recency_keyword cm q →
    existsb (λ keyword, contains keyword (lower cm q)) recency_keywords = false).
  { intros H. apply not_true_is_false. by rewrite recency_test. }
  split; [apply select_cases|]. split; [done|].
  unfold _select_search_strategy. repeat split.
  - intros H1 H2. rewrite (Hnot H1). apply document_test in H2. by rewrite H2.
  - intros H1 H2 H3. rewrite (Hnot H1).
    rewrite <- document_test in H2. apply not_true_is_false in H2. rewrite H2.
    apply quoted_test in H3. by rewrite H3.
  - intros H1 H2 H3. rewrite (Hnot H1).
    rewrite <- document_test in H2. apply not_true_is_false in H2. rewrite H2.
    rewrite <- quoted_test in H3. apply not_true_is_false in H3. by rewrite H3.
  - exists kw. split; [done|]. apply lower_occurs; [|done].
    unfold keeps_recency_keywords in H. rewrite Forall_forall in H. by apply H.
  - apply Hweb. exists kw. split; [done|]. apply lower_occurs; [|done].
    unfold keeps_recency_keywords in H. rewrite Forall_forall in H. by apply H.
Qed.

(** ** The rewriter *)

(** C2. A query of fewer than three whitespace tokens is rewritten to the
    query followed by the fixed suffix, a query of three or more is left as
    it is; [think_retrieval_strategy] selects on the rewritten text, returns
    it as [query], and returns the original under [original_query]; the
    empty query has no token and is rewritten. *)
Theorem rewrite_short_queries cm (q : pystr) (context : pydict) :
  ((length (split q) < 3)%nat →
     _rewrite_query_if_needed q context = q ++ elaboration_suffix)
  ∧ ((3 ≤ length (split q))%nat → _rewrite_query_if_needed q context = q)
  ∧ sd_query (think_retrieval_strategy cm q context) = _rewrite_query_if_needed q context
  ∧ sd_original_query (think_retrieval_strategy cm q context) = q
  ∧ sd_strategy_type (think_retrieval_strategy cm q context)
    = value (_select_search_strategy cm (_rewrite_query_if_needed q context) context)
  ∧ split [] = []
  ∧ _rewrite_query_if_needed [] context = elaboration_suffix.
Proof.
  unfold _rewrite_query_if_needed. repeat split.
  - intros H. apply Nat.ltb_lt in H. by rewrite H.
  - intros H. apply Nat.ltb_ge in H. by rewrite H.
Qed.

(** ** The two tables *)

(** C7. The record of [think_retrieval_strategy] carries the data source and
    the fallback that two fixed tables give for its strategy tag; the
    fallback entry holds the fallback's tag and the data source that the
    same table gives for that tag; [web] and [crm] have no fallback. *)
Theorem data_source_and_fallback_tables cm (q : pystr) (context : pydict) :
  (∃ s, sd_strategy_type (think_retrieval_strategy cm q context) = value s
        ∧ sd_data_source (think_retrieval_strategy cm q context)
          = _get_data_source_for_strategy s
        ∧ sd_fallback_strategy (think_retrieval_strategy cm q context)
          = _get_fallback_strategy s)
  ∧ _get_data_source_for_strategy VECTOR = "zilliz_cloud"
  ∧ _get_data_source_for_strategy KEYWORD = "opensearch"
  ∧ _get_data_source_for_strategy HYBRID = "zilliz_cloud"
  ∧ _get_data_source_for_strategy WEB = "duckduckgo"
  ∧ _get_data_source_for_strategy CRM = "crm_api"
  ∧ _get_fallback_strategy VECTOR
    = Some {| fb_strategy_type := "keyword"; fb_data_source := "opensearch" |}
  ∧ _get_fallback_strategy KEYWORD
    = Some {| fb_strategy_type := "web"; fb_data_source := "duckduckgo" |}
  ∧ _get_fallback_strategy HYBRID
    = Some {| fb_strategy_type := "keyword"; fb_data_source := "opensearch" |}
  ∧ _get_fallback_strategy WEB = None
  ∧ _get_fallback_strategy CRM = None
  ∧ (∀ s fb, _get_fallback_strategy s = Some fb →
       ∃ t, fallback_mapping s = Some t
            ∧ fb_strategy_type fb = value t
            ∧ fb_data_source fb = _get_data_source_for_strategy t).
Proof.
  split; [by eexists|]. repeat split; try reflexivity.
  intros s fb. unfold _get_fallback_strategy.
  destruct (fallback_mapping s) as [t|]; [|done].
  intros [= <-]. by exists t.
Qed.

(** ** No [crm] out of the selector *)

Lemma value_inj (s t : SearchStrategy) : value s = value t → s = t.
Proof. by destruct s, t. Qed.

Lemma SearchStrategy_of_value (s : SearchStrategy) : SearchStrategy_of (value s) = Ok s.
Proof. by destruct s. Qed.

Lemma strategy_record_think cm (q : pystr) (context : pydict) :
  strategy_record (think_retrieval_strategy cm q context) = Ok (chosen_strategy cm q context).
Proof.
  unfold strategy_record. cbn [think_retrieval_strategy sd_strategy_type].
  by rewrite SearchStrategy_of_value.
Qed.

(** ** Deduplication *)

Lemma dedup_loop_from (seen : gset pystr) (acc rs : list SearchResult) :
  (foldl dedup_step (seen, acc) rs).2 = acc ++ dedup_from seen rs.
Proof.
  revert seen acc. induction rs as [|r rs IH]; intros seen acc; simpl.
  - by rewrite app_nil_r.
  - unfold dedup_step at 2. simpl. case_bool_decide.
    + by rewrite IH, <- app_assoc.
    + apply IH.
Qed.

Lemma dedup_loop_spec (rs : list SearchResult) : (dedup_loop rs).2 = dedup_from ∅ rs.
Proof. unfold dedup_loop. by rewrite dedup_loop_from. Qed.

Lemma dedup_from_keys (seen : gset pystr) (rs : list SearchResult) (r : SearchResult) :
  r ∈ dedup_from seen rs → dedup_key r ∉ seen.
Proof.
  revert seen. induction rs as [|x rs IH]; intros seen; simpl; [by intros ?%elem_of_nil|].
  case_bool_decide as Hx.
  - intros [->|Hr]%elem_of_cons; [done|]. apply IH in Hr. set_solver.
  - apply IH.
Qed.

Lemma dedup_from_NoDup (seen : gset pystr) (rs : list SearchResult) :
  NoDup (dedup_key <$> dedup_from seen rs).
Proof.
  revert seen. induction rs as [|x rs IH]; intros seen; simpl; [constructor|].
  case_bool_decide as Hx; [|apply IH].
  rewrite fmap_cons. constructor; [|apply IH].
  intros (r & Hkey & Hr)%list_elem_of_fmap. apply dedup_from_keys in Hr. set_solver.
Qed.

Lemma dedup_from_sublist (seen : gset pystr) (rs : list SearchResult) :
  dedup_from seen rs `sublist_of` rs.
Proof.
  revert seen. induction rs as [|x rs IH]; intros seen; simpl; [constructor|].
  case_bool_decide; [by apply sublist_skip | by apply sublist_cons].
Qed.

Lemma dedup_from_first (seen : gset pystr) (rs : list SearchResult) (r : SearchResult) :
  r ∈ dedup_from seen rs → first_with_key rs r.
Proof.
  revert seen. induction rs as [|x rs IH]; intros seen; simpl; [by intros ?%elem_of_nil|].
  case_bool_decide as Hx.
  - intros [->|Hr]%elem_of_cons.
    + by exists [], rs.
    + pose proof (dedup_from_keys _ _ _ Hr) as Hnew.
      destruct (IH _ Hr) as (pre & post & -> & Hpre).
      exists (x :: pre), post. split; [done|]. constructor; [set_solver | done].
  - intros Hr. pose proof (dedup_from_keys _ _ _ Hr) as Hnew.
    destruct (IH _ Hr) as (pre & post & -> & Hpre).
    exists (x :: pre), post. split; [done|].
    constructor; [|done]. intros Heq. rewrite Heq in Hx. exact (Hnew Hx).
Qed.

Lemma dedup_from_complete (seen : gset pystr) (rs : list SearchResult) (r : SearchResult) :
  r ∈ rs → dedup_key r ∉ seen →
  ∃ r', r' ∈ dedup_from seen rs ∧ dedup_key r' = dedup_key r.
Proof.
  revert seen. induction rs as [|x rs IH]; intros seen; simpl; [by intros ?%elem_of_nil|].
  intros Hr Hnew. case_bool_decide as Hx.
  - destruct (decide (dedup_key x = dedup_key r)) as [Heq|Hne].
    + exists x. split; [by left | done].
    + apply elem_of_cons in Hr as [->|Hr]; [done|].
      destruct (IH ({[dedup_key x]} ∪ seen) Hr) as (r' & Hr' & Hk).
      { apply not_elem_of_union. split; [|done]. by intros ?%elem_of_singleton. }
      exists r'. split; [by right | done].
  - apply elem_of_cons in Hr as [->|Hr]; [done|]. by apply IH.
Qed.

Lemma dedup_from_id (seen : gset pystr) (rs : list SearchResult) :
  NoDup (dedup_key <$> rs) → Forall (λ r, dedup_key r ∉ seen) rs →
  dedup_from seen rs = rs.
Proof.
  revert seen. induction rs as [|x rs IH]; intros seen Hnd Hnew; simpl; [done|].
  rewrite fmap_cons in Hnd. apply NoDup_cons in Hnd as [Hx Hnd].
  apply Forall_cons in Hnew as [Hxnew Hnew].
  rewrite bool_decide_true by done. f_equal. apply IH; [done|].
  apply Forall_forall. intros r Hr. rewrite Forall_forall in Hnew.
  apply not_elem_of_union. split; [|by apply Hnew].
  intros Heq%elem_of_singleton. apply Hx. rewrite <- Heq. by apply list_elem_of_fmap_2.
Qed.

(** ** Sorting *)

Lemma Qltb_lt (x y : Q) : Qltb x y = true ↔ (x < y)%Q.
Proof.
  unfold Qltb. rewrite negb_true_iff, <- not_true_iff_false, Qle_bool_iff.
  split; [apply Qnot_le_lt | apply Qlt_not_le].
Qed.

Lemma Qltb_ge (x y : Q) : Qltb x y = false ↔ (y <= x)%Q.
Proof. unfold Qltb. by rewrite negb_false_iff, Qle_bool_iff. Qed.

Lemma insert_desc_perm (x : SearchResult) (l : list SearchResult) :
  insert_desc x l ≡ₚ x :: l.
Proof.
  induction l as [|y l IH]; simpl; [done|].
  destruct (Qltb _ _); [|done]. rewrite IH. apply Permutation_swap.
Qed.

Lemma sort_desc_perm (l : list SearchResult) : sort_desc l ≡ₚ l.
Proof.
  induction l as [|x l IH]; simpl; [done|].
  by rewrite insert_desc_perm, IH.
Qed.

Lemma insert_desc_sorted (x : SearchResult) (l : list SearchResult) :
  StronglySorted score_ge l → StronglySorted score_ge (insert_desc x l).
Proof.
  induction 1 as [|y l Hl IH Hy]; simpl; [repeat constructor|].
  destruct (Qltb (score_of x) (score_of y)) eqn:Hxy.
  - constructor; [done|]. rewrite insert_desc_perm. constructor; [|done].
    apply Qltb_lt in Hxy. by apply Qlt_le_weak.
  - apply Qltb_ge in Hxy. constructor; [by constructor|].
    constructor; [done|]. eapply Forall_impl; [exact Hy|].
    intros z Hz. unfold score_ge in *. by eapply Qle_trans.
Qed.

Lemma sort_desc_sorted (l : list SearchResult) : StronglySorted score_ge (sort_desc l).
Proof.
  induction l as [|x l IH]; simpl; [constructor | by apply insert_desc_sorted].
Qed.

Lemma sort_desc_id (l : list SearchResult) : StronglySorted score_ge l → sort_desc l = l.
Proof.
  induction 1 as [|x l Hl IH Hx]; simpl; [done|]. rewrite IH.
  destruct l as [|y l]; simpl; [done|].
  apply Forall_cons in Hx as [Hxy _]. apply Qltb_ge in Hxy. by rewrite Hxy.
Qed.

(** Stability: the results of one score stand in the sorted list as they
    stood before. *)
Lemma insert_desc_same_score (q : Q) (x : SearchResult) (l : list SearchResult) :
  List.filter (same_score q) (insert_desc x l)
  = List.filter (same_score q) (x :: l).
Proof.
  induction l as [|y l IH]; [done|]. cbn [insert_desc].
  destruct (Qltb (score_of x) (score_of y)) eqn:Hxy; [|done].
  cbn [List.filter] in *. rewrite IH.
  destruct (same_score q x) eqn:Hx; [|done].
  destruct (same_score q y) eqn:Hy; [|done].
  unfold same_score in *. apply Qeq_bool_iff in Hx, Hy. apply Qltb_lt in Hxy.
  rewrite Hx, Hy in Hxy. by apply Qlt_irrefl in Hxy.
Qed.

Lemma sort_desc_stable (q : Q) (l : list SearchResult) :
  List.filter (same_score q) (sort_desc l) = List.filter (same_score q) l.
Proof.
  induction l as [|x l IH]; [done|]. cbn [sort_desc foldr].
  rewrite insert_desc_same_score. cbn [List.filter]. fold (sort_desc l).
  by rewrite IH.
Qed.

(** ** Threshold and cut *)

Lemma passes_number (t : pyval) (q : Q) (r : SearchResult) :
  threshold_number t = Some q → py_ge (score_of r) t = Ok (Qle_bool q (score_of r)).
Proof. destruct t; intros [= <-]; done. Qed.

Lemma passes_true (t : pyval) (r : SearchResult) :
  passes t r = true ↔ py_ge (score_of r) t = Ok true.
Proof.
  unfold passes. destruct (py_ge (score_of r) t) as [[]|]; split; congruence.
Qed.

Lemma passes_le (t : pyval) (q : Q) (r : SearchResult) :
  threshold_number t = Some q → passes t r = true → (q <= score_of r)%Q.
Proof.
  intros Ht. unfold passes. rewrite (passes_number _ _ _ Ht). apply Qle_bool_iff.
Qed.

Lemma filter_ge_ok (t : pyval) (l out : list SearchResult) :
  filter_ge t l = Ok out → out = List.filter (passes t) l.
Proof.
  revert out. induction l as [|r l IH]; intros out; simpl; [by intros [= <-]|].
  unfold passes at 1. destruct (py_ge (score_of r) t) as [keep|]; simpl; [|done].
  destruct (filter_ge t l) as [rest|]; simpl; [|done].
  intros [= <-]. by rewrite (IH rest).
Qed.

Lemma filter_ge_number (t : pyval) (q : Q) (l : list SearchResult) :
  threshold_number t = Some q → filter_ge t l = Ok (List.filter (passes t) l).
Proof.
  intros Ht. induction l as [|r l IH]; simpl; [done|].
  unfold passes at 1. rewrite (passes_number _ _ _ Ht), IH. done.
Qed.

Lemma filter_ge_all (t : pyval) (l : list SearchResult) :
  Forall (λ r, passes t r = true) l → filter_ge t l = Ok l.
Proof.
  induction 1 as [|r l Hr _ IH]; simpl; [done|].
  apply passes_true in Hr. by rewrite Hr, IH.
Qed.

Lemma filter_sublist {A} (f : A → bool) (l : list A) : List.filter f l `sublist_of` l.
Proof.
  induction l as [|x l IH]; simpl; [constructor|].
  destruct (f x); [by apply sublist_skip | by apply sublist_cons].
Qed.

Lemma filter_Forall {A} (f : A → bool) (l : list A) :
  Forall (λ x, f x = true) (List.filter f l).
Proof.
  induction l as [|x l IH]; simpl; [constructor|].
  destruct (f x) eqn:Hx; [by constructor | done].
Qed.

Lemma filter_of_sublist {A} (f : A → bool) (l k : list A) :
  l `sublist_of` k → List.filter f l `sublist_of` List.filter f k.
Proof.
  induction 1 as [|x l k _ IH|x l k _ IH]; simpl; [constructor| |].
  - destruct (f x); [by apply sublist_skip | done].
  - destruct (f x); [by apply sublist_cons | done].
Qed.

Lemma StronglySorted_sublist {A} (R : relation A) (l k : list A) :
  l `sublist_of` k → StronglySorted R k → StronglySorted R l.
Proof.
  induction 1 as [|x l k Hlk IH|x l k Hlk IH]; [done| |].
  - intros [Hx Hk]%StronglySorted_cons. apply StronglySorted_cons. split; [|by apply IH].
    rewrite Forall_forall in Hx |- *. intros y Hy. apply Hx.
    by eapply sublist_subseteq.
  - intros [_ Hk]%StronglySorted_cons. by apply IH.
Qed.

Lemma prefix_is_sublist {A} (l k : list A) : l `prefix_of` k → l `sublist_of` k.
Proof. intros [k' ->]. by apply sublist_inserts_r. Qed.

Lemma slice_to_prefix {A} (l out : list A) (limit : pyval) :
  slice_to l limit = Ok out → out `prefix_of` l.
Proof.
  destruct limit; simpl; try done; intros [= <-]; [done|].
  destruct (0 <=? z)%Z; apply prefix_take.
Qed.

Lemma slice_to_nonneg {A} (l : list A) (z : Z) :
  (0 ≤ z)%Z → slice_to l (PyInt z) = Ok (take (Z.to_nat z) l).
Proof. intros Hz. simpl. apply Z.leb_le in Hz. by rewrite Hz. Qed.

Lemma slice_to_again {A} (l out : list A) (limit : pyval) :
  cuts_from_front limit → slice_to l limit = Ok out → slice_to out limit = Ok out.
Proof.
  destruct limit; simpl; try done; intros Hz.
  apply Z.leb_le in Hz. rewrite Hz. intros [= <-].
  by rewrite take_take, Nat.min_id.
Qed.

(** ** The post-processor *)

Lemma post_process_unfold (rs : list SearchResult) (strategy : RetrievalStrategy)
    (out : list SearchResult) :
  _post_process_results rs strategy = Ok out →
  slice_to (before_truncation rs strategy) (limit_of strategy) = Ok out.
Proof.
  unfold _post_process_results, before_truncation.
  fold (score_threshold_of strategy). fold (limit_of strategy).
  destruct (filter_ge _ _) as [filtered|] eqn:Hf; simpl; [|done].
  apply filter_ge_ok in Hf. by subst.
Qed.

Lemma before_truncation_sublist (rs : list SearchResult) (strategy : RetrievalStrategy) :
  before_truncation rs strategy `sublist_of` sort_desc (dedup_loop rs).2.
Proof. apply filter_sublist. Qed.

Lemma before_truncation_NoDup (rs : list SearchResult) (strategy : RetrievalStrategy) :
  NoDup (dedup_key <$> before_truncation rs strategy).
Proof.
  apply (sublist_NoDup _ (dedup_key <$> sort_desc (dedup_loop rs).2)).
  - rewrite sort_desc_perm, dedup_loop_spec. apply dedup_from_NoDup.
  - apply fmap_sublist, before_truncation_sublist.
Qed.

Lemma before_truncation_first (rs : list SearchResult) (strategy : RetrievalStrategy) :
  Forall (first_with_key rs) (before_truncation rs strategy).
Proof.
  apply Forall_forall. intros r Hr.
  apply (sublist_subseteq _ _ (before_truncation_sublist rs strategy)) in Hr.
  rewrite sort_desc_perm, dedup_loop_spec in Hr. by eapply dedup_from_first.
Qed.

Lemma before_truncation_sorted (rs : list SearchResult) (strategy : RetrievalStrategy) :
  StronglySorted score_ge (before_truncation rs strategy).
Proof.
  eapply StronglySorted_sublist; [apply before_truncation_sublist | apply sort_desc_sorted].
Qed.

Lemma before_truncation_stable (rs : list SearchResult) (strategy : RetrievalStrategy) (q : Q) :
  List.filter (same_score q) (before_truncation rs strategy)
  `sublist_of` List.filter (same_score q) (dedup_loop rs).2.
Proof.
  rewrite <- (sort_desc_stable q (dedup_loop rs).2).
  apply filter_of_sublist, before_truncation_sublist.
Qed.

Lemma before_truncation_passes (rs : list SearchResult) (strategy : RetrievalStrategy) :
  Forall (λ r, passes (score_threshold_of strategy) r = true) (before_truncation rs strategy).
Proof. apply filter_Forall. Qed.

Lemma post_process_returns (rs : list SearchResult) (strategy : RetrievalStrategy) :
  is_Some (threshold_number (score_threshold_of strategy)) →
  (limit_of strategy = PyNone ∨ ∃ z, limit_of strategy = PyInt z) →
  ∃ out, _post_process_results rs strategy = Ok out.
Proof.
  intros [t Ht] Hlimit. unfold _post_process_results.
  fold (score_threshold_of strategy). fold (limit_of strategy).
  rewrite (filter_ge_number _ _ _ Ht). simpl.
  destruct Hlimit as [->|[z ->]]; simpl; eauto.
Qed.

(** C3, as the code has it, for results whose [content], where present, is
    a string and whose [score], where present, is a finite number (no NaN),
    as the type [SearchResult] has them.  With a threshold that is a finite
    number and a limit that is an
    integer or [None] the post-processor returns, and whatever it returns
    (1) holds no two results of one key, each being the first of its key in
    the input, (2) is sorted by descending score, results of equal score
    standing as they stood after deduplication, (3) holds only results whose
    score is at least the threshold, and (4) is a prefix of the list that
    steps 1 to 3 leave; for an integer limit that is not negative it is the
    first [limit] results of that list, so at most [limit] long. *)
Theorem post_process_guarantees (rs : list SearchResult) (strategy : RetrievalStrategy) :
  (is_Some (threshold_number (score_threshold_of strategy)) →
   (limit_of strategy = PyNone ∨ ∃ z, limit_of strategy = PyInt z) →
   ∃ out, _post_process_results rs strategy = Ok out)
  ∧ ∀ out, _post_process_results rs strategy = Ok out →
      NoDup (dedup_key <$> out)
      ∧ Forall (first_with_key rs) out
      ∧ StronglySorted score_ge out
      ∧ (∀ q, List.filter (same_score q) out
              `sublist_of` List.filter (same_score q) (dedup_loop rs).2)
      ∧ Forall (λ r, py_ge (score_of r) (score_threshold_of strategy) = Ok true) out
      ∧ out `prefix_of` before_truncation rs strategy
      ∧ ∀ z, limit_of strategy = PyInt z → (0 ≤ z)%Z →
             out = take (Z.to_nat z) (before_truncation rs strategy)
             ∧ (Z.of_nat (length out) ≤ z)%Z.
Proof.
  split; [apply post_process_returns|].
  intros out Hout%post_process_unfold.
  pose proof (slice_to_prefix _ _ _ Hout) as Hprefix.
  pose proof (prefix_is_sublist _ _ Hprefix) as Hsub.
  repeat split.
  - apply (sublist_NoDup _ (dedup_key <$> before_truncation rs strategy)).
    + apply before_truncation_NoDup.
    + by apply fmap_sublist.
  - apply Forall_forall. intros r Hr. apply (sublist_subseteq _ _ Hsub) in Hr.
    revert r Hr. apply Forall_forall, before_truncation_first.
  - eapply StronglySorted_sublist; [exact Hsub | apply before_truncation_sorted].
  - intros q. etrans; [by apply filter_of_sublist | apply before_truncation_stable].
  - apply Forall_forall. intros r Hr. apply (sublist_subseteq _ _ Hsub) in Hr.
    apply passes_true. revert r Hr. apply Forall_forall, before_truncation_passes.
  - done.
  - rewrite H in Hout. rewrite slice_to_nonneg in Hout by done. by injection Hout.
  - rewrite H in Hout. rewrite slice_to_nonneg in Hout by done.
    injection Hout as <-. rewrite length_take. lia.
Qed.

Lemma post_process_guarantees_witness :
  ∃ out, _post_process_results sample_results (sample_strategy (PyInt 2)) = Ok out
         ∧ NoDup (dedup_key <$> out)
         ∧ StronglySorted score_ge out
         ∧ (Z.of_nat (length out) ≤ 2)%Z.
Proof.
  destruct (post_process_guarantees sample_results (sample_strategy (PyInt 2)))
    as [Hreturns Hall].
  destruct Hreturns as [out Hout].
  - by exists (1 # 2)%Q.
  - right. by exists 2%Z.
  - exists out. split; [done|].
    destruct (Hall out Hout) as (H1 & _ & H2 & _ & _ & _ & H4).
    split; [done|]. split; [done|].
    by apply (H4 2%Z).
Defined.

(** C3 as the specification words it fails on a negative limit, which
    Python reads from the end of the list: limit [-1] leaves two results. *)
Lemma post_process_negative_limit :
  limit_of (sample_strategy (PyInt (-1))) = PyInt (-1)
  ∧ ∃ out, _post_process_results sample_results (sample_strategy (PyInt (-1))) = Ok out
           ∧ ¬ (Z.of_nat (length out) ≤ -1)%Z.
Proof.
  split; [reflexivity|]. eexists. split; [vm_compute; reflexivity|]. simpl. lia.
Qed.

Lemma post_process_again (rs out : list SearchResult) (strategy : RetrievalStrategy) :
  _post_process_results rs strategy = Ok out →
  _post_process_results out strategy = slice_to out (limit_of strategy).
Proof.
  intros Hout%post_process_unfold.
  pose proof (prefix_is_sublist _ _ (slice_to_prefix _ _ _ Hout)) as Hsub.
  assert (Hkeys : NoDup (dedup_key <$> out)).
  { apply (sublist_NoDup _ (dedup_key <$> before_truncation rs strategy)).
    - apply before_truncation_NoDup.
    - by apply fmap_sublist. }
  assert (Hsorted : StronglySorted score_ge out).
  { eapply StronglySorted_sublist; [exact Hsub | apply before_truncation_sorted]. }
  assert (Hpass : Forall (λ r, passes (score_threshold_of strategy) r = true) out).
  { apply Forall_forall. intros r Hr. apply (sublist_subseteq _ _ Hsub) in Hr.
    revert r Hr. apply Forall_forall, before_truncation_passes. }
  unfold _post_process_results.
  fold (score_threshold_of strategy). fold (limit_of strategy).
  rewrite dedup_loop_spec, dedup_from_id, sort_desc_id; [|done..| ].
  - by rewrite filter_ge_all.
  - apply Forall_forall. intros r _. apply not_elem_of_empty.
Qed.

(** C8, as the code has it, for results whose [content], where present, is
    a string and whose [score], where present, is a finite number (no NaN),
    as the type [SearchResult] has them.  When the limit is [None] or an
    integer that is not negative, post-processing the output of the
    post-processor again, with the same strategy record, returns that
    output.  When the limit is a negative integer [-k], post-processing the
    output again returns it without its last [k] results (none of them if
    it has fewer), so the output is returned unchanged only if it is
    empty. *)
Theorem post_process_idempotent (rs out : list SearchResult) (strategy : RetrievalStrategy) :
  _post_process_results rs strategy = Ok out →
  (cuts_from_front (limit_of strategy) → _post_process_results out strategy = Ok out)
  ∧ ∀ z, limit_of strategy = PyInt z → (z < 0)%Z →
      _post_process_results out strategy = Ok (take (length out - Z.to_nat (- z)) out)
      ∧ (out ≠ [] → _post_process_results out strategy ≠ Ok out).
Proof.
  intros Hout. rewrite (post_process_again _ _ _ Hout). split.
  - intros Hlimit. eapply slice_to_again; [done|].
    exact (post_process_unfold _ _ _ Hout).
  - intros z -> Hneg. cbn [slice_to].
    assert ((0 <=? z)%Z = false) as -> by lia. split; [done|].
    intros Hne [= Heq]. apply (f_equal length) in Heq. rewrite length_take in Heq.
    destruct out as [|r out]; [done|]. simpl in Heq. lia.
Qed.

Lemma post_process_idempotent_witness :
  _post_process_results [result_of "beta" (9 # 10); result_of "gamma" (9 # 10)]
    (sample_strategy (PyInt 2))
  = Ok [result_of "beta" (9 # 10); result_of "gamma" (9 # 10)]
  ∧ _post_process_results [result_of "beta" (9 # 10); result_of "gamma" (9 # 10)]
      (sample_strategy (PyInt (-1)))
    ≠ Ok [result_of "beta" (9 # 10); result_of "gamma" (9 # 10)].
Proof.
  split.
  - destruct (post_process_idempotent sample_results
                [result_of "beta" (9 # 10); result_of "gamma" (9 # 10)]
                (sample_strategy (PyInt 2))) as [Hfront _].
    + vm_compute. reflexivity.
    + apply Hfront. vm_compute. discriminate.
  - destruct (post_process_idempotent sample_results
                [result_of "beta" (9 # 10); result_of "gamma" (9 # 10)]
                (sample_strategy (PyInt (-1)))) as [_ Hback].
    + vm_compute. reflexivity.
    + destruct (Hback (-1)%Z) as [_ Hshorter]; [vm_compute; reflexivity | lia |].
      apply Hshorter. discriminate.
Defined.

(** C8 as the specification words it fails on a negative limit: with limit
    [-1] the second pass drops the last result of the first. *)
Lemma post_process_not_idempotent :
  ∃ once twice,
    _post_process_results sample_results (sample_strategy (PyInt (-1))) = Ok once
    ∧ _post_process_results once (sample_strategy (PyInt (-1))) = Ok twice
    ∧ twice ≠ once.
Proof.
  do 2 eexists. split; [vm_compute; reflexivity|].
  split; [vm_compute; reflexivity|]. discriminate.
Qed.

(** ** Running the monad *)

Section Run.
Context {E : Type}.
Implicit Types w : World E.

Lemma bind_ok {A B} (m : M E A) (k : A → M E B) w a w1 :
  m w = (Ok a, w1) → bind m k w = k a w1.
Proof. unfold bind. by intros ->. Qed.

Lemma bind_raise {A B} (m : M E A) (k : A → M E B) w e w1 :
  m w = (Raise e, w1) → bind m k w = (Raise e, w1).
Proof. unfold bind. by intros ->. Qed.

Lemma try_ok {A} (m : M E A) (h : exn → M E A) w a w1 :
  m w = (Ok a, w1) → try_except m h w = (Ok a, w1).
Proof. unfold try_except. by intros ->. Qed.

Lemma try_raise {A} (m : M E A) (h : exn → M E A) w e w1 :
  m w = (Raise e, w1) → try_except m h w = h e w1.
Proof. unfold try_except. by intros ->. Qed.

Lemma bind_lift_ok {A B} (a : A) (k : A → M E B) w : bind (lift (Ok a)) k w = k a w.
Proof. done. Qed.

Lemma bind_lift_raise {A B} (e : exn) (k : A → M E B) w :
  bind (lift (Raise e)) k w = (Raise e, w).
Proof. done. Qed.

Lemma bind_now {B} (clock : E → Z) (k : Z → M E B) w :
  bind (now clock) k w = k (clock (ext w)) w.
Proof. done. Qed.

Lemma bind_observe {B} (o : Obs) (k : unit → M E B) w :
  bind (observe o) k w = k () {| ext := ext w; trace := trace w ++ [o] |}.
Proof. done. Qed.

Lemma dispatches_app (t u : list Obs) : dispatches (t ++ u) = dispatches t ++ dispatches u.
Proof. apply omap_app. Qed.

Lemma dispatches_log (l : LogLine) (t : list Obs) :
  dispatches (ObsLog l :: t) = dispatches t.
Proof. done. Qed.

Lemma deliveries_app (t u : list Obs) : deliveries (t ++ u) = deliveries t ++ deliveries u.
Proof. apply omap_app. Qed.

Lemma log_lines_app (t u : list Obs) : log_lines (t ++ u) = log_lines t ++ log_lines u.
Proof. apply omap_app. Qed.
End Run.

(** ** Listeners *)

Section Listeners.
Context {E : Type} (clock : E → Z).
Implicit Types w : World E.

Lemma notify_spec (ev : Event) (i : nat) (hs : list (Handler E)) w :
  ∃ t, notify ev i hs w = (Ok (), {| ext := run_handlers ev (ext w) hs;
                                      trace := trace w ++ t |})
       ∧ deliveries t = imap (λ j _, ((i + j)%nat, ev)) hs
       ∧ log_lines t = handler_failures ev (ext w) hs
       ∧ dispatches t = [].
Proof.
  revert i w. induction hs as [|h hs IH]; intros i w.
  - exists []. simpl. rewrite app_nil_r. by destruct w.
  - cbn [notify]. unfold bind at 1, try_except, bind, observe, call. simpl.
    destruct (h ev (ext w)) as [[[]|x] e'] eqn:Hh; simpl.
    + destruct (IH (S i) {| ext := e'; trace := trace w ++ [ObsDeliver i ev] |})
        as (t & -> & Hd & Hl & Hs). simpl.
      exists (ObsDeliver i ev :: t). rewrite <- app_assoc. simpl. split; [done|].
      rewrite Hd, Hl, Hs, Nat.add_0_r. repeat split.
      f_equal. apply imap_ext. intros j ? _. simpl. f_equal. lia.
    + destruct (IH (S i) {| ext := e';
                          trace := (trace w ++ [ObsDeliver i ev]) ++ [ObsLog (HandlerFailed x)] |})
        as (t & -> & Hd & Hl & Hs). simpl.
      exists (ObsDeliver i ev :: ObsLog (HandlerFailed x) :: t).
      rewrite <- !app_assoc. simpl. split; [done|].
      rewrite Hd, Hl, Hs, Nat.add_0_r. repeat split.
      f_equal. apply imap_ext. intros j ? _. simpl. f_equal. lia.
Qed.

Lemma emit_event_spec (self : RetrieverAgent E) (event_type : string) (d : EventData) w :
  let ev := {| event := event_type; agent_name := name self;
               timestamp := clock (ext w); data := d |} in
  ∃ t, _emit_event clock self event_type d w
       = (Ok (), {| ext := run_handlers ev (ext w) (event_handlers self);
                    trace := trace w ++ t |})
       ∧ deliveries t = imap (λ j _, (j, ev)) (event_handlers self)
       ∧ log_lines t = handler_failures ev (ext w) (event_handlers self)
       ∧ dispatches t = [].
Proof.
  intros ev.
  destruct (notify_spec ev 0 (event_handlers self) w) as (t & Ht & Hd & Hl & Hs).
  exists t. split; [|done]. unfold _emit_event, bind, now. simpl. exact Ht.
Qed.

Lemma emit_if_enabled_spec (self : RetrieverAgent E) (event_type : string)
    (d : EventData) w :
  ∃ w1, emit_if_enabled clock self event_type d w = (Ok (), w1)
        ∧ dispatches (trace w1) = dispatches (trace w).
Proof.
  unfold emit_if_enabled. destruct (enable_events self).
  - destruct (emit_event_spec self event_type d w) as (t & -> & _ & _ & Hs).
    eexists. split; [done|]. simpl. by rewrite dispatches_app, Hs, app_nil_r.
  - by exists w.
Qed.
End Listeners.

(** ** The dispatchers *)

Section Dispatchers.
Context {E : Type}.
Implicit Types w : World E.

Lemma zilliz_search_spec (self : RetrieverTools E) (q : pystr) (filters : pyval)
    (parameters : pydict) w :
  ∃ rs e t, zilliz_search self q filters parameters w
            = (Ok rs, {| ext := e; trace := trace w ++ t |})
    ∧ dispatches t = [] ∧ deliveries t = []
    ∧ match zilliz_client self, _build_zilliz_filter filters with
      | None, _ | Some _, Raise _ => rs = [] ∧ e = ext w
      | Some client, Ok flt =>
          rs = zilliz_results (client (zilliz_request q parameters flt) (ext w)).1
          ∧ e = (client (zilliz_request q parameters flt) (ext w)).2
      end.
Proof.
  unfold zilliz_search. destruct (zilliz_client self) as [client|].
  - unfold try_except, bind, lift, call, observe, ret. simpl.
    destruct (_build_zilliz_filter filters) as [flt|x]; simpl.
    + fold (zilliz_request q parameters flt).
      destruct (client (zilliz_request q parameters flt) (ext w)) as [[hits|x] e]; simpl.
      * exists (format_zilliz <$> hits), e, []. by rewrite app_nil_r.
      * by exists [], e, [ObsLog (ZillizSearchFailed x)].
    + by exists [], (ext w), [ObsLog (ZillizSearchFailed x)].
  - by exists [], (ext w), [ObsLog ZillizNotInitialised].
Qed.

Lemma opensearch_search_spec (self : RetrieverTools E) (q : pystr) (filters : pyval)
    (parameters : pydict) w :
  ∃ rs e t, opensearch_search self q filters parameters w
            = (Ok rs, {| ext := e; trace := trace w ++ t |})
    ∧ dispatches t = [] ∧ deliveries t = []
    ∧ match opensearch_client self, _build_opensearch_filter filters with
      | None, _ | Some _, Raise _ => rs = [] ∧ e = ext w
      | Some client, Ok flt =>
          rs = opensearch_results (client (opensearch_request q parameters flt) (ext w)).1
          ∧ e = (client (opensearch_request q parameters flt) (ext w)).2
      end.
Proof.
  unfold opensearch_search. destruct (opensearch_client self) as [client|].
  - unfold try_except, bind, lift, call, observe, ret. simpl.
    destruct (_build_opensearch_filter filters) as [flt|x]; simpl.
    + fold (opensearch_request q parameters flt).
      destruct (client (opensearch_request q parameters flt) (ext w))
        as [[[hits|]|x] e]; simpl.
      * destruct (format_opensearch_hits hits) as [rs|x]; simpl.
        -- exists rs, e, []. by rewrite app_nil_r.
        -- by exists [], e, [ObsLog (OpenSearchSearchFailed x)].
      * by eexists [], e, [ObsLog (OpenSearchSearchFailed _)].
      * by exists [], e, [ObsLog (OpenSearchSearchFailed x)].
    + by exists [], (ext w), [ObsLog (OpenSearchSearchFailed x)].
  - by exists [], (ext w), [ObsLog OpenSearchNotInitialised].
Qed.

Lemma web_search_spec (self : RetrieverTools E) (q : pystr) (parameters : pydict) w :
  ∃ rs e t, web_search self q parameters w
            = (Ok rs, {| ext := e; trace := trace w ++ t |})
    ∧ dispatches t = [] ∧ deliveries t = []
    ∧ rs = web_results (web_search_tools self (web_request q parameters) (ext w)).1
    ∧ e = (web_search_tools self (web_request q parameters) (ext w)).2.
Proof.
  unfold web_search, try_except, bind, call, observe, ret. simpl.
  fold (web_request q parameters).
  destruct (web_search_tools self (web_request q parameters) (ext w))
    as [[[items|]|x] e]; simpl.
  - exists (format_web 0 items), e, []. by rewrite app_nil_r.
  - exists [], e, []. by rewrite app_nil_r.
  - by exists [], e, [ObsLog (WebSearchFailed x)].
Qed.

(** C6. None of the three dispatchers raises: each returns a list for all
    arguments.  A failure inside (the request cannot be built, the backend
    call raises, the answer lacks a field) gives the empty list; a
    dispatcher without a client gives the empty list and leaves the
    outside state as it was, so no backend was called; and a backend that
    answers with nothing gives the empty list as well. *)
Theorem dispatchers_fail_soft (self : RetrieverTools E) (q : pystr) (filters : pyval)
    (parameters : pydict) w :
  (∃ rs w1, zilliz_search self q filters parameters w = (Ok rs, w1)
     ∧ (zilliz_client self = None → rs = [] ∧ ext w1 = ext w)
     ∧ (∀ x, _build_zilliz_filter filters = Raise x → rs = [])
     ∧ (∀ client flt, zilliz_client self = Some client →
          _build_zilliz_filter filters = Ok flt →
          let answer := client (zilliz_request q parameters flt) (ext w) in
          rs = zilliz_results answer.1 ∧ ext w1 = answer.2
          ∧ ((∃ x, answer.1 = Raise x) ∨ answer.1 = Ok [] → rs = [])))
  ∧ (∃ rs w1, opensearch_search self q filters parameters w = (Ok rs, w1)
     ∧ (opensearch_client self = None → rs = [] ∧ ext w1 = ext w)
     ∧ (∀ x, _build_opensearch_filter filters = Raise x → rs = [])
     ∧ (∀ client flt, opensearch_client self = Some client →
          _build_opensearch_filter filters = Ok flt →
          let answer := client (opensearch_request q parameters flt) (ext w) in
          rs = opensearch_results answer.1 ∧ ext w1 = answer.2
          ∧ ((∃ x, answer.1 = Raise x) ∨ answer.1 = Ok None ∨ answer.1 = Ok (Some [])
             → rs = [])))
  ∧ (∃ rs w1, web_search self q parameters w = (Ok rs, w1)
     ∧ let answer := web_search_tools self (web_request q parameters) (ext w) in
       rs = web_results answer.1 ∧ ext w1 = answer.2
       ∧ ((∃ x, answer.1 = Raise x) ∨ answer.1 = Ok (WebList []) → rs = [])).
Proof.
  split; [|split].
  - destruct (zilliz_search_spec self q filters parameters w)
      as (rs & e & t & -> & _ & _ & Hrs).
    exists rs, {| ext := e; trace := trace w ++ t |}. split; [done|].
    destruct (zilliz_client self) as [client|].
    + split; [done|]. split.
      * intros x Hx. rewrite Hx in Hrs. by destruct Hrs.
      * intros c flt [= <-] Hflt. rewrite Hflt in Hrs. destruct Hrs as [-> ->].
        simpl. repeat split. intros [[x ->]| ->]; done.
    + split; [done|]. split; [intros; by destruct Hrs | done].
  - destruct (opensearch_search_spec self q filters parameters w)
      as (rs & e & t & -> & _ & _ & Hrs).
    exists rs, {| ext := e; trace := trace w ++ t |}. split; [done|].
    destruct (opensearch_client self) as [client|].
    + split; [done|]. split.
      * intros x Hx. rewrite Hx in Hrs. by destruct Hrs.
      * intros c flt [= <-] Hflt. rewrite Hflt in Hrs. destruct Hrs as [-> ->].
        simpl. repeat split. intros [[x ->]|[->| ->]]; done.
    + split; [done|]. split; [intros; by destruct Hrs | done].
  - destruct (web_search_spec self q parameters w)
      as (rs & e & t & -> & _ & _ & -> & ->).
    eexists _, _. split; [done|]. simpl. repeat split.
    intros [[x ->]| ->]; done.
Qed.
End Dispatchers.

(** ** The orchestrator *)

Section Orchestrator.
Context {E : Type} (clock : E → Z) (cm : CaseMapping).
Implicit Types w : World E.

Lemma execute_spec (self : RetrieverAgent E) (strategy : RetrievalStrategy) w :
  ∃ rs w1, _execute_search_strategy clock self strategy w = (Ok rs, w1)
           ∧ dispatches (trace w1) = dispatches (trace w) ++ [(strategy, rs)].
Proof.
  unfold _execute_search_strategy.
  set (dispatch := if bool_decide (data_source strategy = "zilliz_cloud") then _ else _).
  assert (∃ rs w1, dispatch w = (Ok rs, w1)
                   ∧ dispatches (trace w1) = dispatches (trace w))
    as (rs & w1 & Hdispatch & Hd1).
  { subst dispatch. repeat case_bool_decide.
    - destruct (zilliz_search_spec (tools self) (query strategy) (filters strategy)
                  (parameters strategy) w) as (rs & e & t & -> & Hd & _).
      eexists _, _. split; [done|]. simpl. by rewrite dispatches_app, Hd, app_nil_r.
    - destruct (opensearch_search_spec (tools self) (query strategy) (filters strategy)
                  (parameters strategy) w) as (rs & e & t & -> & Hd & _).
      eexists _, _. split; [done|]. simpl. by rewrite dispatches_app, Hd, app_nil_r.
    - destruct (web_search_spec (tools self) (query strategy) (parameters strategy) w)
        as (rs & e & t & -> & Hd & _).
      eexists _, _. split; [done|]. simpl. by rewrite dispatches_app, Hd, app_nil_r.
    - by exists [], w. }
  destruct (emit_if_enabled_spec clock self "ToolCallCompleted"
              (ToolCallCompletedData (data_source strategy) (length rs)) w1)
    as (w2 & Hemit & Hd2).
  exists rs. eexists. split.
  - erewrite bind_ok; [reflexivity|].
    apply try_ok. erewrite bind_ok by exact Hdispatch.
    apply try_ok. by erewrite bind_ok by exact Hemit.
  - simpl. by rewrite dispatches_app, Hd2, Hd1.
Qed.

Lemma fallback_record_chosen (q : pystr) (context : pydict) (fb : FallbackDict) :
  fallback_strategy (chosen_strategy cm q context) = Some fb →
  ∃ t, fb_strategy_type fb = value t
       ∧ fallback_record (chosen_strategy cm q context) fb
         = Ok (fallback_of (chosen_strategy cm q context) t fb).
Proof.
  cbn [chosen_strategy fallback_strategy strategy_type]. unfold _get_fallback_strategy.
  destruct (fallback_mapping _) as [t|]; [|done]. intros [= <-].
  exists t. split; [done|]. unfold fallback_record. cbn [fb_strategy_type fb_data_source].
  by rewrite SearchStrategy_of_value.
Qed.

Lemma search_try_spec (self : RetrieverAgent E) (q : pystr) (context : pydict)
    (start_time : Z) w :
  ∃ r w1 last,
    search_try clock cm self q context start_time w = (r, w1)
    ∧ dispatched (chosen_strategy cm q context)
        (drop (length (dispatches (trace w))) (dispatches (trace w1))) last
    ∧ take (length (dispatches (trace w))) (dispatches (trace w1)) = dispatches (trace w)
    ∧ try_outcome q (chosen_strategy cm q context) start_time last r.
Proof.
  unfold search_try.
  destruct (emit_if_enabled_spec clock self "RetrievalStarted"
              (RetrievalStartedData q context start_time) w) as (w1 & He1 & Hd1).
  rewrite (bind_ok _ _ _ _ _ He1).
  rewrite strategy_record_think, bind_lift_ok.
  set (strategy := chosen_strategy cm q context).
  destruct (emit_if_enabled_spec clock self "RetrievalStrategyCompleted"
              (RetrievalStrategyCompletedData (value (strategy_type strategy))
                 (data_source strategy) (query strategy)) w1) as (w2 & He2 & Hd2).
  rewrite (bind_ok _ _ _ _ _ He2).
  destruct (execute_spec self strategy w2) as (rs1 & w3 & Hx1 & Hd3).
  rewrite (bind_ok _ _ _ _ _ Hx1).
  rewrite Hd2, Hd1 in Hd3.
  assert (∃ last w4,
    (match rs1, fallback_strategy strategy with
     | [], Some fb =>
         observe (ObsLog (FallbackChosen fb)) >>
         emit_if_enabled clock self "FallbackStrategyActivated"
           (FallbackStrategyActivatedData fb) >>
         let* fallback := lift (fallback_record strategy fb) in
         _execute_search_strategy clock self fallback
     | _, _ => ret rs1
     end) w3 = (Ok last, w4)
    ∧ ∃ ds, dispatches (trace w4) = dispatches (trace w) ++ ds ∧ dispatched strategy ds last)
    as (last & w4 & Hfb & ds & Hd4 & Hds).
  { destruct (fallback_strategy strategy) as [fb|] eqn:Hfallback.
    - destruct (fallback_record_chosen q context fb Hfallback) as (t & Ht & Hrec).
      destruct rs1 as [|r1 rs1].
      + rewrite bind_observe.
        set (w3' := {| ext := ext w3; trace := trace w3 ++ [ObsLog (FallbackChosen fb)] |}).
        destruct (emit_if_enabled_spec clock self "FallbackStrategyActivated"
                    (FallbackStrategyActivatedData fb) w3') as (w3'' & He3 & Hd3').
        rewrite (bind_ok _ _ _ _ _ He3). fold strategy in Hrec.
        rewrite Hrec, bind_lift_ok.
        destruct (execute_spec self (fallback_of strategy t fb) w3'')
          as (rs2 & w4 & Hx2 & Hd4).
        exists rs2, w4. split; [done|].
        exists [(strategy, []); (fallback_of strategy t fb, rs2)]. split.
        * rewrite Hd4, Hd3'. subst w3'. simpl.
          rewrite dispatches_app, Hd3. simpl. by rewrite app_nil_r, <- app_assoc.
        * right. by exists fb, t.
      + exists (r1 :: rs1), w3. split; [done|].
        exists [(strategy, r1 :: rs1)]. split; [done|]. left. split; [done|]. by left.
    - exists rs1, w3. split; [by destruct rs1|].
      exists [(strategy, rs1)]. split; [done|]. left. split; [done|]. by right. }
  rewrite (bind_ok _ _ _ _ _ Hfb).
  unfold try_outcome.
  destruct (_post_process_results last strategy) as [out|x] eqn:Hpost.
  - rewrite bind_lift_ok, !bind_now.
    destruct (emit_if_enabled_spec clock self "RetrievalCompleted"
                (RetrievalCompletedData (length out) (clock (ext w4) - start_time)
                   (value (strategy_type strategy))) w4) as (w5 & He5 & Hd5).
    rewrite (bind_ok _ _ _ _ _ He5).
    eexists _, w5, last. split; [reflexivity|]. rewrite Hd5, Hd4.
    rewrite drop_app_length, take_app_length, Hpost. repeat split; [done|].
    by exists (clock (ext w4)).
  - rewrite bind_lift_raise.
    eexists _, w4, last. split; [reflexivity|]. rewrite Hd4.
    by rewrite drop_app_length, take_app_length, Hpost.
Qed.

Lemma search_except_spec (self : RetrieverAgent E) (q : pystr) (x : exn) w :
  ∃ w1 t, search_except clock self q x w
          = (Ok (failure_response q x (clock (ext w1))), w1)
    ∧ trace w1 = trace w ++ ObsLog (RetrievalFailed x) :: t
    ∧ dispatches t = []
    ∧ deliveries t
      = (if enable_events self
         then imap (λ j _, (j, error_event (name self) q x (clock (ext w))))
                   (event_handlers self)
         else []).
Proof.
  unfold search_except. rewrite bind_observe. unfold emit_if_enabled.
  destruct (enable_events self).
  - destruct (emit_event_spec clock self "RetrievalError"
                (RetrievalErrorData (exn_msg x) q)
                {| ext := ext w; trace := trace w ++ [ObsLog (RetrievalFailed x)] |})
      as (t & Hemit & Hd & _ & Hs).
    rewrite (bind_ok _ _ _ _ _ Hemit), bind_now.
    eexists _, t. split; [reflexivity|]. simpl. by rewrite <- app_assoc.
  - eexists _, []. split; [reflexivity|]. done.
Qed.

(** C4. A call of [search] dispatches once or twice.  If the primary
    dispatch returns the empty list and the strategy has a fallback, there
    is exactly one more dispatch, of the record that has the query (the
    rewritten one), the original query, the filters and the parameters of
    the primary record and the strategy tag and data source of the fallback
    entry, and no fallback of its own; what it returns is what is
    post-processed.  If the primary dispatch returns something, or there is
    no fallback, it is the only dispatch and its list is post-processed. *)
Theorem search_fallback (self : RetrieverAgent E) (q : pystr) (context : option pydict)
    (session_id user_id : option pystr) w :
  let strategy := chosen_strategy cm q (default ∅ context) in
  ∃ resp w1 last,
    search clock cm self q context session_id user_id w = (Ok resp, w1)
    ∧ take (length (dispatches (trace w))) (dispatches (trace w1)) = dispatches (trace w)
    ∧ ((drop (length (dispatches (trace w))) (dispatches (trace w1)) = [(strategy, last)]
        ∧ (last ≠ [] ∨ fallback_strategy strategy = None))
       ∨ (∃ fb t fallback,
            fallback_strategy strategy = Some fb
            ∧ drop (length (dispatches (trace w))) (dispatches (trace w1))
              = [(strategy, []); (fallback, last)]
            ∧ value (strategy_type fallback) = fb_strategy_type fb
            ∧ fallback_mapping (strategy_type strategy) = Some t
            ∧ strategy_type fallback = t
            ∧ data_source fallback = fb_data_source fb
            ∧ query fallback = query strategy
            ∧ original_query fallback = original_query strategy
            ∧ filters fallback = filters strategy
            ∧ parameters fallback = parameters strategy
            ∧ fallback_strategy fallback = None))
    ∧ match _post_process_results last strategy with
      | Ok out => success resp = true ∧ results resp = out ∧ error resp = None
      | Raise x => success resp = false ∧ results resp = []
      end.
Proof.
  intros strategy. unfold search. rewrite bind_now.
  destruct (search_try_spec self q (default ∅ context) (clock (ext w)) w)
    as (r & w1 & last & Htry & Hds & Hold & Hout).
  fold strategy in Hds, Hout.
  assert (Hshape :
    ∀ ds, dispatched strategy ds last →
      (ds = [(strategy, last)] ∧ (last ≠ [] ∨ fallback_strategy strategy = None))
      ∨ (∃ fb t fallback,
           fallback_strategy strategy = Some fb
           ∧ ds = [(strategy, []); (fallback, last)]
           ∧ value (strategy_type fallback) = fb_strategy_type fb
           ∧ fallback_mapping (strategy_type strategy) = Some t
           ∧ strategy_type fallback = t
           ∧ data_source fallback = fb_data_source fb
           ∧ query fallback = query strategy
           ∧ original_query fallback = original_query strategy
           ∧ filters fallback = filters strategy
           ∧ parameters fallback = parameters strategy
           ∧ fallback_strategy fallback = None)).
  { intros ds [Hone|(fb & t & Hfb & Htag & ->)]; [by left|right].
    exists fb, t, (fallback_of strategy t fb). repeat split; try done.
    subst strategy. cbn [chosen_strategy fallback_strategy strategy_type] in *.
    unfold _get_fallback_strategy in Hfb.
    destruct (fallback_mapping _) as [t'|]; [|done].
    injection Hfb as <-. cbn [fb_strategy_type] in Htag.
    by apply value_inj in Htag as ->. }
  unfold try_outcome in Hout.
  destruct (_post_process_results last strategy) as [out|x] eqn:Hpost.
  - destruct Hout as [finished ->].
    rewrite (try_ok _ _ _ _ _ Htry).
    eexists _, w1, last. split; [reflexivity|]. split; [done|].
    split; [by apply Hshape|]. by rewrite Hpost.
  - subst r. rewrite (try_raise _ _ _ _ _ Htry).
    destruct (search_except_spec self q x w1) as (w2 & t & -> & Ht & Hs & _).
    eexists _, w2, last. split; [reflexivity|].
    rewrite Ht, dispatches_app, dispatches_log, Hs, app_nil_r. split; [done|]. split; [by apply Hshape|]. by rewrite Hpost.
Qed.

(** C10. The strategy tag of the record of [think_retrieval_strategy] is
    one of [vector], [keyword], [hybrid], [web] and never [crm]; its data
    source is not the crm one; and no dispatch of a call of [search], the
    fallback one included, is of a [crm] record. *)
Theorem crm_unreachable (self : RetrieverAgent E) (q : pystr) (context : option pydict)
    (session_id user_id : option pystr) w :
  let d := think_retrieval_strategy cm q (default ∅ context) in
  sd_strategy_type d ∈ ["vector"; "keyword"; "hybrid"; "web"]
  ∧ sd_strategy_type d ≠ value CRM
  ∧ sd_data_source d ≠ _get_data_source_for_strategy CRM
  ∧ Forall (λ '(s, _), strategy_type s ≠ CRM ∧ data_source s ≠ "crm_api")
      (drop (length (dispatches (trace w)))
            (dispatches (trace (search clock cm self q context session_id user_id w).2))).
Proof.
  intros d.
  pose proof (select_cases cm (_rewrite_query_if_needed q (default ∅ context))
                (default ∅ context)) as Hsel.
  assert (Hfour : ∀ s, s ∈ [VECTOR; KEYWORD; HYBRID; WEB] →
            s ≠ CRM ∧ _get_data_source_for_strategy s ≠ "crm_api"
            ∧ value s ∈ ["vector"; "keyword"; "hybrid"; "web"]
            ∧ ∀ t, fallback_mapping s = Some t →
                   t ≠ CRM ∧ _get_data_source_for_strategy t ≠ "crm_api").
  { intros s Hs. repeat (apply elem_of_cons in Hs as [->|Hs]);
      [| | | |by apply elem_of_nil in Hs];
      (split; [done|]; split; [done|]; split;
       [repeat first [by left | right] | intros t [= <-]; done]). }
  destruct (Hfour _ Hsel) as (Hcrm & Hsource & Hvalue & Hfallback).
  split; [exact Hvalue|]. split.
  { intros Heq. by apply value_inj in Heq. }
  split; [exact Hsource|].
  destruct (search_fallback self q context session_id user_id w)
    as (resp & w1 & last & Hsearch & _ & Hds & _).
  rewrite Hsearch. cbn [snd].
  destruct Hds as [[-> _]|(fb & t & fallback & Hfb & -> & _ & Ht & Htag & Hsrc & _)].
  - by repeat constructor.
  - destruct (Hfallback _ Ht) as [Htcrm Htsource].
    repeat constructor; try done; [by rewrite Htag|].
    cbn [chosen_strategy fallback_strategy strategy_type] in Hfb, Ht.
    unfold _get_fallback_strategy in Hfb. rewrite Ht in Hfb.
    injection Hfb as <-. by rewrite Hsrc.
Qed.

(** C5, as the code has it.  [search] never raises: it returns a response
    for every input.  If the [try] block raises, which in this embedding
    only post-processing can do (exceptions of the backends and of the
    listeners are absorbed where they arise), the exception is logged, the
    error event goes to every listener in turn when events are enabled and
    to none when they are not, and the response is the failure response:
    [success] false, no results, code ["RETRIEVAL_FAILED"] and the message
    of the exception.  If the [try] block returns, its response is
    returned. *)
Theorem search_never_raises (self : RetrieverAgent E) (q : pystr)
    (context : option pydict) (session_id user_id : option pystr) w :
  ∃ resp w1,
    search clock cm self q context session_id user_id w = (Ok resp, w1)
    ∧ (∀ r w0, search_try clock cm self q (default ∅ context) (clock (ext w)) w
               = (Ok r, w0) → resp = r ∧ w1 = w0)
    ∧ (∀ x w0, search_try clock cm self q (default ∅ context) (clock (ext w)) w
               = (Raise x, w0) →
         (∃ last, _post_process_results last (chosen_strategy cm q (default ∅ context))
                  = Raise x)
         ∧ success resp = false
         ∧ results resp = []
         ∧ error resp = Some {| code := "RETRIEVAL_FAILED"; message := exn_msg x |}
         ∧ resp = failure_response q x (clock (ext w1))
         ∧ ∃ t, trace w1 = trace w0 ++ ObsLog (RetrievalFailed x) :: t
                ∧ deliveries t
                  = (if enable_events self
                     then imap (λ j _, (j, error_event (name self) q x (clock (ext w0))))
                               (event_handlers self)
                     else [])).
Proof.
  unfold search. rewrite bind_now.
  destruct (search_try_spec self q (default ∅ context) (clock (ext w)) w)
    as (r & w0 & last & Htry & _ & _ & Hout).
  rewrite Htry. destruct r as [r|x].
  - rewrite (try_ok _ _ _ _ _ Htry). exists r, w0. split; [done|].
    split; [by intros ? ? [= <- <-] | by intros ? ? [=]].
  - rewrite (try_raise _ _ _ _ _ Htry).
    destruct (search_except_spec self q x w0) as (w1 & t & -> & Ht & _ & Hd).
    eexists _, w1. split; [reflexivity|]. split; [by intros ? ? [=]|].
    intros ? ? [= <- <-]. split.
    { exists last. unfold try_outcome in Hout.
      destruct (_post_process_results last _) as [out|x'].
      - by destruct Hout.
      - by injection Hout as ->. }
    repeat split. by exists t.
Qed.

(** *** Listeners that raise *)

Lemma sim_ret {A} (a : A) : sim (E:=E) (ret a) (ret a).
Proof. by intros w w' Hw. Qed.

Lemma sim_lift {A} (r : result A) : sim (E:=E) (lift r) (lift r).
Proof. by intros w w' Hw. Qed.

Lemma sim_observe (o o' : Obs) : sim (E:=E) (observe o) (observe o').
Proof. by intros w w' Hw. Qed.

Lemma sim_now : sim (now clock) (now clock).
Proof. intros w w' Hw. unfold now. simpl. by rewrite Hw. Qed.

Lemma sim_call {A} (f : E → result A * E) : sim (call f) (call f).
Proof. intros w w' Hw. unfold call. rewrite Hw. by destruct (f (ext w')). Qed.

Lemma sim_bind {A B} (m m' : M E A) (k k' : A → M E B) :
  sim m m' → (∀ a, sim (k a) (k' a)) → sim (bind m k) (bind m' k').
Proof.
  intros Hm Hk w w' Hw. unfold bind. destruct (Hm w w' Hw) as [Hr He].
  destruct (m w) as [[a|x] w1], (m' w') as [[a'|x'] w1']; simpl in *;
    try discriminate Hr.
  - injection Hr as <-. by apply Hk.
  - injection Hr as <-. by split.
Qed.

Lemma sim_try {A} (m m' : M E A) (h h' : exn → M E A) :
  sim m m' → (∀ x, sim (h x) (h' x)) → sim (try_except m h) (try_except m' h').
Proof.
  intros Hm Hh w w' Hw. unfold try_except. destruct (Hm w w' Hw) as [Hr He].
  destruct (m w) as [[a|x] w1], (m' w') as [[a'|x'] w1']; simpl in *;
    try discriminate Hr.
  - by split.
  - injection Hr as <-. by apply Hh.
Qed.

Lemma sim_emit (a b : RetrieverAgent E) (event_type : string) (d : EventData) :
  agents_alike a b →
  sim (emit_if_enabled clock a event_type d) (emit_if_enabled clock b event_type d).
Proof.
  intros (Hname & Henabled & _ & Hlisteners) w w' Hw.
  unfold emit_if_enabled. rewrite <- Henabled.
  destruct (enable_events a); [|done].
  destruct (emit_event_spec clock a event_type d w) as (t & -> & _).
  destruct (emit_event_spec clock b event_type d w') as (t' & -> & _).
  simpl. split; [done|]. by rewrite Hname, Hw, Hlisteners.
Qed.

Ltac sim_step :=
  first [ apply sim_ret | apply sim_lift | apply sim_observe | apply sim_now
        | apply sim_call | by apply sim_emit
        | apply sim_bind; [|intros ?] | apply sim_try; [|intros ?]
        | match goal with |- sim (match ?x with _ => _ end) _ => destruct x end ].

Lemma sim_zilliz (t : RetrieverTools E) (q : pystr) (f : pyval) (p : pydict) :
  sim (zilliz_search t q f p) (zilliz_search t q f p).
Proof. unfold zilliz_search. destruct (zilliz_client t); repeat sim_step. Qed.

Lemma sim_opensearch (t : RetrieverTools E) (q : pystr) (f : pyval) (p : pydict) :
  sim (opensearch_search t q f p) (opensearch_search t q f p).
Proof.
  unfold opensearch_search. destruct (opensearch_client t); repeat sim_step.
Qed.

Lemma sim_web (t : RetrieverTools E) (q : pystr) (p : pydict) :
  sim (web_search t q p) (web_search t q p).
Proof. unfold web_search. repeat sim_step. Qed.

Lemma sim_execute (a b : RetrieverAgent E) (strategy : RetrievalStrategy) :
  agents_alike a b →
  sim (_execute_search_strategy clock a strategy)
      (_execute_search_strategy clock b strategy).
Proof.
  intros Hab. pose proof Hab as (_ & _ & Htools & _).
  unfold _execute_search_strategy. rewrite <- Htools.
  repeat first [ apply sim_zilliz | apply sim_opensearch | apply sim_web | sim_step ].
Qed.

Lemma sim_search (a b : RetrieverAgent E) (q : pystr) (context : option pydict)
    (session_id user_id : option pystr) :
  agents_alike a b →
  sim (search clock cm a q context session_id user_id)
      (search clock cm b q context session_id user_id).
Proof.
  intros Hab. unfold search, search_try, search_except.
  repeat first [ by apply sim_execute | sim_step ].
Qed.

Lemma run_handlers_app (ev : Event) (e : E) (hs hs' : list (Handler E)) :
  run_handlers ev e (hs ++ hs') = run_handlers ev (run_handlers ev e hs) hs'.
Proof. revert e. induction hs as [|h hs IH]; intros e; simpl; [done | apply IH]. Qed.

Lemma alike_without_raiser (x : exn) (pre post : list (Handler E)) :
  listeners_alike (pre ++ always_raises x :: post) (pre ++ post).
Proof. intros ev e. by rewrite !run_handlers_app. Qed.

Lemma alike_raising (x : exn) (hs : list (Handler E)) :
  listeners_alike (raising x <$> hs) hs.
Proof.
  intros ev e. revert e. induction hs as [|h hs IH]; intros e; simpl; [done | apply IH].
Qed.

(** C9. [_emit_event] never raises; it awaits every registered handler,
    once, in registration order, each on the state that the handlers before
    it left, whether or not these raised; each handler that raises leaves
    one line in the log.  A call of [search] with listeners that raise
    returns the response, and leaves the outside state, of the call with
    listeners that do the same without raising; so does a call with one
    more listener that raises on every event and touches nothing. *)
Theorem listeners_isolated (self : RetrieverAgent E) (event_type : string)
    (d : EventData) w :
  (let ev := {| event := event_type; agent_name := name self;
                timestamp := clock (ext w); data := d |} in
   ∃ w1 t, _emit_event clock self event_type d w = (Ok (), w1)
           ∧ trace w1 = trace w ++ t
           ∧ deliveries t = imap (λ i _, (i, ev)) (event_handlers self)
           ∧ log_lines t = handler_failures ev (ext w) (event_handlers self)
           ∧ ext w1 = run_handlers ev (ext w) (event_handlers self))
  ∧ (∀ other q context session_id user_id,
       agents_alike self other →
       (search clock cm self q context session_id user_id w).1
       = (search clock cm other q context session_id user_id w).1
       ∧ ext (search clock cm self q context session_id user_id w).2
         = ext (search clock cm other q context session_id user_id w).2)
  ∧ (∀ x, agents_alike (with_listeners self (raising x <$> event_handlers self)) self)
  ∧ (∀ x pre post, event_handlers self = pre ++ post →
       agents_alike (with_listeners self (pre ++ always_raises x :: post)) self).
Proof.
  split; [|split; [|split]].
  - intros ev.
    destruct (emit_event_spec clock self event_type d w) as (t & Ht & Hd & Hl & _).
    eexists _, t. split; [exact Ht|]. by repeat split.
  - intros other q context session_id user_id Hab. by apply sim_search.
  - intros x. repeat split. apply alike_raising.
  - intros x pre post Hhs. repeat split. cbn [with_listeners event_handlers].
    rewrite Hhs. apply alike_without_raiser.
Qed.
End Orchestrator.

(** * Further properties of the code *)

(** ** The parameter builder *)

Lemma build_search_parameters_lookup (q : pystr) (context : pydict) (s : SearchStrategy) :
  _build_search_parameters q context s !! "limit"
  = Some (default (PyInt 10) (context !! "limit"))
  ∧ _build_search_parameters q context s !! "search_fields"
    = match s with
      | VECTOR => Some (PyList [PyStr (utf8 "content"); PyStr (utf8 "summary")])
      | KEYWORD =>
          Some (PyList [PyStr (utf8 "title"); PyStr (utf8 "content"); PyStr (utf8 "keywords")])
      | _ => None
      end.
Proof. unfold _build_search_parameters. split; destruct s; by simplify_map_eq. Qed.

(** ** The filter builders *)

Lemma py_in_dict (key : string) (d : pydict) :
  py_in key (PyDict d) = Ok (bool_decide (is_Some (d !! key))).
Proof. done. Qed.

Lemma zilliz_filter_form (d : pydict) :
  _build_zilliz_filter (PyDict d)
  = Ok (match d !! "ws_id" with Some v => [WsIdEquals v] | None => [] end
        ++ match d !! "time_range" with
           | Some (PyStr s) => if bool_decide (s = utf8 "recent") then [CreatedInLast7Days] else []
           | _ => []
           end).
Proof.
  unfold _build_zilliz_filter. rewrite !py_in_dict. cbn [result_bind py_getitem].
  destruct (d !! "ws_id") as [v|], (d !! "time_range") as [[]|]; cbn;
    rewrite ?app_nil_r; try done; by case_bool_decide.
Qed.

Lemma opensearch_filter_form (d : pydict) :
  _build_opensearch_filter (PyDict d)
  = Ok (match d !! "ws_id" with Some v => [("ws_id", v)] | None => [] end
        ++ match d !! "doc_type" with Some v => [("doc_type", v)] | None => [] end).
Proof.
  unfold _build_opensearch_filter. rewrite !py_in_dict. cbn [result_bind py_getitem].
  destruct (d !! "ws_id") as [v|], (d !! "doc_type") as [v'|]; cbn; done.
Qed.

(** X1. Which filters reach which backend.  On a dictionary neither filter
    builder raises.  The vector-store filter holds the workspace clause
    exactly when [ws_id] is set and the seven-days clause exactly when
    [time_range] is ["recent"]; the keyword-index filter holds a term clause
    for [ws_id] and one for [doc_type], each exactly when the key is set.
    Every other key is ignored: [doc_type] never narrows a vector search and
    [time_range] never narrows a keyword search. *)
Theorem filter_builders_of_dict (d : pydict) :
  _build_zilliz_filter (PyDict d)
  = Ok (match d !! "ws_id" with Some v => [WsIdEquals v] | None => [] end
        ++ match d !! "time_range" with
           | Some (PyStr s) => if bool_decide (s = utf8 "recent") then [CreatedInLast7Days] else []
           | _ => []
           end)
  ∧ _build_opensearch_filter (PyDict d)
    = Ok (match d !! "ws_id" with Some v => [("ws_id", v)] | None => [] end
          ++ match d !! "doc_type" with Some v => [("doc_type", v)] | None => [] end)
  ∧ (∀ k v, k ≠ "ws_id" → k ≠ "time_range" →
       _build_zilliz_filter (PyDict (<[k := v]> d)) = _build_zilliz_filter (PyDict d))
  ∧ (∀ k v, k ≠ "ws_id" → k ≠ "doc_type" →
       _build_opensearch_filter (PyDict (<[k := v]> d))
       = _build_opensearch_filter (PyDict d)).
Proof.
  split; [apply zilliz_filter_form|]. split; [apply opensearch_filter_form|]. split.
  - intros k v Hws Hrange. by rewrite !zilliz_filter_form, !lookup_insert_ne.
  - intros k v Hws Htype. by rewrite !opensearch_filter_form, !lookup_insert_ne.
Qed.

(** X2. When [filters] is no container ([None] or a number), the vector and
    the keyword dispatcher return the empty list without calling their
    backend, configured or not: the filter cannot be built and the
    [TypeError] is absorbed. *)
Theorem dispatch_with_unusable_filters {E} (self : RetrieverTools E) (q : pystr)
    (filters : pyval) (parameters : pydict) (w : World E) :
  not_iterable filters →
  (∃ w1, zilliz_search self q filters parameters w = (Ok [], w1) ∧ ext w1 = ext w)
  ∧ (∃ w1, opensearch_search self q filters parameters w = (Ok [], w1) ∧ ext w1 = ext w).
Proof.
  intros Hfilters. split.
  - destruct (zilliz_search_spec self q filters parameters w)
      as (rs & e & t & -> & _ & _ & Hrs).
    assert (rs = [] ∧ e = ext w) as [-> ->].
    { destruct (zilliz_client self); [|done]. by destruct filters. }
    by eexists.
  - destruct (opensearch_search_spec self q filters parameters w)
      as (rs & e & t & -> & _ & _ & Hrs).
    assert (rs = [] ∧ e = ext w) as [-> ->].
    { destruct (opensearch_client self); [|done]. by destruct filters. }
    by eexists.
Qed.

(** ** The keyword dispatcher *)

Lemma format_opensearch_hits_complete (hits : list OpenSearchHit) :
  Forall complete_hit hits →
  ∃ rs, format_opensearch_hits hits = Ok rs ∧ length rs = length hits.
Proof.
  induction 1 as [|hit hits ([src Hsrc] & [sc Hsc] & [id Hid]) _ (rs & IH & Hlen)].
  - by exists [].
  - cbn [format_opensearch_hits]. unfold format_opensearch at 1.
    rewrite Hsrc, Hsc, Hid, IH. cbn [result_bind].
    eexists. split; [done|]. simpl. by rewrite Hlen.
Qed.

Lemma format_opensearch_hits_incomplete (hits : list OpenSearchHit) :
  Exists (λ hit, ¬ complete_hit hit) hits →
  ∃ x, format_opensearch_hits hits = Raise x ∧ exn_type x = "KeyError".
Proof.
  induction 1 as [hit hits Hhit|hit hits _ (x & IH & Hx)]; cbn [format_opensearch_hits].
  - unfold complete_hit in Hhit. unfold format_opensearch at 1.
    destruct (hit_source hit), (hit_score hit), (hit_id hit); cbn;
      try (by eexists); exfalso; apply Hhit; by repeat split.
  - destruct (format_opensearch hit) as [r|y] eqn:Hr; cbn.
    + rewrite IH. by exists x.
    + exists y. split; [done|]. unfold format_opensearch in Hr.
      destruct (hit_source hit), (hit_score hit), (hit_id hit);
        try discriminate Hr; by injection Hr as <-.
Qed.

(** X3. The keyword dispatcher formats all hits or none.  With a usable
    filter and a client that answers with [hits]: when every hit has
    [_source], [_score] and [_id] the dispatcher returns one result per hit,
    in order; when one hit lacks one of them the [KeyError] discards the
    other hits as well and the dispatcher returns the empty list. *)
Theorem opensearch_all_or_nothing {E} (self : RetrieverTools E) (q : pystr) (d : pydict)
    (parameters : pydict) (w : World E) (client : @OpenSearchClient E)
    (hits : list OpenSearchHit) :
  opensearch_client self = Some client →
  (∀ request, (client request (ext w)).1 = Ok (Some hits)) →
  ∃ rs w1, opensearch_search self q (PyDict d) parameters w = (Ok rs, w1)
    ∧ (Forall complete_hit hits →
       format_opensearch_hits hits = Ok rs ∧ length rs = length hits)
    ∧ (Exists (λ hit, ¬ complete_hit hit) hits → rs = []).
Proof.
  intros Hclient Hanswer.
  destruct (opensearch_search_spec self q (PyDict d) parameters w)
    as (rs & e & t & Hrun & _ & _ & Hrs).
  rewrite Hclient, opensearch_filter_form, Hanswer in Hrs. destruct Hrs as [-> _].
  eexists _, _. split; [exact Hrun|]. cbn [opensearch_results]. split.
  - intros (rs & Hrs & Hlen)%format_opensearch_hits_complete. by rewrite Hrs.
  - intros (x & Hx & _)%format_opensearch_hits_incomplete. by rewrite Hx.
Qed.

(** ** The web dispatcher *)

Lemma rank_score_lt (j k : nat) : (j < k)%nat → (rank_score k < rank_score j)%Q.
Proof.
  intros Hjk. unfold rank_score.
  assert (inject_Z (Z.of_nat j) < inject_Z (Z.of_nat k))%Q by (rewrite <- Zlt_Qlt; lia).
  lra.
Qed.

Lemma format_web_ranks (idx : nat) (items : list WebItem) :
  Forall (λ r, ∃ j, (idx ≤ j < idx + length items)%nat ∧ score r = Some (rank_score j))
         (format_web idx items).
Proof.
  revert idx. induction items as [|item items IH]; intros idx; [constructor|].
  assert (Hrest : Forall (λ r, ∃ j, (idx ≤ j < idx + length (item :: items))%nat
                                   ∧ score r = Some (rank_score j))
                         (format_web (S idx) items)).
  { eapply Forall_impl; [apply IH|]. intros r (j & Hj & Hr). exists j. simpl. split; [lia|done]. }
  destruct item; cbn [format_web]; [| |done];
    (constructor; [exists idx; simpl; split; [lia|done] | done]).
Qed.

Lemma format_web_descending (idx : nat) (items : list WebItem) :
  StronglySorted score_gt (format_web idx items).
Proof.
  revert idx. induction items as [|item items IH]; intros idx; [constructor|].
  assert (Hhead : ∀ r, score r = Some (rank_score idx) →
            Forall (score_gt r) (format_web (S idx) items)).
  { intros r Hr. eapply Forall_impl; [apply format_web_ranks|].
    intros r' (j & Hj & Hr'). unfold score_gt, score_of. rewrite Hr, Hr'. simpl.
    apply rank_score_lt. lia. }
  destruct item; cbn [format_web]; [| |apply IH];
    (apply StronglySorted_cons; split; [by apply Hhead | apply IH]).
Qed.

Lemma format_web_items (idx : nat) (items : list WebItem) :
  Forall (λ r, ∃ j item, items !! j = Some item ∧ text_of item = content r
                         ∧ score r = Some (rank_score (idx + j)))
         (format_web idx items).
Proof.
  revert idx. induction items as [|item items IH]; intros idx; [constructor|].
  assert (Hrest : Forall (λ r, ∃ j it, (item :: items) !! j = Some it ∧ text_of it = content r
                                      ∧ score r = Some (rank_score (idx + j)))
                         (format_web (S idx) items)).
  { eapply Forall_impl; [apply IH|]. intros r (j & it & Hj & Htext & Hr).
    exists (S j), it. by rewrite Nat.add_succ_r. }
  destruct item as [d|s|]; cbn [format_web]; [| |done].
  - constructor; [|done]. exists 0%nat, (WebDict d). by rewrite Nat.add_0_r.
  - constructor; [|done]. exists 0%nat, (WebStr s). by rewrite Nat.add_0_r.
Qed.

Lemma format_web_count (idx : nat) (items : list WebItem) :
  length (format_web idx items) = length (filter (λ item, is_Some (text_of item)) items).
Proof.
  revert idx. induction items as [|item items IH]; intros idx; [done|].
  destruct item as [d|s|]; cbn [format_web].
  - rewrite filter_cons_True by (by eexists). simpl. by rewrite IH.
  - rewrite filter_cons_True by (by eexists). simpl. by rewrite IH.
  - rewrite filter_cons_False by (by intros [? ?]). apply IH.
Qed.

Lemma format_web_contents (idx : nat) (items : list WebItem) :
  content <$> format_web idx items = Some <$> omap text_of items.
Proof.
  revert idx. induction items as [|item items IH]; intros idx; [done|].
  destruct item as [d|s|]; cbn [format_web omap list_omap text_of fmap list_fmap content];
    fold (@omap list _ _ _ text_of items);
    fold (@fmap list _ _ _ content (format_web (S idx) items));
    by rewrite ?IH.
Qed.

Lemma rank_score_half (idx : nat) :
  Qle_bool (1 # 2) (rank_score idx) = true → (idx ≤ 5)%nat.
Proof.
  rewrite Qle_bool_iff. unfold rank_score. intros H.
  assert (inject_Z (Z.of_nat idx) <= inject_Z 5)%Q as Hle.
  { change (inject_Z 5) with 5%Q. lra. }
  rewrite <- Zle_Qle in Hle. lia.
Qed.

Lemma half_rank_score (idx : nat) :
  (idx ≤ 5)%nat → Qle_bool (1 # 2) (rank_score idx) = true.
Proof.
  intros Hidx. rewrite Qle_bool_iff. unfold rank_score.
  assert (inject_Z (Z.of_nat idx) <= inject_Z 5)%Q as Hle by (rewrite <- Zle_Qle; lia).
  change (inject_Z 5) with 5%Q in Hle. lra.
Qed.

(** X4. The web dispatcher scores by rank.  It always returns a list, in
    strictly descending score with no score above 1.  When the backend
    answers with a list, the results are made from its items in order: their
    contents are the texts of the items that are mappings or strings, one
    result for each; an item that is neither gives no result and still uses
    up its position, for the result made from the item at position [j]
    reaches the default threshold one half exactly when [j <= 5].  (No
    exact score is stated: the float of the code differs from the rational
    of the model by rounding, and the statement holds of both.) *)
Theorem web_search_scores {E} (self : RetrieverTools E) (q : pystr) (parameters : pydict)
    (w : World E) :
  ∃ rs w1, web_search self q parameters w = (Ok rs, w1)
    ∧ StronglySorted score_gt rs
    ∧ Forall (λ r, (score_of r <= 1)%Q) rs
    ∧ ∀ items,
        (web_search_tools self (web_request q parameters) (ext w)).1 = Ok (WebList items) →
        content <$> rs = Some <$> omap text_of items
        ∧ Forall (λ r, ∃ j item, items !! j = Some item ∧ text_of item = content r
                               ∧ (at_least_half r = true ↔ (j ≤ 5)%nat)) rs
        ∧ length rs = length (filter (λ item, is_Some (text_of item)) items).
Proof.
  destruct (web_search_spec self q parameters w) as (rs & e & t & Hrun & _ & _ & -> & _).
  eexists _, _. split; [exact Hrun|]. split; [|split].
  - destruct (web_search_tools _ _ _).1 as [[items|]|]; cbn [web_results];
      [apply format_web_descending | constructor..].
  - destruct (web_search_tools _ _ _).1 as [[items|]|]; cbn [web_results];
      [|constructor..].
    eapply Forall_impl; [apply (format_web_ranks 0)|]. intros r (j & _ & Hr).
    unfold score_of. rewrite Hr. simpl. unfold rank_score.
    assert (0 <= inject_Z (Z.of_nat j))%Q by (rewrite <- (Zle_Qle 0); lia). lra.
  - intros items ->. cbn [web_results].
    split; [apply format_web_contents|]. split; [|apply format_web_count].
    eapply Forall_impl; [apply (format_web_items 0)|].
    intros r (j & item & Hj & Htext & Hr). exists j, item.
    split; [done|]. split; [done|].
    unfold at_least_half, score_of. rewrite Hr. simpl. split.
    + apply rank_score_half.
    + apply half_rank_score.
Qed.

Lemma format_web_half (idx : nat) (items : list WebItem) :
  (length (List.filter at_least_half (format_web idx items)) ≤ 6 - idx)%nat.
Proof.
  revert idx. induction items as [|item items IH]; intros idx; [simpl; lia|].
  specialize (IH (S idx)).
  destruct item; cbn [format_web List.filter]; [| |lia];
    (destruct (at_least_half _) eqn:Hhalf; [|lia];
     apply rank_score_half in Hhalf; simpl; lia).
Qed.

Lemma insert_desc_filter_length (f : SearchResult → bool) (x : SearchResult)
    (l : list SearchResult) :
  length (List.filter f (insert_desc x l)) = length (List.filter f (x :: l)).
Proof.
  induction l as [|y l IH]; [done|]. cbn [insert_desc].
  destruct (Qltb _ _); [|done]. cbn [List.filter] in *.
  destruct (f x), (f y); simpl in *; lia.
Qed.

Lemma sort_desc_filter_length (f : SearchResult → bool) (l : list SearchResult) :
  length (List.filter f (sort_desc l)) = length (List.filter f l).
Proof.
  induction l as [|x l IH]; [done|]. cbn [sort_desc foldr].
  rewrite insert_desc_filter_length. cbn [List.filter]. fold (sort_desc l).
  destruct (f x); simpl; lia.
Qed.

Lemma before_truncation_length (f : SearchResult → bool) (rs : list SearchResult)
    (strategy : RetrievalStrategy) :
  (∀ r, passes (score_threshold_of strategy) r = f r) →
  (length (before_truncation rs strategy) ≤ length (List.filter f rs))%nat.
Proof.
  intros Hf. unfold before_truncation.
  rewrite (filter_ext _ f) by done.
  rewrite sort_desc_filter_length, dedup_loop_spec.
  apply sublist_length, filter_of_sublist, dedup_from_sublist.
Qed.

(** X5. Under the default threshold 0.5 the post-processor keeps at most
    six of the results of a web search, whatever the limit: only the items
    at the raw positions 0 to 5 have a score of at least one half. *)
Theorem web_results_capped {E} (self : RetrieverTools E) (q : pystr) (parameters : pydict)
    (w w1 : World E) (rs out : list SearchResult) (strategy : RetrievalStrategy) :
  web_search self q parameters w = (Ok rs, w1) →
  score_threshold_of strategy = PyFloat (1 # 2) →
  _post_process_results rs strategy = Ok out →
  (length out ≤ 6)%nat.
Proof.
  intros Hrun Hhalf Hout%post_process_unfold.
  destruct (web_search_spec self q parameters w) as (rs' & e & t & Hrun' & _ & _ & -> & _).
  rewrite Hrun in Hrun'. injection Hrun' as -> _.
  apply slice_to_prefix, prefix_length in Hout.
  etrans; [exact Hout|].
  etrans; [apply (before_truncation_length at_least_half)|].
  - intros r. by rewrite Hhalf.
  - destruct (web_search_tools _ _ _).1 as [[items|]|]; cbn [web_results];
      try (simpl; lia).
    etrans; [apply format_web_half | lia].
Qed.

(** ** The enum *)

(** X6. [SearchStrategy(value)] and [.value] are inverse to each other: the
    value of a member gives the member back, a string that gives a member
    is the value of that member, and every other string raises
    [ValueError]. *)
Theorem SearchStrategy_round_trip (v : string) :
  (∀ s, SearchStrategy_of (value s) = Ok s)
  ∧ (∀ s, SearchStrategy_of v = Ok s → v = value s)
  ∧ ((∀ s, v ≠ value s) → ∃ x, SearchStrategy_of v = Raise x ∧ exn_type x = "ValueError").
Proof.
  split; [apply SearchStrategy_of_value|]. unfold SearchStrategy_of. split.
  - intros s. repeat case_bool_decide; intros [= <-]; by subst.
  - intros Hv. repeat case_bool_decide; subst;
      first [ by eexists | by destruct (Hv VECTOR) | by destruct (Hv KEYWORD)
            | by destruct (Hv HYBRID) | by destruct (Hv WEB) | by destruct (Hv CRM) ].
Qed.

(** ** The post-processor *)

Lemma post_process_part (rs out : list SearchResult) (strategy : RetrievalStrategy) :
  _post_process_results rs strategy = Ok out → out ⊆+ rs.
Proof.
  intros Hout.
  apply post_process_unfold, slice_to_prefix, prefix_is_sublist in Hout.
  etrans; [by apply sublist_submseteq|].
  etrans; [apply sublist_submseteq, before_truncation_sublist|].
  rewrite sort_desc_perm, dedup_loop_spec. apply sublist_submseteq, dedup_from_sublist.
Qed.

(** X7. The post-processor only selects and reorders: what it returns is,
    counted with multiplicity, part of the input, so it is no longer than
    the input; and of the strategy record it reads the threshold and the
    limit only. *)
Theorem post_process_selects (rs out : list SearchResult) (strategy : RetrievalStrategy) :
  _post_process_results rs strategy = Ok out →
  out ⊆+ rs
  ∧ (length out ≤ length rs)%nat
  ∧ ∀ other, score_threshold_of other = score_threshold_of strategy →
             limit_of other = limit_of strategy →
             _post_process_results rs other = Ok out.
Proof.
  intros Hout. pose proof (post_process_part _ _ _ Hout) as Hpart.
  split; [done|]. split; [by apply submseteq_length|].
  intros other Ht Hl. revert Hout. unfold _post_process_results.
  fold (score_threshold_of strategy) (limit_of strategy)
       (score_threshold_of other) (limit_of other).
  by rewrite Ht, Hl.
Qed.

Lemma filter_ge_raises (t : pyval) (l : list SearchResult) :
  threshold_number t = None → l ≠ [] →
  ∃ x, filter_ge t l = Raise x ∧ exn_type x = "TypeError".
Proof.
  intros Ht Hl. destruct l as [|r l]; [done|]. cbn [filter_ge].
  destruct t; try discriminate Ht; cbn; by eexists.
Qed.

Lemma sort_desc_nil (l : list SearchResult) : sort_desc l = [] → l = [].
Proof.
  intros H. apply Permutation_nil_r. rewrite <- H. symmetry. apply sort_desc_perm.
Qed.

(** X8. Parameters of the wrong type.  A limit that is neither an integer
    nor [None] makes the post-processor raise [TypeError] on every input,
    the empty one included.  A threshold that is no number makes it raise
    [TypeError] exactly when the input holds a result; on the empty input
    it goes unnoticed. *)
Theorem post_process_type_errors (rs : list SearchResult) (strategy : RetrievalStrategy) :
  (is_Some (threshold_number (score_threshold_of strategy)) →
   limit_of strategy ≠ PyNone → (∀ z, limit_of strategy ≠ PyInt z) →
   ∃ x, _post_process_results rs strategy = Raise x ∧ exn_type x = "TypeError")
  ∧ (threshold_number (score_threshold_of strategy) = None → rs ≠ [] →
     ∃ x, _post_process_results rs strategy = Raise x ∧ exn_type x = "TypeError")
  ∧ (threshold_number (score_threshold_of strategy) = None →
     cuts_from_front (limit_of strategy) →
     _post_process_results [] strategy = Ok []).
Proof.
  unfold _post_process_results.
  fold (score_threshold_of strategy) (limit_of strategy). split; [|split].
  - intros [t Ht] Hnone Hint. rewrite (filter_ge_number _ _ _ Ht). cbn [result_bind].
    destruct (limit_of strategy); cbn;
      [done | by destruct (Hint z) | by eexists..].
  - intros Ht Hrs.
    destruct (filter_ge_raises (score_threshold_of strategy) (sort_desc (dedup_loop rs).2) Ht)
      as (x & -> & Hx); [|by exists x].
    intros Hnil%sort_desc_nil. rewrite dedup_loop_spec in Hnil.
    destruct rs as [|r rs]; [done|]. cbn [dedup_from] in Hnil.
    rewrite bool_decide_true in Hnil by apply not_elem_of_empty. done.
  - intros _ Hlimit. cbn. destruct (limit_of strategy); try done. cbn.
    destruct (0 <=? z)%Z; by rewrite take_nil.
Qed.

(** ** The rewriter *)

Lemma split_go_token (cur t : pystr) :
  Forall (λ c, isspace c = false) t → cur ++ t ≠ [] → split_go cur t = [cur ++ t].
Proof.
  intros Ht. revert cur. induction Ht as [|c t Hc _ IH]; intros cur Hne.
  - rewrite app_nil_r in *. simpl. by destruct cur.
  - cbn [split_go]. rewrite Hc, IH, <- app_assoc; [done|]. by destruct cur.
Qed.

Lemma split_go_snoc_token (cur s t : pystr) :
  token t → split_go cur (s ++ 32 :: t) = split_go cur s ++ [t].
Proof.
  intros [Hne Ht]. revert cur. induction s as [|c s IH]; intros cur.
  - cbn [app split_go]. change (isspace 32) with true. cbn.
    rewrite (split_go_token [] t) by done. by destruct cur.
  - cbn [app split_go]. destruct (isspace c); [|apply IH].
    destruct cur; by rewrite IH.
Qed.

Lemma elaboration_suffix_token :
  elaboration_suffix = 32 :: drop 1 elaboration_suffix ∧ token (drop 1 elaboration_suffix).
Proof.
  split; [by vm_compute|]. split; [by vm_compute|].
  vm_compute. repeat constructor.
Qed.

(** X9. The rewritten query is never empty or blank: it has at least one
    token.  Rewriting adds exactly one token, so a query of no or one token
    is still shorter than three tokens after it. *)
Theorem rewrite_adds_one_token (q : pystr) (context : pydict) :
  _rewrite_query_if_needed q context ≠ []
  ∧ (1 ≤ length (split (_rewrite_query_if_needed q context)))%nat
  ∧ ((length (split q) < 3)%nat →
     split (_rewrite_query_if_needed q context) = split q ++ [drop 1 elaboration_suffix]
     ∧ length (split (_rewrite_query_if_needed q context)) = S (length (split q))).
Proof.
  destruct elaboration_suffix_token as [Hsuffix Htoken].
  unfold _rewrite_query_if_needed.
  remember (drop 1 elaboration_suffix) as tail eqn:Htail. clear Htail.
  rewrite Hsuffix. clear Hsuffix.
  assert (Hshort : split (q ++ 32 :: tail) = split q ++ [tail])
    by exact (split_go_snoc_token [] q tail Htoken).
  destruct (length (split q) <? 3)%nat eqn:Hlen.
  - rewrite Hshort, length_app. cbn [length]. split; [by destruct q|].
    split; [lia|]. intros _. split; [done|lia].
  - apply Nat.ltb_ge in Hlen. split; [|split; lia].
    intros ->. cbn in Hlen. lia.
Qed.

(** ** Rewriting and selection *)

Lemma lower_go_app cm (before s after : pystr) :
  lower_go cm before (s ++ after)
  = lower_before cm before s after ++ lower_go cm (before ++ s) after.
Proof.
  revert before. induction s as [|c s IH]; intros before; cbn.
  - by rewrite app_nil_r.
  - by rewrite IH, <- !app_assoc.
Qed.

Lemma lower_before_nil cm (before s : pystr) :
  lower_before cm before s [] = lower_go cm before s.
Proof.
  revert before. induction s as [|c s IH]; intros before; cbn; [done|].
  by rewrite IH, app_nil_r.
Qed.

Lemma lower_before_alike cm (before s after after' : pystr) :
  Forall2 sigma_alike (lower_before cm before s after) (lower_before cm before s after').
Proof.
  revert before. induction s as [|c s IH]; intros before; cbn; [constructor|].
  apply Forall2_app; [|apply IH].
  destruct (c =? 931).
  - constructor; [|constructor]. right.
    destruct (final_sigma cm before _), (final_sigma cm before _); split; auto.
  - apply Forall2_same_length_lookup. split; [done|].
    intros j x y Hx Hy. left. congruence.
Qed.

Lemma occurs_alike (kw l l' : pystr) :
  Forall (λ c, c ≠ 962 ∧ c ≠ 963) kw → Forall2 sigma_alike l l' →
  occurs_in kw l → occurs_in kw l'.
Proof.
  intros Hkw Hall (pre & post & ->).
  apply Forall2_app_inv_l in Hall as (pre' & rest & _ & Hrest & ->).
  apply Forall2_app_inv_l in Hrest as (kw' & post' & Hsame & _ & ->).
  assert (kw' = kw) as ->; [|by exists pre', post'].
  clear -Hkw Hsame. induction Hsame as [|c c' kw kw' Hc _ IH]; [done|].
  apply Forall_cons in Hkw as [[H1 H2] Hkw].
  rewrite IH by done. f_equal.
  destruct Hc as [->|[[->| ->] _]]; done.
Qed.

Lemma sigma_alike_sym (l l' : pystr) :
  Forall2 sigma_alike l l' → Forall2 sigma_alike l' l.
Proof.
  intros H. apply Forall2_flip. eapply Forall2_impl; [exact H|].
  intros a b [->|[Ha Hb]]; [by left | by right].
Qed.

Lemma prefix_before_separator (kw post text tail : pystr) (sep : N) :
  sep ∉ kw → kw ++ post = text ++ sep :: tail → ∃ rest, text = kw ++ rest.
Proof.
  revert text. induction kw as [|k kw IH]; intros text Hsep Heq; [by exists text|].
  apply not_elem_of_cons in Hsep as [Hk Hsep].
  destruct text as [|c text]; injection Heq as -> Heq; [done|].
  destruct (IH text Hsep Heq) as [rest ->]. by exists rest.
Qed.

Lemma occurs_before_separator (kw text tail : pystr) (sep : N) :
  sep ∉ kw → ¬ occurs_in kw tail →
  occurs_in kw (text ++ sep :: tail) → occurs_in kw text.
Proof.
  intros Hsep Htail (pre & post & Heq). revert pre Heq.
  induction text as [|c text IH]; intros pre Heq.
  - destruct pre as [|p pre].
    + symmetry in Heq. apply (prefix_before_separator _ _ [] _ _ Hsep) in Heq as [rest Hrest].
      exists [], rest. done.
    + injection Heq as _ ->. destruct Htail. by exists pre, post.
  - destruct pre as [|p pre].
    + symmetry in Heq.
      apply (prefix_before_separator _ _ (c :: text) _ _ Hsep) in Heq as [rest ->].
      by exists [], rest.
    + injection Heq as <- Heq. destruct (IH pre Heq) as (pre' & post' & ->).
      by exists (c :: pre'), post'.
Qed.

Lemma apart_from_suffix_spec (kw : pystr) :
  apart_from_suffix kw = true →
  (32 ∉ kw) ∧ Forall (λ c, c ≠ 962 ∧ c ≠ 963) kw
  ∧ ¬ occurs_in kw (drop 1 elaboration_suffix).
Proof.
  unfold apart_from_suffix. rewrite andb_true_iff, negb_true_iff, contains_false.
  intros [Hall Hsuffix]. split; [|split; [|done]].
  - intros Hin%list_elem_of_In. rewrite forallb_forall in Hall.
    specialize (Hall _ Hin). by rewrite N.eqb_refl in Hall.
  - apply Forall_forall. intros c Hc%list_elem_of_In. rewrite forallb_forall in Hall.
    specialize (Hall _ Hc). rewrite !andb_true_iff, !negb_true_iff, !N.eqb_neq in Hall.
    tauto.
Qed.

Lemma marks_apart_from_suffix :
  Forall (λ kw, apart_from_suffix kw = true)
         (document_marker :: double_quote :: backtick :: recency_keywords).
Proof. repeat constructor; by vm_compute. Qed.

Lemma contains_with_tail (kw q tail : pystr) :
  32 ∉ kw → ¬ occurs_in kw tail →
  contains kw (q ++ 32 :: tail) = contains kw q.
Proof.
  intros Hblank Htail. apply eq_true_iff_eq. rewrite !contains_spec. split.
  - exact (occurs_before_separator kw q tail 32 Hblank Htail).
  - intros (pre & post & ->). exists pre, (post ++ 32 :: tail).
    rewrite <- !app_assoc. reflexivity.
Qed.

Lemma contains_lower_with_tail cm (kw q suffix tail : pystr) :
  suffix = 32 :: tail → fixed_by cm suffix →
  32 ∉ kw → Forall (λ c, c ≠ 962 ∧ c ≠ 963) kw → ¬ occurs_in kw tail →
  contains kw (lower cm (q ++ suffix)) = contains kw (lower cm q).
Proof.
  intros Hcons Hfixed Hblank Hsigma Htail.
  assert (Hlower : lower cm (q ++ suffix) = lower_before cm [] q suffix ++ suffix).
  { unfold lower. rewrite lower_go_app. f_equal.
    rewrite <- (app_nil_r suffix) at 1.
    rewrite (lower_go_fixed cm suffix _ [] Hfixed). apply app_nil_r. }
  assert (Halike : Forall2 sigma_alike (lower_before cm [] q suffix) (lower cm q)).
  { unfold lower. rewrite <- lower_before_nil. apply lower_before_alike. }
  apply eq_true_iff_eq. rewrite !contains_spec, Hlower. split.
  - intros Hocc. apply (occurs_alike _ _ _ Hsigma Halike).
    rewrite Hcons in Hocc at 2.
    exact (occurs_before_separator kw _ tail 32 Hblank Htail Hocc).
  - intros Hocc. apply (occurs_alike _ _ _ Hsigma (sigma_alike_sym _ _ Halike)) in Hocc.
    destruct Hocc as (pre & post & ->). exists pre, (post ++ suffix).
    rewrite <- !app_assoc. reflexivity.
Qed.

(** X10. Rewriting does not change the selection: the strategy selected on
    the rewritten query is the strategy that the selector gives for the
    original query, since the suffix brings no keyword, marker or quote and
    none can form across the blank that precedes it.  (The case mapping is
    taken to leave the code points of the suffix as they are, as Unicode's
    does.) *)
Theorem rewrite_keeps_selection cm (q : pystr) (context : pydict) :
  fixed_by cm elaboration_suffix →
  _select_search_strategy cm (_rewrite_query_if_needed q context) context
  = _select_search_strategy cm q context
  ∧ sd_strategy_type (think_retrieval_strategy cm q context)
    = value (_select_search_strategy cm q context).
Proof.
  intros Hfixed.
  assert (Hsame : _select_search_strategy cm (_rewrite_query_if_needed q context) context
                  = _select_search_strategy cm q context).
  { unfold _rewrite_query_if_needed. destruct (_ <? _)%nat; [|reflexivity].
    pose proof marks_apart_from_suffix as Hmarks.
    rewrite Forall_forall in Hmarks.
    assert (Hmark : ∀ kw, kw ∈ document_marker :: double_quote :: backtick :: recency_keywords →
              (32 ∉ kw) ∧ Forall (λ c, c ≠ 962 ∧ c ≠ 963) kw
              ∧ ¬ occurs_in kw (drop 1 elaboration_suffix)).
    { intros kw Hkw. apply apart_from_suffix_spec, Hmarks, Hkw. }
    clear Hmarks. destruct elaboration_suffix_token as [Hcons _].
    revert Hmark Hcons. generalize (drop 1 elaboration_suffix). intros tail Hmark Hcons.
    unfold _select_search_strategy.
    assert (Hraw : ∀ kw, kw ∈ [document_marker; double_quote; backtick] →
              contains kw (q ++ elaboration_suffix) = contains kw q).
    { intros kw Hkw. destruct (Hmark kw) as (Hblank & _ & Htail).
      - rewrite !elem_of_cons, elem_of_nil in Hkw. rewrite !elem_of_cons. tauto.
      - rewrite Hcons. exact (contains_with_tail kw q tail Hblank Htail). }
    rewrite (Hraw document_marker), (Hraw double_quote), (Hraw backtick)
      by (rewrite !elem_of_cons; tauto).
    assert (existsb (λ keyword, contains keyword (lower cm (q ++ elaboration_suffix)))
              recency_keywords
            = existsb (λ keyword, contains keyword (lower cm q)) recency_keywords) as ->;
      [|reflexivity].
    assert (Hkeyword : ∀ kw, kw ∈ recency_keywords →
              contains kw (lower cm (q ++ elaboration_suffix)) = contains kw (lower cm q)).
    { intros kw Hkw. destruct (Hmark kw) as (Hblank & Hsigma & Htail).
      - rewrite !elem_of_cons. tauto.
      - exact (contains_lower_with_tail cm kw q _ tail Hcons Hfixed Hblank Hsigma Htail). }
    clear Hmark Hraw. induction recency_keywords as [|kw kws IH]; [reflexivity|].
    cbn [existsb]. rewrite IH, Hkeyword.
    + reflexivity.
    + apply elem_of_cons. by left.
    + intros kw' Hkw'. apply Hkeyword, elem_of_cons. by right. }
  split; [exact Hsame|]. cbn [think_retrieval_strategy sd_strategy_type]. by rewrite Hsame.
Qed.

(** ** The course of a call *)

Section Course.
Context {E : Type} (clock : E → Z) (cm : CaseMapping) (i : nat).
Implicit Types w : World E.

Lemma tags_to_app (t u : list Obs) : tags_to i (t ++ u) = tags_to i t ++ tags_to i u.
Proof. apply omap_app. Qed.

Lemma tags_to_deliveries (t : list Obs) :
  tags_to i t
  = omap (λ '(j, ev), if bool_decide (j = i) then Some (event ev) else None) (deliveries t).
Proof.
  induction t as [|[l|s rs|j ev] t IH]; [done| | |]; cbn; try done.
  fold (tags_to i t) (deliveries t). rewrite IH. by case_bool_decide.
Qed.

Lemma tags_of_round (ev : Event) (k : nat) (hs : list (Handler E)) :
  omap (λ '(j, ev), if bool_decide (j = i) then Some (event ev) else None)
       (imap (λ j _, ((k + j)%nat, ev)) hs)
  = if bool_decide (k ≤ i < k + length hs)%nat then [event ev] else [].
Proof.
  revert k. induction hs as [|h hs IH]; intros k.
  - cbn. case_bool_decide; [lia|done].
  - rewrite imap_cons.
    rewrite (imap_ext _ (λ j _, ((S k + j)%nat, ev))) by (intros; cbn; f_equal; lia).
    cbn [omap list_omap]. fold (@omap list _ (nat * Event) string).
    rewrite IH, Nat.add_0_r. cbn [length].
    repeat case_bool_decide; try done; lia.
Qed.

Lemma continues_refl w : continues i w w [] [].
Proof. exists []. by rewrite app_nil_r. Qed.

Lemma continues_trans w w1 w2 tags tags' ds ds' :
  continues i w w1 tags ds → continues i w1 w2 tags' ds' →
  continues i w w2 (tags ++ tags') (ds ++ ds').
Proof.
  intros (t & Ht & <- & <-) (t' & Ht' & <- & <-). exists (t ++ t').
  by rewrite Ht', Ht, app_assoc, tags_to_app, dispatches_app.
Qed.

Lemma continues_logged w (l : LogLine) : continues i w (logged w l) [] [].
Proof. by exists [ObsLog l]. Qed.

Lemma emit_if_enabled_course (self : RetrieverAgent E) (event_type : string)
    (d : EventData) w :
  ∃ w1, emit_if_enabled clock self event_type d w = (Ok (), w1)
        ∧ continues i w w1 (heard self i event_type) []
        ∧ ext w1 = after_event clock self event_type d (ext w).
Proof.
  unfold emit_if_enabled, heard, after_event. destruct (enable_events self); cbn [andb].
  - destruct (emit_event_spec clock self event_type d w) as (t & -> & Hd & _ & Hs).
    eexists. split; [done|]. split; [|done]. exists t. split; [done|]. split; [|done].
    rewrite tags_to_deliveries, Hd.
    rewrite (tags_of_round _ 0). cbn [event].
    repeat case_bool_decide; try done; lia.
  - exists w. split; [done|]. split; [apply continues_refl | done].
Qed.

Lemma dispatch_outcome (self : RetrieverTools E) (s : RetrievalStrategy) w :
  ∃ t, (if bool_decide (data_source s = "zilliz_cloud")
        then zilliz_search self (query s) (filters s) (parameters s)
        else if bool_decide (data_source s = "opensearch")
        then opensearch_search self (query s) (filters s) (parameters s)
        else if bool_decide (data_source s = "duckduckgo")
        then web_search self (query s) (parameters s)
        else ret []) w
       = (Ok (backend_outcome self s (ext w)).1,
          {| ext := (backend_outcome self s (ext w)).2; trace := trace w ++ t |})
       ∧ dispatches t = [] ∧ deliveries t = [].
Proof.
  unfold backend_outcome. repeat case_bool_decide.
  - destruct (zilliz_search_spec self (query s) (filters s) (parameters s) w)
      as (rs & e & t & -> & Hd & Hl & Hrs).
    exists t. split; [|done].
    destruct (zilliz_client self) as [client|]; [|by destruct Hrs as [-> ->]].
    destruct (_build_zilliz_filter (filters s)); by destruct Hrs as [-> ->].
  - destruct (opensearch_search_spec self (query s) (filters s) (parameters s) w)
      as (rs & e & t & -> & Hd & Hl & Hrs).
    exists t. split; [|done].
    destruct (opensearch_client self) as [client|]; [|by destruct Hrs as [-> ->]].
    destruct (_build_opensearch_filter (filters s)); by destruct Hrs as [-> ->].
  - destruct (web_search_spec self (query s) (parameters s) w)
      as (rs & e & t & -> & Hd & Hl & -> & ->).
    by exists t.
  - exists []. rewrite app_nil_r. by destruct w.
Qed.

Lemma execute_course (self : RetrieverAgent E) (s : RetrievalStrategy) w :
  let rs := (backend_outcome (tools self) s (ext w)).1 in
  ∃ w1, _execute_search_strategy clock self s w = (Ok rs, w1)
        ∧ continues i w w1 (heard self i "ToolCallCompleted") [(s, rs)]
        ∧ ext w1 = after_event clock self "ToolCallCompleted"
                     (ToolCallCompletedData (data_source s) (length rs))
                     (backend_outcome (tools self) s (ext w)).2.
Proof.
  intros rs. unfold _execute_search_strategy.
  destruct (dispatch_outcome (tools self) s w) as (t & Hdispatch & Hd & Hl).
  fold rs in Hdispatch.
  set (w0 := {| ext := (backend_outcome (tools self) s (ext w)).2; trace := trace w ++ t |})
    in Hdispatch.
  destruct (emit_if_enabled_course self "ToolCallCompleted"
              (ToolCallCompletedData (data_source s) (length rs)) w0)
    as (w1 & Hemit & Hcont & Hext).
  eexists. split.
  - erewrite bind_ok; [reflexivity|].
    apply try_ok. erewrite bind_ok by exact Hdispatch.
    apply try_ok. by erewrite bind_ok by exact Hemit.
  - cbn [ext]. split; [|exact Hext].
    assert (Hw0 : continues i w w0 [] []).
    { exists t. split; [done|]. split; [|done]. by rewrite tags_to_deliveries, Hl. }
    pose proof (continues_trans _ _ _ _ _ _ _ Hw0 Hcont) as Hw1.
    destruct Hw1 as (t1 & Ht1 & Htags & Hds). exists (t1 ++ [ObsDispatch s rs]).
    cbn [trace]. rewrite Ht1, app_assoc. split; [done|].
    rewrite tags_to_app, dispatches_app, Htags, Hds. cbn. by rewrite app_nil_r.
Qed.

Lemma search_try_course (self : RetrieverAgent E) (q : pystr) (context : pydict)
    (start_time : Z) w :
  let strategy := chosen_strategy cm q context in
  ∃ w2 w3 last w4 r w5,
    ext w2 = after_event clock self "RetrievalStrategyCompleted"
               (RetrievalStrategyCompletedData (value (strategy_type strategy))
                  (data_source strategy) (query strategy))
               (after_event clock self "RetrievalStarted"
                  (RetrievalStartedData q context start_time) (ext w))
    ∧ _execute_search_strategy clock self strategy w2
      = (Ok (backend_outcome (tools self) strategy (ext w2)).1, w3)
    ∧ (if fell_back strategy (backend_outcome (tools self) strategy (ext w2)).1
       then ∃ fb t w3',
              fallback_strategy strategy = Some fb ∧ fb_strategy_type fb = value t
              ∧ ext w3' = after_event clock self "FallbackStrategyActivated"
                            (FallbackStrategyActivatedData fb) (ext w3)
              ∧ last = (backend_outcome (tools self) (fallback_of strategy t fb) (ext w3')).1
              ∧ _execute_search_strategy clock self (fallback_of strategy t fb) w3'
                = (Ok last, w4)
              ∧ continues i w w4
                  (heard self i "RetrievalStarted" ++ heard self i "RetrievalStrategyCompleted"
                   ++ heard self i "ToolCallCompleted"
                   ++ heard self i "FallbackStrategyActivated"
                   ++ heard self i "ToolCallCompleted")
                  [(strategy, []); (fallback_of strategy t fb, last)]
       else last = (backend_outcome (tools self) strategy (ext w2)).1 ∧ w4 = w3
            ∧ continues i w w4
                (heard self i "RetrievalStarted" ++ heard self i "RetrievalStrategyCompleted"
                 ++ heard self i "ToolCallCompleted")
                [(strategy, last)])
    ∧ search_try clock cm self q context start_time w = (r, w5)
    ∧ match _post_process_results last strategy with
      | Ok out =>
          r = Ok (success_response q strategy out (clock (ext w4) - start_time)
                    (clock (ext w4)))
          ∧ continues i w4 w5 (heard self i "RetrievalCompleted") []
          ∧ ext w5 = after_event clock self "RetrievalCompleted"
                       (RetrievalCompletedData (length out) (clock (ext w4) - start_time)
                          (value (strategy_type strategy))) (ext w4)
      | Raise x => r = Raise x ∧ w5 = w4
      end.
Proof.
  intros strategy. unfold search_try.
  destruct (emit_if_enabled_course self "RetrievalStarted"
              (RetrievalStartedData q context start_time) w) as (w1 & He1 & Hc1 & Hx1).
  rewrite (bind_ok _ _ _ _ _ He1).
  rewrite strategy_record_think, bind_lift_ok. fold strategy.
  destruct (emit_if_enabled_course self "RetrievalStrategyCompleted"
              (RetrievalStrategyCompletedData (value (strategy_type strategy))
                 (data_source strategy) (query strategy)) w1) as (w2 & He2 & Hc2 & Hx2).
  rewrite (bind_ok _ _ _ _ _ He2).
  destruct (execute_course self strategy w2) as (w3 & Hexec & Hc3 & Hx3).
  rewrite (bind_ok _ _ _ _ _ Hexec).
  set (rs1 := (backend_outcome (tools self) strategy (ext w2)).1) in *.
  pose proof (continues_trans _ _ _ _ _ _ _ Hc1 Hc2) as Hc12.
  pose proof (continues_trans _ _ _ _ _ _ _ Hc12 Hc3) as Hc123. cbn [app] in Hc123.
  rewrite <- app_assoc in Hc123.
  assert (∃ last w4,
    (match rs1, fallback_strategy strategy with
     | [], Some fb =>
         observe (ObsLog (FallbackChosen fb)) >>
         emit_if_enabled clock self "FallbackStrategyActivated"
           (FallbackStrategyActivatedData fb) >>
         let* fallback := lift (fallback_record strategy fb) in
         _execute_search_strategy clock self fallback
     | _, _ => ret rs1
     end) w3 = (Ok last, w4)
    ∧ (if fell_back strategy rs1
       then ∃ fb t w3',
              fallback_strategy strategy = Some fb ∧ fb_strategy_type fb = value t
              ∧ ext w3' = after_event clock self "FallbackStrategyActivated"
                            (FallbackStrategyActivatedData fb) (ext w3)
              ∧ last = (backend_outcome (tools self) (fallback_of strategy t fb) (ext w3')).1
              ∧ _execute_search_strategy clock self (fallback_of strategy t fb) w3'
                = (Ok last, w4)
              ∧ continues i w w4
                  (heard self i "RetrievalStarted" ++ heard self i "RetrievalStrategyCompleted"
                   ++ heard self i "ToolCallCompleted"
                   ++ heard self i "FallbackStrategyActivated"
                   ++ heard self i "ToolCallCompleted")
                  [(strategy, []); (fallback_of strategy t fb, last)]
       else last = rs1 ∧ w4 = w3
            ∧ continues i w w4
                (heard self i "RetrievalStarted" ++ heard self i "RetrievalStrategyCompleted"
                 ++ heard self i "ToolCallCompleted")
                [(strategy, last)]))
    as (last & w4 & Hfb & Hcourse).
  { unfold fell_back. clearbody rs1. destruct rs1 as [|r1 rest].
    - destruct (fallback_strategy strategy) as [fb|] eqn:Hfallback.
      + destruct (fallback_record_chosen cm q context fb Hfallback) as (t & Ht & Hrec).
        fold strategy in Hrec. rewrite bind_observe.
        fold (logged w3 (FallbackChosen fb)).
        destruct (emit_if_enabled_course self "FallbackStrategyActivated"
                    (FallbackStrategyActivatedData fb) (logged w3 (FallbackChosen fb)))
          as (w3' & He3 & Hc3' & Hx3').
        rewrite (bind_ok _ _ _ _ _ He3), Hrec, bind_lift_ok.
        destruct (execute_course self (fallback_of strategy t fb) w3')
          as (w4 & Hexec2 & Hc4 & Hx4).
        eexists _, w4. split; [exact Hexec2|].
        exists fb, t, w3'. repeat split; try done.
        pose proof (continues_trans _ _ _ _ _ _ _ Hc123 (continues_logged w3 (FallbackChosen fb))) as Ha.
        pose proof (continues_trans _ _ _ _ _ _ _ Ha Hc3') as Hb.
        pose proof (continues_trans _ _ _ _ _ _ _ Hb Hc4) as Hc.
        rewrite !app_nil_r in Hc. cbn [app] in Hc.
        by rewrite <- !app_assoc in Hc.
      + by exists [], w3.
    - by exists (r1 :: rest), w3. }
  rewrite (bind_ok _ _ _ _ _ Hfb).
  destruct (_post_process_results last strategy) as [out|x] eqn:Hpost.
  - rewrite bind_lift_ok, !bind_now.
    destruct (emit_if_enabled_course self "RetrievalCompleted"
                (RetrievalCompletedData (length out) (clock (ext w4) - start_time)
                   (value (strategy_type strategy))) w4) as (w5 & He5 & Hc5 & Hx5).
    rewrite (bind_ok _ _ _ _ _ He5).
    exists w2, w3, last, w4. eexists _, w5.
    split; [by rewrite Hx2, Hx1|]. split; [done|]. split; [done|].
    split; [reflexivity|]. by rewrite Hpost.
  - rewrite bind_lift_raise.
    exists w2, w3, last, w4. eexists _, w4.
    split; [by rewrite Hx2, Hx1|]. split; [done|]. split; [done|].
    split; [reflexivity|]. by rewrite Hpost.
Qed.
End Course.

Section Calls.
Context {E : Type} (clock : E → Z) (cm : CaseMapping).
Implicit Types w : World E.

Lemma search_except_course (i : nat) (self : RetrieverAgent E) (q : pystr) (x : exn) w :
  ∃ w1, search_except clock self q x w = (Ok (failure_response q x (clock (ext w1))), w1)
        ∧ continues i w w1 (heard self i "RetrievalError") []
        ∧ ext w1 = after_event clock self "RetrievalError"
                     (RetrievalErrorData (exn_msg x) q) (ext w).
Proof.
  unfold search_except. rewrite bind_observe. fold (logged w (RetrievalFailed x)).
  destruct (emit_if_enabled_course clock i self "RetrievalError"
              (RetrievalErrorData (exn_msg x) q) (logged w (RetrievalFailed x)))
    as (w1 & Hemit & Hc & Hx).
  rewrite (bind_ok _ _ _ _ _ Hemit), bind_now.
  exists w1. split; [done|]. split; [|done].
  apply (continues_trans i _ _ _ [] _ [] _ (continues_logged i w _) Hc).
Qed.

(** The whole call, for handler number [i]. *)
Lemma search_course (i : nat) (self : RetrieverAgent E) (q : pystr)
    (context : option pydict) (session_id user_id : option pystr) w :
  let strategy := chosen_strategy cm q (default ∅ context) in
  ∃ resp w1 ds last,
    search clock cm self q context session_id user_id w = (Ok resp, w1)
    ∧ continues i w w1
        (heard self i "RetrievalStarted" ++ heard self i "RetrievalStrategyCompleted"
         ++ heard self i "ToolCallCompleted"
         ++ (if bool_decide (length ds = 2%nat)
             then heard self i "FallbackStrategyActivated" ++ heard self i "ToolCallCompleted"
             else [])
         ++ heard self i (if success resp then "RetrievalCompleted" else "RetrievalError"))
        ds
    ∧ (ds = [(strategy, last)] ∨ ∃ fallback, ds = [(strategy, []); (fallback, last)])
    ∧ match _post_process_results last strategy with
      | Ok out => ∃ duration at_time,
                    resp = success_response q strategy out duration at_time
      | Raise x => ∃ at_time, resp = failure_response q x at_time
      end.
Proof.
  intros strategy. unfold search. rewrite bind_now.
  destruct (search_try_course clock cm i self q (default ∅ context) (clock (ext w)) w)
    as (w2 & w3 & last & w4 & r & w5 & _ & _ & Hfb & Htry & Hpost).
  fold strategy in Hfb, Hpost.
  assert (∃ ds, continues i w w4
      (heard self i "RetrievalStarted" ++ heard self i "RetrievalStrategyCompleted"
       ++ heard self i "ToolCallCompleted"
       ++ (if bool_decide (length ds = 2%nat)
           then heard self i "FallbackStrategyActivated" ++ heard self i "ToolCallCompleted"
           else [])) ds
      ∧ (ds = [(strategy, last)] ∨ ∃ fallback, ds = [(strategy, []); (fallback, last)]))
    as (ds & Hc4 & Hds).
  { destruct (fell_back strategy _).
    - destruct Hfb as (fb & t & w3' & _ & _ & _ & _ & _ & Hc).
      eexists. split; [|right; by eexists]. by rewrite bool_decide_true.
    - destruct Hfb as (_ & _ & Hc).
      eexists. split; [|by left]. rewrite bool_decide_false by done.
      by rewrite app_nil_r. }
  destruct (_post_process_results last strategy) as [out|x] eqn:Hpp.
  - destruct Hpost as (-> & Hc5 & _). rewrite (try_ok _ _ _ _ _ Htry).
    eexists _, w5, ds, last. split; [reflexivity|]. cbn [success success_response].
    rewrite Hpp. split; [|split; [done | by eexists _, _]].
    pose proof (continues_trans i _ _ _ _ _ _ _ Hc4 Hc5) as Hc.
    by rewrite app_nil_r, <- !app_assoc in Hc.
  - destruct Hpost as [-> ->]. rewrite (try_raise _ _ _ _ _ Htry).
    destruct (search_except_course i self q x w4) as (w6 & -> & Hc6 & _).
    eexists _, w6, ds, last. split; [reflexivity|]. cbn [success failure_response].
    rewrite Hpp. split; [|split; [done | by eexists]].
    pose proof (continues_trans i _ _ _ _ _ _ _ Hc4 Hc6) as Hc.
    by rewrite app_nil_r, <- !app_assoc in Hc.
Qed.

Lemma deliveries_none (t : list Obs) : (∀ i, tags_to i t = []) → deliveries t = [].
Proof.
  induction t as [|[l|s rs|j ev] t IH]; intros Hnone; [done| | |].
  - apply IH. intros i. apply (Hnone i).
  - apply IH. intros i. apply (Hnone i).
  - specialize (Hnone j). cbn in Hnone. by rewrite bool_decide_true in Hnone.
Qed.

(** X11. With events enabled every registered handler hears the events of
    a call in this order: RetrievalStarted, RetrievalStrategyCompleted,
    ToolCallCompleted, then FallbackStrategyActivated and a second
    ToolCallCompleted exactly when the call dispatched twice, and last
    RetrievalCompleted if the response is a success and RetrievalError if
    it is a failure. *)
Theorem search_events_in_order (self : RetrieverAgent E) (q : pystr)
    (context : option pydict) (session_id user_id : option pystr) w (i : nat) :
  enable_events self = true → (i < length (event_handlers self))%nat →
  ∃ resp w1 t,
    search clock cm self q context session_id user_id w = (Ok resp, w1)
    ∧ trace w1 = trace w ++ t
    ∧ tags_to i t
      = ["RetrievalStarted"; "RetrievalStrategyCompleted"; "ToolCallCompleted"]
        ++ (if bool_decide (length (dispatches t) = 2%nat)
            then ["FallbackStrategyActivated"; "ToolCallCompleted"]
            else [])
        ++ [if success resp then "RetrievalCompleted" else "RetrievalError"].
Proof.
  intros Henabled Hi.
  destruct (search_course i self q context session_id user_id w)
    as (resp & w1 & ds & last & Hsearch & (t & Ht & Htags & Hds) & _).
  exists resp, w1, t. split; [done|]. split; [done|].
  rewrite Htags, Hds. unfold heard. rewrite Henabled, bool_decide_true by done.
  cbn [andb]. by case_bool_decide.
Qed.

(** X12. With events disabled a call awaits no handler at all, whatever is
    registered, and the outcome of the call is the one of the agent without
    listeners. *)
Theorem search_without_events (self : RetrieverAgent E) (q : pystr)
    (context : option pydict) (session_id user_id : option pystr) w :
  enable_events self = false →
  (∃ resp w1 t, search clock cm self q context session_id user_id w = (Ok resp, w1)
                ∧ trace w1 = trace w ++ t ∧ deliveries t = [])
  ∧ (search clock cm self q context session_id user_id w).1
    = (search clock cm (with_listeners self []) q context session_id user_id w).1
  ∧ ext (search clock cm self q context session_id user_id w).2
    = ext (search clock cm (with_listeners self []) q context session_id user_id w).2.
Proof.
  intros Hdisabled. split.
  - destruct (search_course 0 self q context session_id user_id w)
      as (resp & w1 & ds & last & Hsearch & (t & Ht & _) & _).
    exists resp, w1, t. split; [done|]. split; [done|].
    apply deliveries_none. intros i.
    destruct (search_course i self q context session_id user_id w)
      as (resp' & w1' & ds' & last' & Hsearch' & (t' & Ht' & Htags & _) & _).
    rewrite Hsearch in Hsearch'. injection Hsearch' as <- <-.
    rewrite Ht in Ht'. apply app_inv_head in Ht' as <-.
    rewrite Htags. unfold heard. rewrite Hdisabled. cbn [andb].
    by case_bool_decide.
  - assert (Hsim : sim (search clock cm self q context session_id user_id)
                       (search clock cm (with_listeners self []) q context
                          session_id user_id)).
    { unfold search, search_try, search_except, _execute_search_strategy,
        emit_if_enabled. cbn [with_listeners enable_events tools].
      rewrite Hdisabled.
      repeat first [ apply sim_zilliz | apply sim_opensearch | apply sim_web
                   | apply sim_ret | apply sim_lift | apply sim_observe
                   | apply (sim_now clock) | apply sim_call
                   | apply sim_bind; [|intros ?] | apply sim_try; [|intros ?]
                   | match goal with
                     | |- sim (match ?x with _ => _ end) _ => destruct x
                     end ]. }
    by apply Hsim.
Qed.

(** X13. The metadata of a success always names the strategy that was
    selected for the query and the data source of that strategy, also when
    the results are those of the fallback dispatch; it holds the query as
    given and as rewritten, and [total_results] is the number of results
    returned.  A failure carries no results, the code ["RETRIEVAL_FAILED"],
    and one message in the metadata and in the error. *)
Theorem search_metadata (self : RetrieverAgent E) (q : pystr) (context : option pydict)
    (session_id user_id : option pystr) w :
  let selected := _select_search_strategy cm
                    (_rewrite_query_if_needed q (default ∅ context)) (default ∅ context) in
  ∃ resp w1,
    search clock cm self q context session_id user_id w = (Ok resp, w1)
    ∧ if success resp
      then error resp = None
           ∧ ∃ duration at_time,
               response_metadata resp
               = SuccessMetadata (length (results resp)) q
                   (_rewrite_query_if_needed q (default ∅ context))
                   (value selected) (_get_data_source_for_strategy selected)
                   duration at_time
      else results resp = []
           ∧ ∃ msg at_time,
               response_metadata resp = FailureMetadata q msg at_time
               ∧ error resp = Some {| code := "RETRIEVAL_FAILED"; message := msg |}.
Proof.
  intros selected.
  destruct (search_course 0 self q context session_id user_id w)
    as (resp & w1 & ds & last & Hsearch & _ & _ & Hresp).
  exists resp, w1. split; [done|].
  destruct (_post_process_results last _) as [out|x].
  - destruct Hresp as (duration & at_time & ->). cbn. split; [done|]. by eexists _, _.
  - destruct Hresp as (at_time & ->). cbn. split; [done|]. by eexists _, _.
Qed.

(** X14. A record whose data source is none of the three that are known
    (the crm one, for example) is dispatched to no backend: the result is
    the empty list, and the outside state changes by the handlers of the
    ToolCallCompleted event only. *)
Theorem execute_unknown_source (self : RetrieverAgent E) (s : RetrievalStrategy) w :
  data_source s ∉ known_sources →
  ∃ w1, _execute_search_strategy clock self s w = (Ok [], w1)
        ∧ ext w1 = after_event clock self "ToolCallCompleted"
                     (ToolCallCompletedData (data_source s) 0) (ext w).
Proof.
  intros Hsource. unfold known_sources in Hsource.
  rewrite !not_elem_of_cons in Hsource. destruct Hsource as (H1 & H2 & H3 & _).
  destruct (execute_course clock 0 self s w) as (w1 & Hexec & _ & Hext).
  assert (Hout : backend_outcome (tools self) s (ext w) = ([], ext w)).
  { unfold backend_outcome. by rewrite !bool_decide_false. }
  rewrite Hout in Hexec, Hext. by exists w1.
Qed.

(** X15. A dispatch reads the data source, the query, the filters and the
    parameters of its record and nothing else; a web dispatch does not read
    the filters either, so no filter of the context narrows a web search. *)
Theorem execute_reads (self : RetrieverAgent E) (s s' : RetrievalStrategy) w :
  data_source s = data_source s' → query s = query s' → parameters s = parameters s' →
  filters s = filters s' ∨ data_source s = "duckduckgo" →
  (_execute_search_strategy clock self s w).1 = (_execute_search_strategy clock self s' w).1
  ∧ ext (_execute_search_strategy clock self s w).2
    = ext (_execute_search_strategy clock self s' w).2.
Proof.
  intros Hsource Hquery Hparameters Hfilters.
  destruct (execute_course clock 0 self s w) as (w1 & -> & _ & Hext).
  destruct (execute_course clock 0 self s' w) as (w1' & -> & _ & Hext').
  assert (Hout : backend_outcome (tools self) s (ext w)
                 = backend_outcome (tools self) s' (ext w)).
  { unfold backend_outcome. rewrite <- Hsource, <- Hquery, <- Hparameters.
    destruct Hfilters as [<-|Hweb]; [done|].
    rewrite Hweb. repeat case_bool_decide; done. }
  cbn [fst snd]. by rewrite Hext, Hext', Hout, Hsource.
Qed.

(** X16. With neither the vector store nor the keyword index configured, a
    call whose selected strategy is [vector] or [hybrid] dispatches to the
    vector store and then, as fallback, to the keyword index, both of which
    return nothing; the fallback has no fallback of its own, so web search
    is not tried and the response has no results. *)
Theorem search_unconfigured (self : RetrieverAgent E) (q : pystr)
    (context : option pydict) (session_id user_id : option pystr) w :
  let strategy := chosen_strategy cm q (default ∅ context) in
  zilliz_client (tools self) = None → opensearch_client (tools self) = None →
  strategy_type strategy = VECTOR ∨ strategy_type strategy = HYBRID →
  ∃ resp w1 fallback,
    search clock cm self q context session_id user_id w = (Ok resp, w1)
    ∧ results resp = []
    ∧ drop (length (dispatches (trace w))) (dispatches (trace w1))
      = [(strategy, []); (fallback, [])]
    ∧ strategy_type fallback = KEYWORD
    ∧ data_source fallback = "opensearch"
    ∧ (enable_events self = false → ext w1 = ext w).
Proof.
  intros strategy Hvector Hkeyword Htype.
  assert (Hsource : data_source strategy = "zilliz_cloud"
                    ∧ fallback_strategy strategy
                      = Some {| fb_strategy_type := "keyword";
                                fb_data_source := "opensearch" |}).
  { subst strategy. cbn [chosen_strategy data_source fallback_strategy strategy_type] in *.
    by destruct Htype as [-> | ->]. }
  destruct Hsource as [Hsource Hfallback].
  assert (Hprimary : ∀ e, backend_outcome (tools self) strategy e = ([], e)).
  { intros e. unfold backend_outcome. by rewrite Hsource, bool_decide_true, Hvector. }
  assert (Hsecond : ∀ t fb e, fb_data_source fb = "opensearch" →
            backend_outcome (tools self) (fallback_of strategy t fb) e = ([], e)).
  { intros t fb e Hfb. unfold backend_outcome. cbn [fallback_of data_source].
    by rewrite Hfb, bool_decide_false, bool_decide_true, Hkeyword. }
  unfold search. rewrite bind_now.
  destruct (search_try_course clock cm 0 self q (default ∅ context) (clock (ext w)) w)
    as (w2 & w3 & last & w4 & r & w5 & Hx2 & Hexec & Hfb & Htry & Hpost).
  fold strategy in Hx2, Hexec, Hfb, Hpost.
  rewrite Hprimary in Hfb, Hexec. cbn [fst] in Hfb, Hexec.
  unfold fell_back in Hfb. rewrite Hfallback in Hfb.
  destruct Hfb as (fb & t & w3' & [= <-] & Ht & Hx3' & Hlast & Hexec2 & Hc).
  rewrite Hsecond in Hlast by done. cbn [fst] in Hlast. subst last.
  assert (t = KEYWORD) as -> by (destruct t; by try discriminate Ht).
  destruct Hc as (tr & Htr & _ & Hds).
  assert (Hquiet : enable_events self = false → ext w4 = ext w).
  { intros Hoff.
    destruct (execute_course clock 0 self strategy w2) as (w3a & Ha & _ & Hxa).
    rewrite Hprimary in Ha, Hxa. cbn [fst snd] in Ha, Hxa.
    rewrite Hexec in Ha. injection Ha as <-.
    destruct (execute_course clock 0 self
                (fallback_of strategy KEYWORD
                   {| fb_strategy_type := "keyword"; fb_data_source := "opensearch" |}) w3')
      as (w4a & Hb & _ & Hxb).
    rewrite Hsecond in Hb, Hxb by done. cbn [fst snd] in Hb, Hxb.
    rewrite Hexec2 in Hb. injection Hb as <-.
    unfold after_event in *. rewrite Hoff in *. congruence. }
  destruct (_post_process_results [] strategy) as [out|x] eqn:Hpp.
  - destruct Hpost as (-> & (tr5 & Htr5 & _ & Hds5) & Hx5).
    rewrite (try_ok _ _ _ _ _ Htry).
    assert (out = []) as ->.
    { apply post_process_part, submseteq_length in Hpp.
      destruct out; [done | simpl in Hpp; lia]. }
    eexists _, w5, _. split; [reflexivity|]. split; [done|]. split.
    + rewrite Htr5, Htr, !dispatches_app, Hds, Hds5, app_nil_r.
      by rewrite drop_app_length.
    + split; [done|]. split; [done|]. intros Hoff. rewrite Hx5.
      unfold after_event. rewrite Hoff. by apply Hquiet.
  - destruct Hpost as [-> ->]. rewrite (try_raise _ _ _ _ _ Htry).
    destruct (search_except_course 0 self q x w4) as (w6 & -> & (tr6 & Htr6 & _ & Hds6) & Hx6).
    eexists _, w6, _. split; [reflexivity|]. split; [done|]. split.
    + rewrite Htr6, Htr, !dispatches_app, Hds, Hds6, app_nil_r.
      by rewrite drop_app_length.
    + split; [done|]. split; [done|]. intros Hoff. rewrite Hx6.
      unfold after_event. rewrite Hoff. by apply Hquiet.
Qed.

Lemma chosen_requests (q : pystr) (context : pydict) :
  let s := chosen_strategy cm q context in
  let limit := default (PyInt 10) (context !! "limit") in
  (∀ flt, zilliz_request (query s) (parameters s) flt
          = {| zq_query := _rewrite_query_if_needed q context;
               zq_limit := limit; zq_filter := flt |})
  ∧ web_request (query s) (parameters s)
    = {| wq_query := _rewrite_query_if_needed q context; wq_max_results := limit |}
  ∧ (∀ flt, opensearch_request (query s) (parameters s) flt
            = {| oq_query := _rewrite_query_if_needed q context;
                 oq_fields :=
                   match strategy_type s with
                   | VECTOR => PyList [PyStr (utf8 "content"); PyStr (utf8 "summary")]
                   | KEYWORD => PyList [PyStr (utf8 "title"); PyStr (utf8 "content");
                                        PyStr (utf8 "keywords")]
                   | _ => PyList [PyStr (utf8 "*")]
                   end;
                 oq_filter := flt;
                 oq_size := limit |})
  ∧ ∀ t fb, query (fallback_of s t fb) = query s
            ∧ parameters (fallback_of s t fb) = parameters s.
Proof.
  intros s limit. subst s limit.
  destruct (build_search_parameters_lookup (_rewrite_query_if_needed q context) context
              (strategy_type (chosen_strategy cm q context)))
    as (Hlimit & Hfields).
  unfold zilliz_request, web_request, opensearch_request.
  cbn [chosen_strategy query parameters strategy_type] in *.
  rewrite Hlimit, Hfields. cbn [default].
  repeat split. intros flt. f_equal.
  by destruct (_select_search_strategy _ _ _).
Qed.

(** X17. With which request a call reaches its backends.  For the record
    that [search] builds, each dispatcher calls its backend with the
    rewritten query and, as its cap, the limit of the context or 10: the
    default 5 of the web dispatcher is never used.  The keyword index is
    asked over the fields of the selected strategy, which are content and
    summary after [vector] and all fields after [hybrid].  The record of the
    fallback dispatch has the same query, filters and parameters. *)
Theorem requests_of_a_call (self : RetrieverTools E) (q : pystr) (context : pydict) w :
  let s := chosen_strategy cm q context in
  let rewritten := _rewrite_query_if_needed q context in
  let limit := default (PyInt 10) (context !! "limit") in
  (∀ client flt,
     zilliz_client self = Some client → _build_zilliz_filter (filters s) = Ok flt →
     let answer := client {| zq_query := rewritten; zq_limit := limit; zq_filter := flt |}
                     (ext w) in
     ∃ w1, zilliz_search self (query s) (filters s) (parameters s) w
           = (Ok (zilliz_results answer.1), w1)
           ∧ ext w1 = answer.2)
  ∧ (∀ client flt,
       opensearch_client self = Some client →
       _build_opensearch_filter (filters s) = Ok flt →
       let answer :=
         client {| oq_query := rewritten;
                   oq_fields :=
                     match strategy_type s with
                     | VECTOR => PyList [PyStr (utf8 "content"); PyStr (utf8 "summary")]
                     | KEYWORD => PyList [PyStr (utf8 "title"); PyStr (utf8 "content");
                                          PyStr (utf8 "keywords")]
                     | _ => PyList [PyStr (utf8 "*")]
                     end;
                   oq_filter := flt;
                   oq_size := limit |} (ext w) in
       ∃ w1, opensearch_search self (query s) (filters s) (parameters s) w
             = (Ok (opensearch_results answer.1), w1)
             ∧ ext w1 = answer.2)
  ∧ (let answer := web_search_tools self
                     {| wq_query := rewritten; wq_max_results := limit |} (ext w) in
     ∃ w1, web_search self (query s) (parameters s) w = (Ok (web_results answer.1), w1)
           ∧ ext w1 = answer.2)
  ∧ ∀ t fb, query (fallback_of s t fb) = query s
            ∧ filters (fallback_of s t fb) = filters s
            ∧ parameters (fallback_of s t fb) = parameters s.
Proof.
  intros s rewritten limit.
  destruct (chosen_requests q context) as (Hzilliz & Hweb & Hopensearch & Hfallback).
  fold s rewritten limit in Hzilliz, Hweb, Hopensearch, Hfallback.
  split; [|split; [|split]].
  - intros client flt Hclient Hflt answer.
    destruct (zilliz_search_spec self (query s) (filters s) (parameters s) w)
      as (rs & e & t & Hrun & _ & _ & Hrs).
    rewrite Hclient, Hflt, Hzilliz in Hrs. destruct Hrs as [-> ->].
    eexists. split; [exact Hrun|done].
  - intros client flt Hclient Hflt answer.
    destruct (opensearch_search_spec self (query s) (filters s) (parameters s) w)
      as (rs & e & t & Hrun & _ & _ & Hrs).
    rewrite Hclient, Hflt, Hopensearch in Hrs. destruct Hrs as [-> ->].
    eexists. split; [exact Hrun|done].
  - intros answer.
    destruct (web_search_spec self (query s) (parameters s) w)
      as (rs & e & t & Hrun & _ & _ & Hrs & He).
    rewrite Hweb in Hrs, He. subst rs e.
    eexists. split; [exact Hrun|done].
  - intros t fb. destruct (Hfallback t fb) as [Hq Hp]. done.
Qed.
End Calls.

(** * Runs on the sample inputs *)

Lemma select_first_matching_rule_witness :
  _select_search_strategy ascii_case (utf8 "最新 AI news") {["doc_type" := PyStr (utf8 "pdf")]}
  = WEB.
Proof.
  destruct (select_first_matching_rule ascii_case (utf8 "最新 AI news")
              {["doc_type" := PyStr (utf8 "pdf")]}) as (_ & _ & _ & _ & _ & Hkw).
  apply (Hkw ascii_case_keeps (utf8 "最新")).
  - apply list_elem_of_here.
  - exists [], (utf8 " AI news"). vm_compute. reflexivity.
Defined.

Lemma rewrite_short_queries_witness :
  _rewrite_query_if_needed (utf8 "AI") ∅ = utf8 "AI 相关信息和详细内容"
  ∧ _rewrite_query_if_needed (utf8 "最新 AI news") ∅ = utf8 "最新 AI news".
Proof.
  split.
  - destruct (rewrite_short_queries ascii_case (utf8 "AI") ∅) as (Hshort & _).
    etrans; [apply Hshort; vm_compute; lia | vm_compute; reflexivity].
  - destruct (rewrite_short_queries ascii_case (utf8 "最新 AI news") ∅) as (_ & Hlong & _).
    apply Hlong. vm_compute. lia.
Defined.

Lemma data_source_and_fallback_tables_witness :
  ∃ t, fallback_mapping HYBRID = Some t
       ∧ fb_strategy_type {| fb_strategy_type := "keyword"; fb_data_source := "opensearch" |}
         = value t.
Proof.
  destruct (data_source_and_fallback_tables ascii_case (utf8 "AI") ∅)
    as (_ & _ & _ & _ & _ & _ & _ & _ & _ & _ & _ & Hentry).
  destruct (Hentry HYBRID {| fb_strategy_type := "keyword"; fb_data_source := "opensearch" |})
    as (t & Ht & Htag & _); [reflexivity|].
  by exists t.
Defined.

Lemma dispatchers_fail_soft_witness :
  ∃ w1, zilliz_search broken_vector_store (utf8 "AI") (PyDict ∅) ∅ start = (Ok [], w1)
  ∧ ∃ w2, opensearch_search broken_vector_store (utf8 "AI") (PyDict ∅) ∅ start = (Ok [], w2)
          ∧ ext w2 = ext start.
Proof.
  destruct (dispatchers_fail_soft broken_vector_store (utf8 "AI") (PyDict ∅) ∅ start)
    as ((rs & w1 & Hz & _ & _ & Hcall) & (rs' & w2 & Ho & Hnone & _) & _).
  destruct (Hcall _ [] eq_refl eq_refl) as (_ & _ & Hempty).
  rewrite Hempty in Hz by (left; by eexists).
  exists w1. split; [done|].
  destruct (Hnone eq_refl) as [-> Hext]. by exists w2.
Defined.

Example search_fallback_run :
  (λ '(s, rs), (strategy_type s, data_source s, length rs))
    <$> dispatches (trace run_quoted.2)
  = [(KEYWORD, "opensearch", 0%nat); (WEB, "duckduckgo", 2%nat)].
Proof. vm_compute. reflexivity. Qed.

Lemma search_never_raises_witness :
  ∃ resp, run_bad_limit.1 = Ok resp
          ∧ success resp = false
          ∧ results resp = []
          ∧ error resp
            = Some {| code := "RETRIEVAL_FAILED";
                      message := utf8 "slice indices must be integers or None or have an __index__ method" |}.
Proof.
  destruct (search_never_raises still_clock ascii_case (sample_agent false silent_web [recorder])
              (utf8 "AI") (Some {["limit" := PyStr (utf8 "ten")]}) None None start)
    as (resp & w1 & Hrun & _ & Hraise).
  exists resp. split; [unfold run_bad_limit; by rewrite Hrun|].
  edestruct Hraise as (_ & Hs & Hr & He & _); [vm_compute; reflexivity|].
  by rewrite Hs, Hr, He.
Defined.

(** C5 as the specification words it fails twice.  With events disabled the
    failure response comes back and no error event goes to the registered
    listener; and an exception that a backend raises during the dispatch is
    absorbed by the dispatcher, so the call ends on its success path. *)
Lemma search_failure_paths :
  (∃ resp, run_bad_limit.1 = Ok resp ∧ success resp = false
           ∧ deliveries (trace run_bad_limit.2) = []
           ∧ ext run_bad_limit.2 = [])
  ∧ (∃ resp, run_broken_backend.1 = Ok resp
             ∧ head (log_lines (trace run_broken_backend.2))
               = Some (ZillizSearchFailed (Exn "ConnectionError" (utf8 "unreachable")))
             ∧ success resp = true
             ∧ error resp = None
             ∧ event <$> ext run_broken_backend.2
               = ["RetrievalStarted"; "RetrievalStrategyCompleted"; "ToolCallCompleted";
                  "FallbackStrategyActivated"; "ToolCallCompleted"; "RetrievalCompleted"]).
Proof.
  split.
  - eexists. split; [vm_compute; reflexivity|]. repeat split.
  - eexists. split; [vm_compute; reflexivity|]. repeat split.
Qed.

Lemma listeners_isolated_witness :
  (search still_clock ascii_case
     (sample_agent true broken_vector_store (raising (Exn "RuntimeError" []) <$> [recorder]))
     (utf8 "AI") None None None start).1
  = run_broken_backend.1.
Proof.
  destruct (listeners_isolated still_clock ascii_case
              (sample_agent true broken_vector_store [recorder])
              "RetrievalStarted" (RetrievalErrorData [] []) start)
    as (_ & Hsame & Halike & _).
  symmetry. apply Hsame. split; [done|]. split; [done|]. split; [done|].
  apply (Halike (Exn "RuntimeError" [])).
Defined.

(** ** Runs for the further properties *)

Lemma filter_builders_of_dict_witness :
  _build_zilliz_filter (PyDict (<["doc_type" := PyStr (utf8 "pdf")]> {["ws_id" := PyInt 7]}))
  = _build_zilliz_filter (PyDict {["ws_id" := PyInt 7]})
  ∧ _build_opensearch_filter
      (PyDict (<["time_range" := PyStr (utf8 "recent")]> {["ws_id" := PyInt 7]}))
    = _build_opensearch_filter (PyDict {["ws_id" := PyInt 7]}).
Proof.
  destruct (filter_builders_of_dict {["ws_id" := PyInt 7]}) as (_ & _ & Hvector & Hkeyword).
  split; [apply Hvector | apply Hkeyword]; discriminate.
Defined.

Lemma dispatch_with_unusable_filters_witness :
  not_iterable PyNone
  ∧ (∃ w1, zilliz_search broken_vector_store (utf8 "AI") PyNone ∅ start = (Ok [], w1)
           ∧ ext w1 = ext start)
  ∧ (∃ w1, opensearch_search broken_vector_store (utf8 "AI") PyNone ∅ start = (Ok [], w1)
           ∧ ext w1 = ext start).
Proof.
  split; [exact I|].
  apply (dispatch_with_unusable_filters broken_vector_store (utf8 "AI") PyNone ∅ start).
  exact I.
Defined.

Lemma opensearch_all_or_nothing_witness :
  ∃ w1, opensearch_search (keyword_index [whole_hit; hit_without_id]) (utf8 "AI") (PyDict ∅) ∅
          start = (Ok [], w1).
Proof.
  destruct (opensearch_all_or_nothing (keyword_index [whole_hit; hit_without_id]) (utf8 "AI")
              ∅ ∅ start _ [whole_hit; hit_without_id] eq_refl (λ _, eq_refl))
    as (rs & w1 & Hrun & _ & Hnone).
  rewrite Hnone in Hrun; [by exists w1|].
  apply Exists_cons_tl, Exists_cons_hd. intros (_ & _ & [v Hid]). discriminate Hid.
Defined.

Lemma web_search_scores_witness :
  ∃ rs w1, web_search (keyword_index []) (utf8 "AI") ∅ start = (Ok rs, w1)
           ∧ length rs = 8%nat.
Proof.
  destruct (web_search_scores (keyword_index []) (utf8 "AI") ∅ start)
    as (rs & w1 & Hrun & _ & _ & Hitems).
  destruct (Hitems eight_items) as (_ & _ & Hlength); [vm_compute; reflexivity|].
  exists rs, w1. split; [exact Hrun|]. rewrite Hlength. vm_compute. reflexivity.
Defined.

Lemma web_results_capped_witness :
  web_search (keyword_index []) (utf8 "AI") ∅ start = (Ok (format_web 0 eight_items), start)
  ∧ length (format_web 0 eight_items) = 8%nat
  ∧ score_threshold_of (sample_strategy (PyInt 10)) = PyFloat (1 # 2)
  ∧ _post_process_results (format_web 0 eight_items) (sample_strategy (PyInt 10))
    = Ok (take 6 (format_web 0 eight_items))
  ∧ (length (take 6 (format_web 0 eight_items)) ≤ 6)%nat.
Proof.
  assert (Hrun : web_search (keyword_index []) (utf8 "AI") ∅ start
                 = (Ok (format_web 0 eight_items), start)) by (vm_compute; reflexivity).
  assert (Hhalf : score_threshold_of (sample_strategy (PyInt 10)) = PyFloat (1 # 2))
    by (vm_compute; reflexivity).
  assert (Hout : _post_process_results (format_web 0 eight_items) (sample_strategy (PyInt 10))
                 = Ok (take 6 (format_web 0 eight_items))) by (vm_compute; reflexivity).
  split; [exact Hrun|]. split; [vm_compute; reflexivity|]. split; [exact Hhalf|].
  split; [exact Hout|].
  exact (web_results_capped (keyword_index []) (utf8 "AI") ∅ start start _ _
           (sample_strategy (PyInt 10)) Hrun Hhalf Hout).
Defined.

Lemma SearchStrategy_round_trip_witness :
  ∃ x, SearchStrategy_of "graph" = Raise x ∧ exn_type x = "ValueError".
Proof.
  destruct (SearchStrategy_round_trip "graph") as (_ & _ & Hother).
  apply Hother. intros s. destruct s; discriminate.
Defined.

Lemma post_process_selects_witness :
  _post_process_results sample_results (sample_strategy (PyInt 2))
  = Ok [result_of "beta" (9 # 10); result_of "gamma" (9 # 10)]
  ∧ [result_of "beta" (9 # 10); result_of "gamma" (9 # 10)] ⊆+ sample_results.
Proof.
  assert (Hout : _post_process_results sample_results (sample_strategy (PyInt 2))
                 = Ok [result_of "beta" (9 # 10); result_of "gamma" (9 # 10)]).
  { vm_compute. reflexivity. }
  split; [exact Hout|].
  exact (proj1 (post_process_selects sample_results _ (sample_strategy (PyInt 2)) Hout)).
Defined.

Lemma post_process_type_errors_witness :
  ∃ x, _post_process_results [] (sample_strategy (PyStr (utf8 "ten"))) = Raise x
       ∧ exn_type x = "TypeError".
Proof.
  destruct (post_process_type_errors [] (sample_strategy (PyStr (utf8 "ten"))))
    as (Hlimit & _).
  apply Hlimit.
  - vm_compute. eexists. reflexivity.
  - vm_compute. discriminate.
  - intros z. vm_compute. discriminate.
Defined.

Lemma rewrite_adds_one_token_witness :
  length (split (_rewrite_query_if_needed (utf8 "AI") ∅)) = 2%nat.
Proof.
  destruct (rewrite_adds_one_token (utf8 "AI") ∅) as (_ & _ & Hshort).
  destruct Hshort as [_ Hlength]; [vm_compute; lia|].
  etrans; [exact Hlength|]. vm_compute. reflexivity.
Defined.

Lemma search_events_in_order_witness :
  enable_events (sample_agent true broken_vector_store [recorder]) = true
  ∧ (0 < length (event_handlers (sample_agent true broken_vector_store [recorder])))%nat
  ∧ ∃ resp w1 t,
      search still_clock ascii_case (sample_agent true broken_vector_store [recorder])
        (utf8 "AI") None None None start = (Ok resp, w1)
      ∧ trace w1 = trace start ++ t
      ∧ tags_to 0 t
        = ["RetrievalStarted"; "RetrievalStrategyCompleted"; "ToolCallCompleted"]
          ++ (if bool_decide (length (dispatches t) = 2%nat)
              then ["FallbackStrategyActivated"; "ToolCallCompleted"]
              else [])
          ++ [if success resp then "RetrievalCompleted" else "RetrievalError"].
Proof.
  split; [reflexivity|]. split; [simpl; lia|].
  apply (search_events_in_order still_clock ascii_case
           (sample_agent true broken_vector_store [recorder])).
  - reflexivity.
  - simpl. lia.
Defined.

Lemma search_without_events_witness :
  enable_events (sample_agent false silent_web [recorder]) = false
  ∧ ∃ resp w1 t,
      search still_clock ascii_case (sample_agent false silent_web [recorder])
        (utf8 "AI") None None None start = (Ok resp, w1)
      ∧ trace w1 = trace start ++ t ∧ deliveries t = [].
Proof.
  split; [reflexivity|].
  apply (search_without_events still_clock ascii_case
           (sample_agent false silent_web [recorder]) (utf8 "AI") None None None start).
  reflexivity.
Defined.

Lemma execute_unknown_source_witness :
  (data_source crm_record ∉ known_sources)
  ∧ ∃ w1, _execute_search_strategy still_clock
            (sample_agent true broken_vector_store [recorder]) crm_record start = (Ok [], w1)
          ∧ ext w1
            = after_event still_clock (sample_agent true broken_vector_store [recorder])
                "ToolCallCompleted" (ToolCallCompletedData (data_source crm_record) 0)
                (ext start).
Proof.
  assert (Hsource : data_source crm_record ∉ known_sources).
  { unfold known_sources. rewrite !not_elem_of_cons.
    repeat split; try (vm_compute; discriminate). apply not_elem_of_nil. }
  split; [exact Hsource|].
  exact (execute_unknown_source still_clock
           (sample_agent true broken_vector_store [recorder]) crm_record start Hsource).
Defined.

Lemma execute_reads_witness :
  (_execute_search_strategy still_clock (sample_agent true broken_vector_store [recorder])
     (web_record (PyDict {["ws_id" := PyInt 7]})) start).1
  = (_execute_search_strategy still_clock (sample_agent true broken_vector_store [recorder])
       (web_record PyNone) start).1.
Proof.
  eapply proj1.
  apply (execute_reads still_clock (sample_agent true broken_vector_store [recorder])
           (web_record (PyDict {["ws_id" := PyInt 7]})) (web_record PyNone) start);
    [reflexivity | reflexivity | reflexivity | right; vm_compute; reflexivity].
Defined.

Lemma search_unconfigured_witness :
  ∃ resp w1 fallback,
    search still_clock ascii_case (sample_agent false silent_web [recorder])
      (utf8 "AI") None None None start = (Ok resp, w1)
    ∧ results resp = []
    ∧ drop (length (dispatches (trace start))) (dispatches (trace w1))
      = [(chosen_strategy ascii_case (utf8 "AI") ∅, []); (fallback, [])]
    ∧ strategy_type fallback = KEYWORD.
Proof.
  destruct (search_unconfigured still_clock ascii_case
              (sample_agent false silent_web [recorder]) (utf8 "AI") None None None start)
    as (resp & w1 & fallback & Hrun & Hresults & Hdispatches & Htype & _).
  - reflexivity.
  - reflexivity.
  - right. vm_compute. reflexivity.
  - by exists resp, w1, fallback.
Defined.

Lemma ascii_case_fixes_suffix : fixed_by ascii_case elaboration_suffix.
Proof. vm_compute. repeat constructor; congruence. Qed.

Lemma rewrite_keeps_selection_witness :
  fixed_by ascii_case elaboration_suffix
  ∧ _select_search_strategy ascii_case (_rewrite_query_if_needed (utf8 "今天 news") ∅) ∅
    = _select_search_strategy ascii_case (utf8 "今天 news") ∅.
Proof.
  split; [exact ascii_case_fixes_suffix|].
  apply (rewrite_keeps_selection ascii_case (utf8 "今天 news") ∅).
  exact ascii_case_fixes_suffix.
Defined.

Lemma requests_of_a_call_witness :
  ∃ w1, zilliz_search broken_vector_store
          (query (chosen_strategy ascii_case (utf8 "AI") ∅))
          (filters (chosen_strategy ascii_case (utf8 "AI") ∅))
          (parameters (chosen_strategy ascii_case (utf8 "AI") ∅)) start
        = (Ok [], w1)
        ∧ ext w1 = [].
Proof.
  pose proof (requests_of_a_call ascii_case broken_vector_store (utf8 "AI") ∅ start) as H.
  cbv zeta in H. destruct H as (Hvector & _).
  destruct (zilliz_client broken_vector_store) as [client|] eqn:Hclient; [|discriminate].
  destruct (Hvector client [] eq_refl) as (w1 & Hrun & Hext); [vm_compute; reflexivity|].
  exists w1. injection Hclient as <-. split; [exact Hrun | exact Hext].
Defined.
